(** * PTRAIL: spatial features and statistics pivoting

    A shallow embedding of [features/spatial_features.py] and
    [ptrail/preprocessing/statistics.py].  The Python code works on
    pandas data frames; the part of pandas that the two files use is
    modelled in [Module Pandas], the Python run time (exceptions,
    [range], [multiprocessing.Pool]) in [Module Py], binary64
    arithmetic by the IEEE 754 specification of the standard library
    ([SpecFloat], precision 53, maximal exponent 1024). *)

From Stdlib Require Import ZArith List String Ascii Bool Lia.
From Stdlib Require Import SpecFloat DecimalString.
Import ListNotations.

Local Open Scope string_scope.
Local Open Scope list_scope.

(* ================================================================= *)
(** ** Python run time *)

Module Py.

(** The exceptions the two source files and pandas raise on the paths
    modelled here.  [OtherError] stands for any other exception a
    worker function may raise. *)
Inductive exn : Type :=
| KeyError (key : string)
| ValueError (msg : string)
| TypeError (msg : string)
| AttributeError (msg : string)
| IndexError (msg : string)
| OtherError (msg : string).

(** A computation either returns a value or raises. *)
Inductive result (A : Type) : Type :=
| Return (a : A)
| Raise (e : exn).

Arguments Return {A} a.
Arguments Raise {A} e.

Definition bind {A B : Type} (c : result A) (k : A -> result B) : result B :=
  match c with
  | Return a => k a
  | Raise e => Raise e
  end.

(** [try: body  except KeyError: handler]. *)
Definition try_except_KeyError {A : Type} (body : result A)
  (handler : result A) : result A :=
  match body with
  | Raise (KeyError _) => handler
  | other => other
  end.

(** Whether a computation ends in a [KeyError], the one exception the
    source catches. *)
Definition raises_KeyError {A : Type} (r : result A) : bool :=
  match r with
  | Raise (KeyError _) => true
  | _ => false
  end.

(** [for x in xs: ...] over a body that may raise: the results in
    order, or the first exception. *)
Fixpoint mapM {A B : Type} (f : A -> result B) (xs : list A) : result (list B) :=
  match xs with
  | [] => Return []
  | x :: rest =>
      bind (f x) (fun y => bind (mapM f rest) (fun ys => Return (y :: ys)))
  end.

(** [range(start, stop, step)] for a positive [step]: CPython computes
    the number of elements as [ceil((stop - start) / step)] when
    [start < stop] and 0 otherwise. *)
Definition range_len (start stop step : Z) : nat :=
  if (start <? stop)%Z then Z.to_nat ((stop - start + step - 1) / step) else 0%nat.

Definition range (start stop step : Z) : list Z :=
  map (fun k => (start + Z.of_nat k * step)%Z) (seq 0 (range_len start stop step)).

(** [multiprocessing.Pool(processes)]: the constructor refuses a
    process count below one.  The pool itself carries no data the
    model needs. *)
Definition Pool (processes : nat) : result unit :=
  if (processes <? 1)%nat
  then Raise (ValueError "Number of processes must be at least 1")
  else Return tt.

(** [pool.map(f, chunks)] and [pool.starmap]: the workers share no
    state and the results come back in submission order, so the
    parallel map is the sequential one; an exception in a worker aborts
    the call. *)
Definition pool_map {A B : Type} (_ : unit) (f : A -> result B)
  (chunks : list A) : result (list B) :=
  mapM f chunks.

End Py.

Export Py.

Declare Scope py_scope.
Delimit Scope py_scope with py.
Notation "x <- c ;; k" := (bind c (fun x => k))
  (at level 61, c at next level, right associativity) : py_scope.
Local Open Scope py_scope.

(* ================================================================= *)
(** ** binary64 *)

Module F64.

Definition prec : Z := 53.
Definition emax : Z := 1024.

Definition t : Type := spec_float.

Definition nan : t := S754_nan.
Definition div : t -> t -> t := SFdiv prec emax.
Definition sub : t -> t -> t := SFsub prec emax.
Definition ltb : t -> t -> bool := SFltb.
Definition leb : t -> t -> bool := SFleb.
Definition eqb : t -> t -> bool := SFeqb.

(** Conversion of an integer, as numpy does when an int64 meets a
    float64 (round to nearest even). *)
Definition of_Z (z : Z) : t := binary_normalize prec emax z 0 false.

Definition is_nan (x : t) : bool :=
  match x with S754_nan => true | _ => false end.

(** [numpy.isfinite]. *)
Definition is_finite (x : t) : bool :=
  match x with
  | S754_zero _ | S754_finite _ _ _ => true
  | S754_infinity _ | S754_nan => false
  end.

Definition is_zero (x : t) : bool :=
  match x with S754_zero _ => true | _ => false end.

End F64.

(* ================================================================= *)
(** ** The part of pandas the two files use *)

Module Pandas.

(** A value stored in a column.  Timestamps and time differences are
    counted in nanoseconds, as [datetime64[ns]] and [timedelta64[ns]]
    do; [VNaT] is the missing time, [VFloat F64.nan] the missing
    number. *)
Inductive cell : Type :=
| VFloat (x : F64.t)
| VInt (z : Z)
| VStr (s : string)
| VBool (b : bool)
| VTimestamp (ns : Z)
| VTimedelta (ns : Z)
| VNaT.

Definition NaN : cell := VFloat F64.nan.

Definition Series : Type := list cell.

(** A frame: the index levels (named or not) and the columns, in
    order.  Every level and column of a pandas frame has one value per
    row; [aligned] states it.  [L] is the type of the column labels:
    strings, or tuples of strings for the column MultiIndex that
    [pivot_table] returns. *)
Record Frame (L : Type) : Type := mkFrame {
  index : list (option string * Series);
  columns : list (L * Series)
}.

Arguments mkFrame {L} index columns.
Arguments index {L} f.
Arguments columns {L} f.

Definition DataFrame : Type := Frame string.

(** [len(df)]: the number of rows, that is, of index labels. *)
Definition len {L : Type} (df : Frame L) : nat :=
  match index df with
  | [] => 0
  | (_, labels) :: _ => List.length labels
  end.

Definition aligned {L : Type} (df : Frame L) : Prop :=
  index df <> [] /\
  Forall (fun lv => List.length (snd lv) = len df) (index df) /\
  Forall (fun c => List.length (snd c) = len df) (columns df).

(** The default [RangeIndex] of a frame of [n] rows. *)
Definition RangeIndex (n : nat) : list (option string * Series) :=
  [(None, map (fun k => VInt (Z.of_nat k)) (seq 0 n))].

Definition column_names {L : Type} (df : Frame L) : list L :=
  map fst (columns df).

Definition has_name (c : string) (names : list string) : bool :=
  existsb (String.eqb c) names.

Fixpoint lookup (c : string) (cols : list (string * Series)) : option Series :=
  match cols with
  | [] => None
  | (n, s) :: rest => if String.eqb c n then Some s else lookup c rest
  end.

(** [df[c]]: the column, or [KeyError]. *)
Definition getitem (df : DataFrame) (c : string) : result Series :=
  match lookup c (columns df) with
  | Some s => Return s
  | None => Raise (KeyError c)
  end.

(** [df[[c1; ...; cn]]]: the listed columns in the listed order; a
    label may repeat; [KeyError] when one is missing. *)
Definition getitems (df : DataFrame) (cs : list string) : result DataFrame :=
  cols <- mapM (fun c => s <- getitem df c ;; Return (c, s)) cs ;;
  Return (mkFrame (index df) cols).

(** [df[c] = values] for an array of values: the length must be the
    frame's; an existing column keeps its place, a new one goes last. *)
Definition setitem (df : DataFrame) (c : string) (values : Series)
  : result DataFrame :=
  if negb (List.length values =? len df)%nat
  then Raise (ValueError "Length of values does not match length of index")
  else if has_name c (column_names df)
  then Return (mkFrame (index df)
                 (map (fun col => if String.eqb c (fst col) then (c, values) else col)
                      (columns df)))
  else Return (mkFrame (index df) (columns df ++ [(c, values)])).

(** [df[c] = scalar]: the scalar in every row. *)
Definition setitem_scalar (df : DataFrame) (c : string) (x : cell)
  : result DataFrame :=
  setitem df c (repeat x (len df)).

(** The rows a boolean mask keeps. *)
Definition select {A : Type} (mask : list bool) (s : list A) : list A :=
  map snd (filter fst (combine mask s)).

Definition select_rows {L : Type} (mask : list bool) (df : Frame L) : Frame L :=
  mkFrame (map (fun lv => (fst lv, select mask (snd lv))) (index df))
          (map (fun c => (fst c, select mask (snd c))) (columns df)).

(** [df.loc[mask, [c1; ...; cn]]]. *)
Definition loc_mask_cols (df : DataFrame) (mask : list bool) (cs : list string)
  : result DataFrame :=
  getitems (select_rows mask df) cs.

(** [df.loc[i : j]] on a frame whose index is a [RangeIndex] (the
    source slices right after [reset_index()]): label slices include
    both ends. *)
Definition label_in (i j : Z) (label : cell) : bool :=
  match label with
  | VInt l => (i <=? l)%Z && (l <=? j)%Z
  | _ => false
  end.

Definition loc_slice {L : Type} (df : Frame L) (i j : Z) : Frame L :=
  match index df with
  | [] => df
  | (_, labels) :: _ => select_rows (map (label_in i j) labels) df
  end.

(** The column names [reset_index()] gives the index levels. *)
Definition string_of_nat (n : nat) : string :=
  NilZero.string_of_uint (Nat.to_uint n).

Definition level_names (df : DataFrame) : list string :=
  match index df with
  | [(None, _)] =>
      [if has_name "index" (column_names df) then "level_0" else "index"]
  | levels =>
      map (fun p => match snd p with
                    | (Some n, _) => n
                    | (None, _) => String.append "level_" (string_of_nat (fst p))
                    end)
          (combine (seq 0 (List.length levels)) levels)
  end.

(** pandas inserts the levels one by one at the front, last level
    first, and refuses a name that is already a column. *)
Fixpoint insert_levels (levels : list (string * Series))
  (cols : list (string * Series)) : result (list (string * Series)) :=
  match levels with
  | [] => Return cols
  | (n, s) :: rest =>
      cols' <- insert_levels rest cols ;;
      if has_name n (map fst cols')
      then Raise (ValueError (String.append "cannot insert " (String.append n ", already exists")))
      else Return ((n, s) :: cols')
  end.

(** [df.reset_index()]. *)
Definition reset_index (df : DataFrame) : result DataFrame :=
  cols <- insert_levels (combine (level_names df) (map snd (index df)))
                        (columns df) ;;
  Return (mkFrame (RangeIndex (len df)) cols).

(** [df.set_index(c)]: the column becomes the only index level. *)
Definition set_index (df : DataFrame) (c : string) : result DataFrame :=
  s <- getitem df c ;;
  Return (mkFrame [(Some c, s)]
            (filter (fun col => negb (String.eqb c (fst col))) (columns df))).

(** [df.drop(columns=[c])]. *)
Definition drop_column (df : DataFrame) (c : string) : result DataFrame :=
  if has_name c (column_names df)
  then Return (mkFrame (index df)
                 (filter (fun col => negb (String.eqb c (fst col))) (columns df)))
  else Raise (KeyError c).

(** [df.index.get_level_values(name)]. *)
Fixpoint find_level (name : string) (levels : list (option string * Series))
  : option Series :=
  match levels with
  | [] => None
  | (Some n, s) :: rest => if String.eqb name n then Some s else find_level name rest
  | (None, _) :: rest => find_level name rest
  end.

Definition get_level_values {L : Type} (df : Frame L) (name : string)
  : result Series :=
  match find_level name (index df) with
  | Some s => Return s
  | None => Raise (KeyError (String.append "Level " (String.append name " not found")))
  end.

(** [s.iloc[0]] and, on a [RangeIndex], [s[0]]. *)
Definition iloc0 (s : Series) : result cell :=
  match s with
  | [] => Raise (IndexError "single positional indexer is out-of-bounds")
  | x :: _ => Return x
  end.

Definition at_label0 (s : Series) : result cell :=
  match s with
  | [] => Raise (KeyError "0")
  | x :: _ => Return x
  end.

(** *** Element-wise operations *)

Definition as_float (c : cell) : option F64.t :=
  match c with
  | VFloat x => Some x
  | VInt z => Some (F64.of_Z z)
  | VBool b => Some (F64.of_Z (if b then 1 else 0))
  | _ => None
  end.

Definition as_int (c : cell) : option Z :=
  match c with
  | VInt z => Some z
  | VBool b => Some (if b then 1 else 0)%Z
  | _ => None
  end.

(** [==] between two values: numbers compare by value (a NaN equals
    nothing), a missing time equals nothing, values of unrelated types
    differ. *)
Definition cell_eqb (a b : cell) : bool :=
  match a, b with
  | VStr x, VStr y => String.eqb x y
  | VTimestamp x, VTimestamp y => Z.eqb x y
  | VTimedelta x, VTimedelta y => Z.eqb x y
  | _, _ =>
      match as_int a, as_int b with
      | Some x, Some y => Z.eqb x y
      | _, _ =>
          match as_float a, as_float b with
          | Some x, Some y => F64.eqb x y
          | _, _ => false
          end
      end
  end.

(** [series == scalar]. *)
Definition eq_scalar (s : Series) (x : cell) : list bool :=
  map (fun c => cell_eqb c x) s.

Definition is_missing (c : cell) : bool :=
  match c with
  | VFloat x => F64.is_nan x
  | VNaT => true
  | _ => false
  end.

(** [index.unique()]: the values in order of first appearance; the
    hash table behind it counts all missing values as one. *)
Definition cell_same (a b : cell) : bool :=
  cell_eqb a b || (is_missing a && is_missing b).

Fixpoint unique_from (seen : list cell) (s : Series) : Series :=
  match s with
  | [] => []
  | x :: rest =>
      if existsb (cell_same x) seen then unique_from seen rest
      else x :: unique_from (x :: seen) rest
  end.

Definition unique (s : Series) : Series := unique_from [] s.

(** [a - b] inside [Series.diff()]: integers are converted to float64
    first, because the result holds a NaN. *)
Definition cell_sub (a b : cell) : result cell :=
  match a, b with
  | VTimestamp x, VTimestamp y => Return (VTimedelta (x - y))
  | VTimedelta x, VTimedelta y => Return (VTimedelta (x - y))
  | VTimestamp _, VNaT | VNaT, VTimestamp _
  | VTimedelta _, VNaT | VNaT, VTimedelta _ | VNaT, VNaT => Return VNaT
  | VFloat _, VFloat _ | VFloat _, VInt _ | VInt _, VFloat _ | VInt _, VInt _ =>
      match as_float a, as_float b with
      | Some x, Some y => Return (VFloat (F64.sub x y))
      | _, _ => Raise (TypeError "unsupported operand type(s) for -")
      end
  | _, _ => Raise (TypeError "unsupported operand type(s) for -")
  end.

Definition na_like (c : cell) : cell :=
  match c with
  | VTimestamp _ | VTimedelta _ | VNaT => VNaT
  | _ => NaN
  end.

(** [s.diff()]: each row minus the row before it; the first row has no
    predecessor and is missing. *)
Definition diff (s : Series) : result Series :=
  match s with
  | [] => Return []
  | first :: rest =>
      ds <- mapM (fun p => cell_sub (fst p) (snd p)) (combine rest s) ;;
      Return (na_like first :: ds)
  end.

(** [Timedelta.seconds]: a time difference is normalised to days
    (possibly negative), seconds in [0, 86399] and a sub-second rest;
    [seconds] is the middle component. *)
Definition ns_per_second : Z := 1000000000.
Definition ns_per_day : Z := 86400 * ns_per_second.

Definition Timedelta_seconds (ns : Z) : Z :=
  ((ns mod ns_per_day) / ns_per_second)%Z.

(** [Timedelta.total_seconds()], for comparison: the whole difference. *)
Definition Timedelta_total_seconds (ns : Z) : Z :=
  (ns / ns_per_second)%Z.

Definition is_NaT (c : cell) : bool :=
  match c with VNaT => true | _ => false end.

(** [s.dt.seconds] on a [timedelta64] column: an integer column, or a
    float64 one (NaN for NaT) when a value is missing. *)
Definition dt_seconds (s : Series) : result Series :=
  let missing := existsb is_NaT s in
  mapM (fun c =>
          match c with
          | VTimedelta ns =>
              Return (if missing
                      then VFloat (F64.of_Z (Timedelta_seconds ns))
                      else VInt (Timedelta_seconds ns))
          | VNaT => Return NaN
          | _ => Raise (AttributeError "Can only use .dt accessor with datetimelike values")
          end) s.

(** [x / y] on numbers: true division in float64, under numpy's
    [errstate(all='ignore')]: a zero divisor gives an infinity or a
    NaN, never an exception. *)
Definition cell_truediv (a b : cell) : result cell :=
  match as_float a, as_float b with
  | Some x, Some y => Return (VFloat (F64.div x y))
  | _, _ => Raise (TypeError "unsupported operand type(s) for /")
  end.

(** [a / b] for two columns of one frame (equal indexes, so the values
    pair up by position). *)
Definition truediv (a b : Series) : result Series :=
  mapM (fun p => cell_truediv (fst p) (snd p)) (combine a b).

(** *** Reductions *)

(** The first extremal element, as a left-to-right scan finds it. *)
Definition extremum {A : Type} (better : A -> A -> bool) (first : A)
  (rest : list A) : A :=
  fold_left (fun best x => if better x best then x else best) rest first.

Fixpoint floats_of (s : Series) : option (list F64.t) :=
  match s with
  | [] => Some []
  | VFloat x :: rest => option_map (cons x) (floats_of rest)
  | _ => None
  end.

Fixpoint ints_of (s : Series) : option (list Z) :=
  match s with
  | [] => Some []
  | VInt z :: rest => option_map (cons z) (ints_of rest)
  | _ => None
  end.

Fixpoint strs_of (s : Series) : option (list string) :=
  match s with
  | [] => Some []
  | VStr x :: rest => option_map (cons x) (strs_of rest)
  | _ => None
  end.

(** The valid timestamps of a [datetime64] column ([None] when a cell
    is of another type). *)
Fixpoint times_of (s : Series) : option (list Z) :=
  match s with
  | [] => Some []
  | VTimestamp t :: rest => option_map (cons t) (times_of rest)
  | VNaT :: rest => times_of rest
  | _ => None
  end.

(** [s.min()] and [s.max()] with the default [skipna=True], by the
    column's dtype: float64 (NaN skipped, NaN when nothing is left;
    also the answer for an empty column), int64, datetime64 (NaT
    skipped, NaT when nothing is left) and strings.  A column that
    mixes types is outside the model and answers [TypeError]. *)
Definition reduce_with (flt : F64.t -> F64.t -> bool) (ilt : Z -> Z -> bool)
  (slt : string -> string -> bool) (s : Series) : result cell :=
  match floats_of s with
  | Some xs =>
      match filter (fun x => negb (F64.is_nan x)) xs with
      | [] => Return NaN
      | x :: rest => Return (VFloat (extremum flt x rest))
      end
  | None =>
  match ints_of s with
  | Some (z :: rest) => Return (VInt (extremum ilt z rest))
  | _ =>
  match times_of s with
  | Some [] => Return VNaT
  | Some (t :: rest) => Return (VTimestamp (extremum ilt t rest))
  | None =>
  match strs_of s with
  | Some (x :: rest) => Return (VStr (extremum slt x rest))
  | _ => Raise (TypeError "'<' not supported between instances")
  end end end end.

Definition Series_min (s : Series) : result cell :=
  reduce_with F64.ltb Z.ltb String.ltb s.

Definition Series_max (s : Series) : result cell :=
  reduce_with (fun x best => F64.ltb best x) (fun x best => Z.ltb best x)
              (fun x best => String.ltb best x) s.

(** *** Concatenation *)

Fixpoint union_names (seen : list string) (names : list string) : list string :=
  match names with
  | [] => []
  | n :: rest =>
      if has_name n seen then union_names seen rest
      else n :: union_names (n :: seen) rest
  end.

Definition column_or_nan (c : string) (df : DataFrame) : Series :=
  match lookup c (columns df) with
  | Some s => s
  | None => repeat NaN (len df)
  end.

Definition option_string_eqb (a b : option string) : bool :=
  match a, b with
  | Some x, Some y => String.eqb x y
  | None, None => true
  | _, _ => false
  end.

(** Level [k] of the index of the concatenation: the labels of every
    frame in order; the name when all frames agree on it. *)
Definition concat_level (frames : list DataFrame) (k : nat)
  (lv : option string * Series) : option string * Series :=
  ((if forallb (fun df => option_string_eqb (fst (nth k (index df) (None, [])))
                                            (fst lv)) frames
    then fst lv else None),
   List.concat (map (fun df => snd (nth k (index df) (None, []))) frames)).

(** [pd.concat(frames)]: the rows of the frames one after the other,
    index labels kept; the columns are the union of the frames'
    columns in order of first appearance, NaN where a frame lacks
    one. *)
Definition pd_concat (frames : list DataFrame) : result DataFrame :=
  match frames with
  | [] => Raise (ValueError "No objects to concatenate")
  | first :: _ =>
      Return (mkFrame
        (map (fun p => concat_level frames (fst p) (snd p))
             (combine (seq 0 (List.length (index first))) (index first)))
        (map (fun c => (c, List.concat (map (column_or_nan c) frames)))
             (union_names [] (List.concat (map column_names frames)))))
  end.

(** The rows of a frame, each with its index labels first: what two
    frames must share to hold the same records in the same order. *)
Definition row_at {L : Type} (df : Frame L) (k : nat) : list cell :=
  map (fun lv => nth k (snd lv) NaN) (index df) ++
  map (fun c => nth k (snd c) NaN) (columns df).

Definition rows {L : Type} (df : Frame L) : list (list cell) :=
  map (row_at df) (seq 0 (len df)).

(** The names under which [df.reset_index()] offers data: the index
    levels and the columns.  A table "has column [c]" for the code that
    reads [df.reset_index()[c]] when [c] is one of them. *)
Definition exposes (df : DataFrame) (c : string) : bool :=
  has_name c (level_names df ++ column_names df).

End Pandas.

Export Pandas.

(* ================================================================= *)
(** ** features/spatial_features.py *)

Module SpatialFeatures.

(** What [get_start_location] and [get_end_location] return: a
    [(lat, lon)] tuple, or the message string. *)
Inductive location : Type :=
| LatLon (lat lon : cell)
| Message (text : string).

Section Source.

(** The column names of [utilities.constants]. *)
Variables LAT LONG DateTime TRAJECTORY_ID : string.

(** The constructor of [core.TrajectoryDF.NumPandasTraj], called on a
    frame and the four column names. *)
Variable NumPandasTraj :
  DataFrame -> string -> string -> string -> string -> result DataFrame.

(** The per-chunk workers of [features.helper_functions.Helpers]. *)
Variable _consecutive_distance_helper : DataFrame -> result DataFrame.
Variable _start_distance_helper : DataFrame -> result DataFrame.
Variable _point_within_range_helper :
  DataFrame -> cell * cell -> cell -> result DataFrame.
Variable _given_point_distance_helper :
  DataFrame -> cell * cell -> result DataFrame.

Definition get_bounding_box (dataframe : DataFrame)
  : result (cell * cell * cell * cell) :=
  lat <- getitem dataframe LAT ;;
  min_lat <- Series_min lat ;;
  lon <- getitem dataframe LONG ;;
  min_lon <- Series_min lon ;;
  lat <- getitem dataframe LAT ;;
  max_lat <- Series_max lat ;;
  lon <- getitem dataframe LONG ;;
  max_lon <- Series_max lon ;;
  Return (min_lat, min_lon, max_lat, max_lon).

(** [start_loc[const.LAT][0], start_loc[const.LONG][0]]. *)
Definition first_lat_lon (start_loc : DataFrame) : result location :=
  lat <- getitem start_loc LAT ;;
  lat0 <- at_label0 lat ;;
  lon <- getitem start_loc LONG ;;
  lon0 <- at_label0 lon ;;
  Return (LatLon lat0 lon0).

Definition missing_id_message (traj_id : string) : string :=
  String.append "Trajectory ID: "
    (String.append traj_id " does not exist in the dataset. Please try again!").

(** [get_start_location] and [get_end_location] differ in one call:
    [min()] in the first, [max()] in the second. *)
Definition location_at (extreme : Series -> result cell)
  (dataframe : DataFrame) (traj_id : option string) : result location :=
  dataframe <- reset_index dataframe ;;
  match traj_id with
  | None =>
      times <- getitem dataframe DateTime ;;
      times' <- getitem dataframe DateTime ;;
      t <- extreme times' ;;
      picked <- loc_mask_cols dataframe (eq_scalar times t) [LAT; LONG] ;;
      start_loc <- reset_index picked ;;
      first_lat_lon start_loc
  | Some id =>
      ids <- getitem dataframe TRAJECTORY_ID ;;
      filt <- loc_mask_cols dataframe (eq_scalar ids (VStr id))
                [DateTime; LAT; LONG] ;;
      times <- getitem filt DateTime ;;
      times' <- getitem filt DateTime ;;
      t <- extreme times' ;;
      picked <- loc_mask_cols filt (eq_scalar times t) [LAT; LONG] ;;
      start_loc <- reset_index picked ;;
      if (len start_loc =? 0)%nat
      then Return (Message (missing_id_message id))
      else first_lat_lon start_loc
  end.

Definition get_start_location := location_at Series_min.
Definition get_end_location := location_at Series_max.

(** Rows [75001 k] to [75001 k + 75000] of a column: what the label
    slice [loc[i : i + 75000]] keeps for [i = 75001 k]. *)
Definition slice {A : Type} (k : nat) (s : list A) : list A :=
  firstn (Z.to_nat 75001) (skipn (k * Z.to_nat 75001) s).

(** The loop that opens the four chunked functions:
    [for i in range(0, len(dataframe), 75001):
         chunks.append(dataframe.reset_index().loc[i: i + 75000])]. *)
Definition row_chunks (dataframe : DataFrame) : result (list DataFrame) :=
  mapM (fun i => flat <- reset_index dataframe ;;
                 Return (loc_slice flat i (i + 75000)))
       (range 0 (Z.of_nat (len dataframe)) 75001).

Definition create_distance_between_consecutive_column (dataframe : DataFrame)
  : result DataFrame :=
  chunks <- row_chunks dataframe ;;
  multi_pool <- Pool (List.length chunks) ;;
  result <- pool_map multi_pool _consecutive_distance_helper chunks ;;
  result <- pd_concat result ;;
  NumPandasTraj result LAT LONG DateTime TRAJECTORY_ID.

Definition create_distance_from_start_column (dataframe : DataFrame)
  : result DataFrame :=
  partitions <- row_chunks dataframe ;;
  pool <- Pool (List.length partitions) ;;
  answer <- pool_map pool _start_distance_helper partitions ;;
  answer <- pd_concat answer ;;
  NumPandasTraj answer LAT LONG DateTime TRAJECTORY_ID.

Definition create_point_within_range_column (dataframe : DataFrame)
  (coordinates : cell * cell) (dist_range : cell) : result DataFrame :=
  dataframe_list <- row_chunks dataframe ;;
  pool <- Pool (List.length dataframe_list) ;;
  result <- pool_map pool
              (fun chunk => _point_within_range_helper chunk coordinates dist_range)
              dataframe_list ;;
  result <- pd_concat result ;;
  NumPandasTraj result LAT LONG DateTime TRAJECTORY_ID.

Definition create_distance_from_given_point_column (dataframe : DataFrame)
  (coordinates : cell * cell) : result DataFrame :=
  part_list <- row_chunks dataframe ;;
  pool <- Pool (List.length part_list) ;;
  answer <- pool_map pool
              (fun chunk => _given_point_distance_helper chunk coordinates)
              part_list ;;
  answer <- pd_concat answer ;;
  NumPandasTraj answer LAT LONG DateTime TRAJECTORY_ID.

(** [dataframe.reset_index()[const.DateTime].diff().dt.seconds], the
    divisor of the three kinematic columns. *)
Definition time_deltas (dataframe : DataFrame) : result Series :=
  flat <- reset_index dataframe ;;
  times <- getitem flat DateTime ;;
  deltas <- diff times ;;
  dt_seconds deltas.

(** The three statements that the [try] block and the [except] block
    of [create_speed_from_prev_column] share.  The assignment
    [dataframe[...] = ...] changes the table object in place and the
    function returns that object; here the changed table is the
    result.  The assignment is the last statement that can fail, so an
    exception leaves the caller's table as it was. *)
Definition speed_from (dataframe : DataFrame) : result DataFrame :=
  flat <- reset_index dataframe ;;
  distances <- getitem flat "Distance_prev_to_curr" ;;
  seconds <- time_deltas dataframe ;;
  speed <- truediv distances seconds ;;
  setitem dataframe "Speed_prev_to_curr" speed.

Definition create_speed_from_prev_column (dataframe : DataFrame)
  : result DataFrame :=
  try_except_KeyError
    (speed_from dataframe)
    (dataframe <- create_distance_between_consecutive_column dataframe ;;
     speed_from dataframe).

Definition acceleration_from (dataframe : DataFrame) : result DataFrame :=
  flat <- reset_index dataframe ;;
  speeds <- getitem flat "Speed_prev_to_curr" ;;
  speed_deltas <- diff speeds ;;
  seconds <- time_deltas dataframe ;;
  acceleration <- truediv speed_deltas seconds ;;
  setitem dataframe "Acceleration_prev_to_curr" acceleration.

Definition create_acceleration_from_prev_column (dataframe : DataFrame)
  : result DataFrame :=
  try_except_KeyError
    (acceleration_from dataframe)
    (dataframe <- create_speed_from_prev_column dataframe ;;
     acceleration_from dataframe).

Definition jerk_from (dataframe : DataFrame) : result DataFrame :=
  flat <- reset_index dataframe ;;
  accelerations <- getitem flat "Acceleration_prev_to_curr" ;;
  acceleration_deltas <- diff accelerations ;;
  seconds <- time_deltas dataframe ;;
  jerk <- truediv acceleration_deltas seconds ;;
  setitem dataframe "jerk_prev_to_curr" jerk.

Definition create_jerk_from_prev_column (dataframe : DataFrame)
  : result DataFrame :=
  try_except_KeyError
    (jerk_from dataframe)
    (dataframe <- create_acceleration_from_prev_column dataframe ;;
     jerk_from dataframe).

(** The common shape of [speed_from], [acceleration_from] and
    [jerk_from]: read column [src], prepare it with [pre], divide by
    the seconds, store as [dst]. *)
Definition derived_from (src dst : string) (pre : Series -> result Series)
  (dataframe : DataFrame) : result DataFrame :=
  flat <- reset_index dataframe ;;
  x <- getitem flat src ;;
  y <- pre x ;;
  seconds <- time_deltas dataframe ;;
  q <- truediv y seconds ;;
  setitem dataframe dst q.

End Source.

End SpatialFeatures.

(* ================================================================= *)
(** * The kinematic columns on plain lists *)
(* ================================================================= *)

Module KinematicColumns.

(** *** The kinematic columns in closed form

    What [diff()], [.dt.seconds] and [/] compute on a float64 column
    [xs] and a column of valid timestamps [ts]. *)

(** [ts.diff().dt.seconds] as float64: NaN, then the seconds component
    of each step. *)
Definition seconds_between (ts : list Z) : list F64.t :=
  match ts with
  | [] => []
  | _ :: later =>
      F64.nan :: map (fun p => F64.of_Z (Timedelta_seconds (fst p - snd p)))
                     (combine later ts)
  end.

(** [xs.diff()]: NaN, then each value minus the one before. *)
Definition differences (xs : list F64.t) : list F64.t :=
  match xs with
  | [] => []
  | _ :: later => F64.nan :: map (fun p => F64.sub (fst p) (snd p)) (combine later xs)
  end.

(** [xs / ys], row by row. *)
Definition quotients (xs ys : list F64.t) : list F64.t :=
  map (fun p => F64.div (fst p) (snd p)) (combine xs ys).

End KinematicColumns.

(* ================================================================= *)
(** ** ptrail/preprocessing/statistics.py *)

Module Statistics.

(** [s.strip(chars)] for a one-character [chars]. *)
Fixpoint lstrip (ch : ascii) (s : string) : string :=
  match s with
  | EmptyString => EmptyString
  | String c rest => if Ascii.eqb c ch then lstrip ch rest else s
  end.

Fixpoint rstrip (ch : ascii) (s : string) : string :=
  match s with
  | EmptyString => EmptyString
  | String c rest =>
      match rstrip ch rest with
      | EmptyString => if Ascii.eqb c ch then EmptyString else String c EmptyString
      | kept => String c kept
      end
  end.

Definition strip (ch : ascii) (s : string) : string := rstrip ch (lstrip ch s).

(** [pivoted.columns.map('_'.join).str.strip('|')]. *)
Definition flat_label (label : list string) : string :=
  strip "|"%char (String.concat "_" label).

Definition flatten_columns (pivoted : Frame (list string)) : DataFrame :=
  mkFrame (index pivoted)
          (map (fun c => (flat_label (fst c), snd c)) (columns pivoted)).

Section Source.

(** [DataFrame.pivot_table(index=..., columns=...)] of pandas: the
    result has one column per (value column, key) pair, labelled by
    the pair. *)
Variable pivot_table :
  DataFrame -> string -> string -> result (Frame (list string)).

(** The body of the loop over the trajectory ids. *)
Definition pivot_one (dataframe : DataFrame) (target_col_name : string)
  (val : cell) : result DataFrame :=
  ids <- get_level_values dataframe "traj_id" ;;
  small <- reset_index (select_rows (eq_scalar ids val) dataframe) ;;
  small <- set_index small "traj_id" ;;
  targets <- getitem small target_col_name ;;
  target <- iloc0 targets ;;
  small <- drop_column small "Species" ;;
  flat <- reset_index small ;;
  pivoted <- pivot_table flat "traj_id" "Columns" ;;
  setitem_scalar (flatten_columns pivoted) target_col_name target.

(** Everything up to [to_return = pd.concat(final_chunks)]. *)
Definition pivot_chunks (dataframe : DataFrame) (target_col_name : string)
  : result DataFrame :=
  ids <- get_level_values dataframe "traj_id" ;;
  final_chunks <- mapM (pivot_one dataframe target_col_name) (unique ids) ;;
  pd_concat final_chunks.

(** [pivot_stats_df].  [const.ORDERED_COLS] is a list object of the
    constants module, shared by every call in the process: the function
    takes its current content and returns, next to its result, the
    content it leaves behind.  [cols = const.ORDERED_COLS] binds a
    second name to that same list, so [cols.append(target_col_name)]
    changes the shared list. *)
Definition pivot_stats_df (dataframe : DataFrame) (target_col_name : string)
  (ORDERED_COLS : list string) : result DataFrame * list string :=
  match pivot_chunks dataframe target_col_name with
  | Raise e => (Raise e, ORDERED_COLS)
  | Return to_return =>
      let cols := ORDERED_COLS ++ [target_col_name] in
      (getitems to_return cols, cols)
  end.

(** Two calls one after the other in one Python process. *)
Definition pivot_twice (first second : DataFrame * string)
  (ORDERED_COLS : list string)
  : result DataFrame * result DataFrame * list string :=
  let (out1, cols1) := pivot_stats_df (fst first) (snd first) ORDERED_COLS in
  let (out2, cols2) := pivot_stats_df (fst second) (snd second) cols1 in
  (out1, out2, cols2).

End Source.

End Statistics.

(* ================================================================= *)
(** ** ptrail/preprocessing/statistics.py: the pool size and
       [segment_traj_by_week] *)

Module StatisticsRest.

(** [a / b] on two Python integers: the quotient as a float, correctly
    rounded.  For operands that a float64 holds exactly (below [2^53]
    in size) this is the float64 division of the two converted
    operands. *)
Definition int_truediv (a b : Z) : result F64.t :=
  if (b =? 0)%Z then Raise (OtherError "ZeroDivisionError: division by zero")
  else Return (F64.div (F64.of_Z a) (F64.of_Z b)).

(** [math.ceil(x)]: the least integer not below [x]. *)
Definition math_ceil (x : F64.t) : result Z :=
  match x with
  | S754_zero _ => Return 0%Z
  | S754_infinity _ =>
      Raise (OtherError "OverflowError: cannot convert float infinity to integer")
  | S754_nan => Raise (ValueError "cannot convert float NaN to integer")
  | S754_finite s m e =>
      let v := if s then Z.neg m else Z.pos m in
      Return (if (0 <=? e)%Z then v * 2 ^ e else - ((- v) / 2 ^ (- e)))%Z
  end.

(** The two statements at the top of the module:
    [num = os.cpu_count()] and [NUM_CPU = ceil((num * 2) / 3)].
    [os.cpu_count()] is [None] when the count cannot be determined. *)
Definition NUM_CPU (cpu_count : option Z) : result Z :=
  match cpu_count with
  | None =>
      Raise (TypeError "unsupported operand type(s) for *: 'NoneType' and 'int'")
  | Some num =>
      x <- int_truediv (num * 2) 3 ;;
      math_ceil x
  end.

(** [df.set_index(keys)] for a list of column names: the columns become
    the index levels, in the order of the list, and leave the
    columns. *)
Definition set_index_list (df : DataFrame) (keys : list string)
  : result DataFrame :=
  match filter (fun k => negb (has_name k (column_names df))) keys with
  | [] =>
      levels <- mapM (fun k => s <- getitem df k ;; Return (Some k, s)) keys ;;
      Return (mkFrame levels
                (filter (fun col => negb (has_name (fst col) keys)) (columns df)))
  | missing =>
      Raise (KeyError
               (String.append "None of ["
                  (String.append
                     (String.concat ", "
                        (map (fun k => String.append "'" (String.append k "'"))
                             missing))
                     "] are in the columns")))
  end.

Section Source.

(** The two workers of [preprocessing.helpers.Helpers]. *)
Variable _df_split_helper : DataFrame -> result (list DataFrame).
Variable split_traj_helper : DataFrame -> result DataFrame.

(** The value the module computed for [NUM_CPU] when it was
    imported. *)
Variable num_cpu : Z.

Definition segment_traj_by_week (df : DataFrame) : result DataFrame :=
  flat <- reset_index df ;;
  df_chunks <- _df_split_helper flat ;;
  pool <- Pool (Z.to_nat num_cpu) ;;
  results <- pool_map pool split_traj_helper df_chunks ;;
  whole <- pd_concat results ;;
  whole <- reset_index whole ;;
  to_return <- set_index_list whole ["traj_id"; "seg_id"; "DateTime"] ;;
  drop_column to_return "index".

End Source.

End StatisticsRest.

(* ================================================================= *)
(** ** Concrete tables *)

Module Examples.

(** The values [utilities.constants] gives the four column names. *)
Definition LAT : string := "lat".
Definition LONG : string := "lon".
Definition DateTime : string := "DateTime".
Definition TRAJECTORY_ID : string := "traj_id".

Definition second (s : Z) : cell := VTimestamp (s * ns_per_second).
Definition num (z : Z) : cell := VFloat (F64.of_Z z).

Definition trajectory (ids times lats lons : Series) : DataFrame :=
  mkFrame [(Some TRAJECTORY_ID, ids); (Some DateTime, times)]
          [(LAT, lats); (LONG, lons)].

(** Three records of two animals. *)
Definition walk : DataFrame :=
  trajectory [VStr "a"; VStr "a"; VStr "b"]
             [second 0; second 10; second 5]
             [num 10; num 20; num 15]
             [num 30; num 40; num 35].

(** The table of the bounding-box example: latitudes 10 and 20,
    longitudes 30 and 40. *)
Definition box : DataFrame :=
  trajectory [VStr "a"; VStr "a"] [second 0; second 60]
             [num 10; num 20] [num 30; num 40].

Definition no_rows : DataFrame := trajectory [] [] [] [].

(** [n] records of one trajectory, one second apart. *)
Definition steady (n : nat) : DataFrame :=
  trajectory (repeat (VStr "a") n)
             (map (fun k => second (Z.of_nat k)) (seq 0 n))
             (repeat (num 0) n)
             (map (fun k => num (Z.of_nat k)) (seq 0 n)).

(** Two records of one trajectory, one day and ten seconds apart, the
    second one 100 km from the first. *)
Definition day_gap : DataFrame :=
  mkFrame [(Some TRAJECTORY_ID, [VStr "a"; VStr "a"]);
           (Some DateTime, [second 0; second 86410])]
          [(LAT, [num 0; num 1]); (LONG, [num 0; num 0]);
           ("Distance_prev_to_curr", [num 0; num 100])].

(** Two records at the same instant, 100 km apart. *)
Definition same_instant : DataFrame :=
  mkFrame [(Some TRAJECTORY_ID, [VStr "a"; VStr "a"]);
           (Some DateTime, [second 7; second 7])]
          [(LAT, [num 0; num 1]); (LONG, [num 0; num 0]);
           ("Distance_prev_to_curr", [num 0; num 100])].

(** A stand-in for the constructor of [NumPandasTraj]: the trajectory
    id and the time become the index. *)
Definition as_trajectory (df : DataFrame) (lat lon time id : string)
  : result DataFrame :=
  ids <- getitem df id ;;
  times <- getitem df time ;;
  _ <- getitem df lat ;;
  _ <- getitem df lon ;;
  Return (mkFrame [(Some id, ids); (Some time, times)]
            (filter (fun c => negb (String.eqb id (fst c) || String.eqb time (fst c)))
                    (columns df))).

(** A stand-in for [_consecutive_distance_helper] (the real one applies
    the haversine formula, which needs trigonometry): the distance
    between two records is the sum of the absolute differences of
    their coordinates; the first record of a chunk gets 0. *)
Definition coordinate_gap (a b : cell) : cell :=
  match as_float a, as_float b with
  | Some x, Some y => VFloat (SFabs (F64.sub x y))
  | _, _ => NaN
  end.

Definition cell_add (a b : cell) : cell :=
  match as_float a, as_float b with
  | Some x, Some y => VFloat (SFadd F64.prec F64.emax x y)
  | _, _ => NaN
  end.

Definition gaps (s : Series) : Series :=
  match s with
  | [] => []
  | _ :: rest => num 0 :: map (fun p => coordinate_gap (fst p) (snd p)) (combine rest s)
  end.

Definition taxicab_helper (chunk : DataFrame) : result DataFrame :=
  lats <- getitem chunk LAT ;;
  lons <- getitem chunk LONG ;;
  setitem chunk "Distance_prev_to_curr"
    (map (fun p => cell_add (fst p) (snd p)) (combine (gaps lats) (gaps lons))).

(** A statistics table as [generate_kinematic_stats] builds it, with
    the label in a column called [label_name]. *)
Definition stats (label_name : string) : DataFrame :=
  mkFrame [(Some "traj_id", [VStr "a"; VStr "a"; VStr "b"; VStr "b"]);
           (Some "Columns", [VStr "max"; VStr "mean"; VStr "max"; VStr "mean"])]
          [("Distance", [num 4; num 2; num 9; num 3]);
           (label_name, [VStr "deer"; VStr "deer"; VStr "elk"; VStr "elk"])].

(** A stand-in for [DataFrame.pivot_table] on a table with one row per
    key: for every value column and every key of [columns], the value
    in the row of that key.  (pandas averages the rows of a key and
    sorts the labels.) *)
Definition str_of (c : cell) : string :=
  match c with VStr s => s | _ => "" end.

Definition value_at (keys : Series) (key : cell) (values : Series) : cell :=
  match select (eq_scalar keys key) values with
  | v :: _ => v
  | [] => NaN
  end.

Definition first_row_pivot (df : DataFrame) (index_name columns_name : string)
  : result (Frame (list string)) :=
  ids <- getitem df index_name ;;
  keys <- getitem df columns_name ;;
  Return (mkFrame [(Some index_name, unique ids)]
            (flat_map
               (fun c =>
                  if String.eqb index_name (fst c) || String.eqb columns_name (fst c)
                  then []
                  else map (fun key => ([fst c; str_of key],
                                        [value_at keys key (snd c)]))
                           (unique keys))
               (columns df))).

(** A canonical column order for [stats]. *)
Definition ORDERED_COLS : list string := ["Distance_max"; "Distance_mean"].

End Examples.

Module Journeys.

Import Examples.

(** Four records of one trajectory with the distance column in place:
    the third record has the time of the second, the fourth comes a
    day and five seconds later. *)
Definition trip : DataFrame :=
  mkFrame [(Some TRAJECTORY_ID, [VStr "a"; VStr "a"; VStr "a"; VStr "a"]);
           (Some DateTime, [second 0; second 10; second 10; second 86415])]
          [(LAT, [num 0; num 1; num 2; num 3]);
           (LONG, [num 0; num 0; num 0; num 0]);
           ("Distance_prev_to_curr", [num 0; num 100; num 50; num 30])].

(** A table with gaps in its coordinates: one latitude is missing, and
    every longitude. *)
Definition patchy : DataFrame :=
  mkFrame [(Some TRAJECTORY_ID, [VStr "a"; VStr "a"; VStr "a"]);
           (Some DateTime, [second 0; second 1; second 2])]
          [(LAT, [NaN; num 10; num 20]); (LONG, [NaN; NaN; NaN])].

(** A statistics table in which the label of trajectory [a] changes
    from one row to the next. *)
Definition relabelled : DataFrame :=
  mkFrame [(Some "traj_id", [VStr "a"; VStr "a"; VStr "b"; VStr "b"]);
           (Some "Columns", [VStr "max"; VStr "mean"; VStr "max"; VStr "mean"])]
          [("Distance", [num 4; num 2; num 9; num 3]);
           ("Species", [VStr "deer"; VStr "elk"; VStr "elk"; VStr "elk"])].

(** Stand-ins for the two workers of [segment_traj_by_week]: the
    splitter hands the table over in one piece and the segmenter puts
    every record into segment 0.  (The real ones cut by trajectory and
    by week.) *)
Definition in_one_piece (flat : DataFrame) : result (list DataFrame) :=
  Return [flat].

Definition one_segment (chunk : DataFrame) : result DataFrame :=
  setitem_scalar chunk "seg_id" (VInt 0).

End Journeys.

(* ================================================================= *)
(** * Proofs *)

(** ** Facts about the run time and the pandas operations *)

Module Facts.

(** *** Loops and row selection *)

Lemma mapM_Return {A B : Type} (f : A -> result B) (g : A -> B) (xs : list A) :
  (forall x, In x xs -> f x = Return (g x)) ->
  mapM f xs = Return (map g xs).
Proof.
  induction xs as [|x xs IH]; intros H; simpl.
  - reflexivity.
  - rewrite (H x (or_introl eq_refl)). simpl.
    rewrite IH by (intros y Hy; apply H; right; exact Hy). reflexivity.
Qed.

Lemma select_nil_l {A : Type} (s : list A) : select [] s = [].
Proof. reflexivity. Qed.

Lemma select_cons {A : Type} (b : bool) (mask : list bool) (x : A) (s : list A) :
  select (b :: mask) (x :: s) = if b then x :: select mask s else select mask s.
Proof. unfold select. simpl. destruct b; reflexivity. Qed.

Lemma select_label_range {A : Type} (lo hi : Z) (s : list A) :
  forall a : nat,
  select (map (label_in lo hi)
            (map (fun k => VInt (Z.of_nat k)) (seq a (List.length s)))) s
  = firstn (Z.to_nat (hi + 1 - Z.max lo (Z.of_nat a)))
      (skipn (Z.to_nat (lo - Z.of_nat a)) s).
Proof.
  induction s as [|x s IH]; intros a.
  - simpl. rewrite skipn_nil, firstn_nil. reflexivity.
  - cbn [List.length seq map]. rewrite select_cons, IH.
    unfold label_in.
    destruct (Z.leb_spec lo (Z.of_nat a)) as [Hlo|Hlo];
      destruct (Z.leb_spec (Z.of_nat a) hi) as [Hhi|Hhi]; cbn [andb].
    + replace (Z.to_nat (lo - Z.of_nat a)) with 0%nat by lia.
      replace (Z.to_nat (lo - Z.of_nat (S a))) with 0%nat by lia.
      cbn [skipn].
      replace (Z.to_nat (hi + 1 - Z.max lo (Z.of_nat a)))
        with (S (Z.to_nat (hi + 1 - Z.max lo (Z.of_nat (S a))))) by lia.
      reflexivity.
    + replace (Z.to_nat (hi + 1 - Z.max lo (Z.of_nat a))) with 0%nat by lia.
      replace (Z.to_nat (hi + 1 - Z.max lo (Z.of_nat (S a)))) with 0%nat by lia.
      reflexivity.
    + replace (Z.to_nat (lo - Z.of_nat a))
        with (S (Z.to_nat (lo - Z.of_nat (S a)))) by lia.
      cbn [skipn].
      replace (Z.max lo (Z.of_nat (S a))) with (Z.max lo (Z.of_nat a)) by lia.
      reflexivity.
    + replace (Z.to_nat (hi + 1 - Z.max lo (Z.of_nat a))) with 0%nat by lia.
      replace (Z.to_nat (hi + 1 - Z.max lo (Z.of_nat (S a)))) with 0%nat by lia.
      reflexivity.
Qed.

(** *** [reset_index] *)

Lemma insert_levels_Return levels cols out :
  insert_levels levels cols = Return out -> out = levels ++ cols.
Proof.
  revert out. induction levels as [|[n s] rest IH]; intros out H; simpl in H.
  - now inversion H.
  - destruct (insert_levels rest cols) as [cols'|e]; simpl in H; [|discriminate].
    destruct (has_name n (map fst cols')); [discriminate|].
    inversion H. rewrite (IH cols' eq_refl). reflexivity.
Qed.

Lemma level_names_length (df : DataFrame) :
  List.length (level_names df) = List.length (index df).
Proof.
  unfold level_names.
  assert (G : forall levels : list (option string * Series),
    List.length (map (fun p : nat * (option string * Series) =>
       match snd p with
       | (Some n, _) => n
       | (None, _) => String.append "level_" (string_of_nat (fst p))
       end) (combine (seq 0 (List.length levels)) levels)) = List.length levels).
  { intros levels. rewrite length_map, length_combine, length_seq. lia. }
  destruct (index df) as [|[[n|] s] [|lv rest]]; try apply G; reflexivity.
Qed.

Lemma map_snd_combine {A B : Type} (xs : list A) (ys : list B) :
  List.length xs = List.length ys -> map snd (combine xs ys) = ys.
Proof.
  revert ys. induction xs as [|x xs IH]; intros [|y ys] H; simpl in *; try discriminate.
  - reflexivity.
  - f_equal. apply IH. lia.
Qed.

Lemma reset_index_Return (df flat : DataFrame) :
  reset_index df = Return flat ->
  index flat = RangeIndex (len df) /\
  map snd (columns flat) = map snd (index df) ++ map snd (columns df).
Proof.
  unfold reset_index. intros H.
  destruct (insert_levels _ _) as [cols|e] eqn:E; simpl in H; [|discriminate].
  inversion H; subst; simpl. split; [reflexivity|].
  apply insert_levels_Return in E. subst cols.
  rewrite map_app, map_snd_combine; [reflexivity|].
  rewrite level_names_length, length_map. reflexivity.
Qed.

Lemma len_range_frame (n : nat) (cols : list (string * Series)) :
  len (mkFrame (RangeIndex n) cols) = n.
Proof. unfold len. simpl. rewrite length_map, length_seq. reflexivity. Qed.

(** *** Exceptions and column names *)

Lemma try_except_KeyError_body {A : Type} (body handler : result A) :
  raises_KeyError body = false -> try_except_KeyError body handler = body.
Proof. destruct body as [a|[]]; simpl; intros H; try reflexivity; discriminate. Qed.

Lemma try_except_KeyError_handler {A : Type} (k : string) (handler : result A) :
  try_except_KeyError (Raise (KeyError k)) handler = handler.
Proof. reflexivity. Qed.

Lemma raises_KeyError_bind {A B : Type} (c : result A) (k : A -> result B) :
  raises_KeyError c = false ->
  (forall a, c = Return a -> raises_KeyError (k a) = false) ->
  raises_KeyError (bind c k) = false.
Proof. destruct c as [a|e]; simpl; intros H1 H2; [apply H2; reflexivity|exact H1]. Qed.

Lemma raises_KeyError_mapM {A B : Type} (f : A -> result B) (xs : list A) :
  (forall x, raises_KeyError (f x) = false) ->
  raises_KeyError (mapM f xs) = false.
Proof.
  intros H. induction xs as [|x xs IH]; [reflexivity|]. cbn [mapM].
  apply raises_KeyError_bind; [apply H|]. intros y _.
  apply raises_KeyError_bind; [exact IH|]. reflexivity.
Qed.

Lemma cell_sub_no_KeyError (a b : cell) : raises_KeyError (cell_sub a b) = false.
Proof.
  destruct a, b; cbn; try reflexivity.
Qed.

Lemma diff_no_KeyError (s : Series) : raises_KeyError (diff s) = false.
Proof.
  destruct s as [|x s]; [reflexivity|]. unfold diff.
  apply raises_KeyError_bind; [|reflexivity].
  apply raises_KeyError_mapM. intros p. apply cell_sub_no_KeyError.
Qed.

Lemma dt_seconds_no_KeyError (s : Series) : raises_KeyError (dt_seconds s) = false.
Proof.
  unfold dt_seconds. apply raises_KeyError_mapM. intros []; reflexivity.
Qed.

Lemma truediv_no_KeyError (a b : Series) : raises_KeyError (truediv a b) = false.
Proof.
  unfold truediv. apply raises_KeyError_mapM. intros p. unfold cell_truediv.
  destruct (as_float (fst p)), (as_float (snd p)); reflexivity.
Qed.

Lemma setitem_no_KeyError (df : DataFrame) (c : string) (v : Series) :
  raises_KeyError (setitem df c v) = false.
Proof.
  unfold setitem. destruct (negb _); [reflexivity|].
  destruct (has_name _ _); reflexivity.
Qed.

Lemma insert_levels_no_KeyError levels cols :
  raises_KeyError (insert_levels levels cols) = false.
Proof.
  induction levels as [|[n s] rest IH]; [reflexivity|]. cbn [insert_levels].
  apply raises_KeyError_bind; [exact IH|]. intros cols' _.
  destruct (has_name _ _); reflexivity.
Qed.

Lemma reset_index_no_KeyError (df : DataFrame) :
  raises_KeyError (reset_index df) = false.
Proof.
  unfold reset_index. apply raises_KeyError_bind; [|reflexivity].
  apply insert_levels_no_KeyError.
Qed.

Lemma lookup_has_name (c : string) (cols : list (string * Series)) :
  has_name c (map fst cols) = true -> exists s, lookup c cols = Some s.
Proof.
  induction cols as [|[n s] rest IH]; simpl; [discriminate|].
  destruct (String.eqb c n); [eexists; reflexivity|exact IH].
Qed.

Lemma lookup_lacks_name (c : string) (cols : list (string * Series)) :
  has_name c (map fst cols) = false -> lookup c cols = None.
Proof.
  induction cols as [|[n s] rest IH]; simpl; [reflexivity|].
  destruct (String.eqb c n); [discriminate|exact IH].
Qed.

Lemma has_name_lookup (c : string) (cols : list (string * Series)) (s : Series) :
  lookup c cols = Some s -> has_name c (map fst cols) = true.
Proof.
  destruct (has_name c (map fst cols)) eqn:E; [reflexivity|].
  rewrite (lookup_lacks_name _ _ E). discriminate.
Qed.

Lemma has_name_app (c : string) (xs ys : list string) :
  has_name c (xs ++ ys) = has_name c xs || has_name c ys.
Proof. apply existsb_app. Qed.

Lemma column_names_reset_index (df flat : DataFrame) :
  reset_index df = Return flat ->
  column_names flat = level_names df ++ column_names df.
Proof.
  unfold reset_index. intros H.
  destruct (insert_levels _ _) as [cols|e] eqn:E; simpl in H; [|discriminate].
  inversion H; subst. apply insert_levels_Return in E. subst cols.
  unfold column_names. cbn [columns]. rewrite map_app. f_equal.
  assert (G : forall (xs : list string) (ys : list Series),
             List.length xs = List.length ys -> map fst (combine xs ys) = xs).
  { induction xs as [|x xs IH]; intros [|y ys] Hl; simpl in *; try discriminate;
      [reflexivity|]. f_equal. apply IH. lia. }
  apply G. rewrite level_names_length, length_map. reflexivity.
Qed.

(** Names after [df[c] = values]. *)
Lemma setitem_names (df df' : DataFrame) (c : string) (v : Series) :
  setitem df c v = Return df' ->
  index df' = index df /\
  (forall n, has_name n (column_names df') = has_name n (column_names df) || String.eqb n c).
Proof.
  unfold setitem. destruct (negb _); [discriminate|].
  destruct (has_name c (column_names df)) eqn:E; intros H; inversion H; subst;
    cbn [index columns]; (split; [reflexivity|]); intros n; unfold column_names;
    cbn [columns].
  - rewrite map_map.
    destruct (String.eqb_spec n c) as [->|Hn].
    + rewrite orb_true_r.
      unfold column_names in E.
      clear H. induction (columns df) as [|[m s] rest IH]; simpl in *; [discriminate|].
      destruct (String.eqb c m) eqn:Em; simpl.
      * rewrite String.eqb_refl. reflexivity.
      * rewrite Em. simpl. apply IH. exact E.
    + rewrite orb_false_r. clear H E.
      induction (columns df) as [|[m s] rest IH]; simpl; [reflexivity|].
      rewrite IH. f_equal.
      destruct (String.eqb_spec c m) as [<-|Hm]; simpl; [|reflexivity].
      destruct (String.eqb_spec n c); [contradiction|reflexivity].
  - rewrite map_app, has_name_app. simpl. rewrite orb_false_r. reflexivity.
Qed.

Lemma level_names_setitem (df df' : DataFrame) (c : string) (v : Series) :
  setitem df c v = Return df' -> String.eqb "index" c = false ->
  level_names df' = level_names df.
Proof.
  intros H Hc. destruct (setitem_names _ _ _ _ H) as [Hi Hn].
  unfold level_names. rewrite Hi, (Hn "index"%string), Hc, orb_false_r. reflexivity.
Qed.

Lemma getitem_Return_has_name (df : DataFrame) (c : string) (s : Series) :
  getitem df c = Return s -> has_name c (column_names df) = true.
Proof.
  unfold getitem. destruct (lookup c (columns df)) eqn:E; [|discriminate].
  intros _. eapply has_name_lookup, E.
Qed.

Lemma getitem_no_KeyError (df : DataFrame) (c : string) :
  has_name c (column_names df) = true -> raises_KeyError (getitem df c) = false.
Proof.
  intros H. unfold getitem. destruct (lookup_has_name _ _ H) as [s ->]. reflexivity.
Qed.

Lemma bind_Return_inv {A B : Type} (c : result A) (k : A -> result B) (b : B) :
  bind c k = Return b -> exists a, c = Return a /\ k a = Return b.
Proof. destruct c as [a|e]; simpl; [eauto|discriminate]. Qed.


(** *** Selections of rows and columns *)

Lemma select_all_false {A : Type} (mask : list bool) (s : list A) :
  forallb negb mask = true -> select mask s = [].
Proof.
  revert s. induction mask as [|b mask IH]; intros [|x s] H; try reflexivity.
  simpl in H. apply andb_prop in H. destruct H as [Hb H].
  rewrite select_cons. destruct b; [discriminate|]. apply IH, H.
Qed.

Lemma select_map {A B : Type} (f : A -> B) (mask : list bool) (s : list A) :
  select mask (map f s) = map f (select mask s).
Proof.
  revert s. induction mask as [|b mask IH]; intros [|x s]; try reflexivity.
  cbn [map]. rewrite !select_cons, IH. destruct b; reflexivity.
Qed.

Lemma length_select {A : Type} (mask : list bool) (s : list A) :
  List.length mask = List.length s ->
  List.length (select mask s) = List.length (filter (fun b => b) mask).
Proof.
  revert s. induction mask as [|b mask IH]; intros [|x s] H; try discriminate;
    [reflexivity|].
  rewrite select_cons. simpl in H. injection H as H.
  destruct b; simpl; rewrite IH by exact H; reflexivity.
Qed.

Lemma In_select {A : Type} (mask : list bool) (s : list A) (x : A) :
  In x (select mask s) -> In x s.
Proof.
  revert s. induction mask as [|b mask IH]; intros [|y s] H; try contradiction.
  rewrite select_cons in H. destruct b.
  - destruct H as [->|H]; [left; reflexivity|right; apply IH, H].
  - right. apply IH, H.
Qed.

Lemma filter_true_nonempty (mask : list bool) :
  In true mask -> filter (fun b => b) mask <> [].
Proof.
  induction mask as [|b mask IH]; intros H; [contradiction|].
  simpl. destruct b; [discriminate|].
  destruct H as [H|H]; [discriminate|apply IH, H].
Qed.

Lemma lookup_map_series (f : Series -> Series) (c : string)
  (cols : list (string * Series)) :
  lookup c (map (fun col => (fst col, f (snd col))) cols)
  = option_map f (lookup c cols).
Proof.
  induction cols as [|[n s] rest IH]; [reflexivity|]. cbn [map lookup fst snd].
  destruct (String.eqb c n); [reflexivity|exact IH].
Qed.

Lemma getitem_select_rows (mask : list bool) (df : DataFrame) (c : string) :
  getitem (select_rows mask df) c
  = (s <- getitem df c ;; Return (select mask s)).
Proof.
  unfold getitem, select_rows. cbn [columns].
  rewrite (lookup_map_series (select mask)).
  destruct (lookup c (columns df)); reflexivity.
Qed.

(** The frame [df[cs]] answers for a listed name what [df] answers. *)
Lemma getitems_columns (df out : DataFrame) (cs : list string) :
  getitems df cs = Return out ->
  index out = index df /\ column_names out = cs /\
  forall c, In c cs -> getitem out c = getitem df c.
Proof.
  unfold getitems. intros H. apply bind_Return_inv in H.
  destruct H as (cols & Hcols & H). inversion H; subst out; clear H.
  unfold column_names, getitem. cbn [index columns]. split; [reflexivity|].
  revert cols Hcols. induction cs as [|c0 cs IH]; intros cols Hcols.
  - inversion Hcols. split; [reflexivity|]. intros c [].
  - cbn [mapM] in Hcols.
    apply bind_Return_inv in Hcols. destruct Hcols as ([n s] & Hc0 & Hcols).
    apply bind_Return_inv in Hcols. destruct Hcols as (rest & Hrest & Hcols).
    inversion Hcols; subst cols; clear Hcols.
    apply bind_Return_inv in Hc0. destruct Hc0 as (s0 & Hs0 & Hc0).
    inversion Hc0; subst n s; clear Hc0.
    destruct (IH rest Hrest) as [Hn Hg]. cbn [map fst]. rewrite Hn.
    split; [reflexivity|]. intros c Hin. cbn [lookup].
    destruct (String.eqb_spec c c0) as [->|Hne].
    + unfold getitem in Hs0. destruct (lookup c0 (columns df)); [|discriminate].
      inversion Hs0. reflexivity.
    + destruct Hin as [->|Hin]; [contradiction|]. apply Hg, Hin.
Qed.

Lemma getitems_succeeds (df : DataFrame) (cs : list string) :
  forallb (fun c => has_name c (column_names df)) cs = true ->
  exists out, getitems df cs = Return out.
Proof.
  intros H. unfold getitems.
  assert (G : exists cols,
             mapM (fun c => s <- getitem df c ;; Return (c, s)) cs = Return cols).
  { induction cs as [|c cs IH]; [eexists; reflexivity|].
    simpl in H. apply andb_prop in H. destruct H as [Hc H].
    destruct (IH H) as [rest Hrest]. cbn [mapM]. unfold getitem at 1.
    destruct (lookup_has_name _ _ Hc) as [s ->]. cbn [bind]. rewrite Hrest.
    eexists; reflexivity. }
  destruct G as [cols ->]. eexists; reflexivity.
Qed.

Lemma column_names_select_rows {L : Type} (mask : list bool) (df : Frame L) :
  column_names (select_rows mask df) = column_names df.
Proof. unfold column_names, select_rows. cbn [columns]. rewrite map_map. reflexivity. Qed.

(** [df.loc[mask, cs]] when the frame has the columns [cs]. *)
Lemma loc_mask_cols_spec (df : DataFrame) (mask : list bool) (cs : list string) :
  forallb (fun c => has_name c (column_names df)) cs = true ->
  exists out, loc_mask_cols df mask cs = Return out /\
    index out = map (fun lv => (fst lv, select mask (snd lv))) (index df) /\
    column_names out = cs /\
    forall c, In c cs ->
      getitem out c = (s <- getitem df c ;; Return (select mask s)).
Proof.
  intros H. unfold loc_mask_cols.
  destruct (getitems_succeeds (select_rows mask df) cs) as [out Hout].
  { rewrite column_names_select_rows. exact H. }
  exists out. split; [exact Hout|].
  destruct (getitems_columns _ _ _ Hout) as (Hi & Hn & Hg).
  split; [exact Hi|]. split; [exact Hn|].
  intros c Hc. rewrite (Hg c Hc). apply getitem_select_rows.
Qed.

Lemma cell_eqb_VStr (c : cell) (id : string) :
  cell_eqb c (VStr id) = true <-> c = VStr id.
Proof.
  destruct c as [x|z|s|b|ns|ns| ]; cbn;
    try (split; intros H; discriminate H).
  split; [intros H; apply String.eqb_eq in H; now subst|].
  intros H; inversion H; apply String.eqb_refl.
Qed.

Lemma extremum_In {A : Type} (better : A -> A -> bool) (rest : list A) :
  forall first, In (extremum better first rest) (first :: rest).
Proof.
  unfold extremum. induction rest as [|x rest IH]; intros first.
  - left; reflexivity.
  - cbn [fold_left]. destruct (better x first).
    + right. apply IH.
    + destruct (IH first) as [H|H]; [left; exact H|right; right; exact H].
Qed.

Lemma times_of_timestamps (ts : list Z) : times_of (map VTimestamp ts) = Some ts.
Proof. induction ts as [|t ts IH]; [reflexivity|]. cbn. rewrite IH. reflexivity. Qed.

Lemma reduce_with_timestamps flt ilt slt (t0 : Z) (rest : list Z) :
  reduce_with flt ilt slt (map VTimestamp (t0 :: rest))
  = Return (VTimestamp (extremum ilt t0 rest)).
Proof.
  unfold reduce_with. cbn [map floats_of ints_of].
  change (VTimestamp t0 :: map VTimestamp rest) with (map VTimestamp (t0 :: rest)).
  rewrite times_of_timestamps. reflexivity.
Qed.

Lemma reset_index_unnamed (df : DataFrame) (labels : Series) :
  index df = [(None, labels)] ->
  has_name "index" (column_names df) = false ->
  reset_index df
  = Return (mkFrame (RangeIndex (List.length labels))
              (("index", labels) :: columns df)).
Proof.
  intros Hi Hn. unfold reset_index, level_names, len. rewrite Hi, Hn.
  cbn [map snd combine insert_levels bind].
  unfold column_names in Hn. rewrite Hn. reflexivity.
Qed.

Lemma getitem_skip (idx idx' : list (option string * Series)) (n c : string)
  (s : Series) (cols : list (string * Series)) :
  String.eqb c n = false ->
  getitem (mkFrame idx ((n, s) :: cols)) c = getitem (mkFrame idx' cols) c.
Proof. intros H. unfold getitem. cbn [columns lookup]. rewrite H. reflexivity. Qed.

Lemma getitem_same_columns (a b : DataFrame) (c : string) :
  columns a = columns b -> getitem a c = getitem b c.
Proof. intros H. unfold getitem. rewrite H. reflexivity. Qed.

Lemma existsb_false_forallb {A : Type} (p : A -> bool) (xs : list A) :
  existsb p xs = false -> forallb negb (map p xs) = true.
Proof.
  induction xs as [|x xs IH]; [reflexivity|]. simpl. intros H.
  apply orb_false_elim in H. destruct H as [-> H]. simpl. apply IH, H.
Qed.

Lemma existsb_true_In {A : Type} (p : A -> bool) (xs : list A) :
  existsb p xs = true -> In true (map p xs).
Proof.
  intros H. apply existsb_exists in H. destruct H as (x & Hx & Hp).
  rewrite <- Hp. apply in_map, Hx.
Qed.


(** *** The order of binary64 *)

Ltac compare_cases :=
  repeat match goal with
  | |- context [Z.compare ?a ?b] => destruct (Z.compare_spec a b)
  | |- context [Pos.compare_cont Eq ?a ?b] =>
      change (Pos.compare_cont Eq a b) with (Pos.compare a b);
      destruct (Pos.compare_spec a b)
  end.

Lemma F64_leb_trans (x y z : F64.t) :
  F64.leb x y = true -> F64.leb y z = true -> F64.leb x z = true.
Proof.
  unfold F64.leb, SFleb, SFcompare.
  destruct x as [sx|sx| |sx mx ex], y as [sy|sy| |sy my ey],
    z as [sz|sz| |sz mz ez];
    try destruct sx; try destruct sy; try destruct sz;
    try (intros; reflexivity); try (intros; discriminate);
    compare_cases; cbn; intros; subst; try reflexivity; try discriminate; lia.
Qed.

Lemma F64_leb_total (x y : F64.t) :
  F64.is_nan x = false -> F64.is_nan y = false ->
  F64.ltb x y = false -> F64.leb y x = true.
Proof.
  unfold F64.leb, F64.ltb, SFleb, SFltb, SFcompare.
  destruct x as [sx|sx| |sx mx ex], y as [sy|sy| |sy my ey];
    try destruct sx; try destruct sy;
    try (intros; reflexivity); try (intros; discriminate);
    compare_cases; cbn; intros; subst; try reflexivity; try discriminate; lia.
Qed.

Lemma F64_leb_refl (x : F64.t) : F64.is_nan x = false -> F64.leb x x = true.
Proof.
  unfold F64.leb, SFleb, SFcompare.
  destruct x as [sx|sx| |sx mx ex]; try destruct sx;
    try (intros; reflexivity); try (intros; discriminate);
    compare_cases; cbn; intros; subst; try reflexivity; try discriminate; lia.
Qed.

Lemma F64_ltb_leb (x y : F64.t) : F64.ltb x y = true -> F64.leb x y = true.
Proof.
  unfold F64.leb, F64.ltb, SFleb, SFltb.
  destruct (SFcompare x y) as [[]|]; intros; try reflexivity; discriminate.
Qed.

(** The scan for the minimum returns a least element. *)
Lemma extremum_least (rest : list F64.t) : forall first,
  forallb (fun x => negb (F64.is_nan x)) (first :: rest) = true ->
  forall x, In x (first :: rest) ->
    F64.leb (extremum F64.ltb first rest) x = true.
Proof.
  unfold extremum.
  assert (G : forall best,
    F64.is_nan best = false ->
    forallb (fun x => negb (F64.is_nan x)) rest = true ->
    F64.leb (fold_left (fun best x => if F64.ltb x best then x else best) rest best)
            best = true /\
    forall x, In x rest ->
      F64.leb (fold_left (fun best x => if F64.ltb x best then x else best) rest best)
              x = true).
  { induction rest as [|y rest IH]; intros best Hb Hr.
    - split; [apply F64_leb_refl, Hb|intros x []].
    - cbn [forallb] in Hr. apply andb_prop in Hr. destruct Hr as [Hy Hr].
      apply negb_true_iff in Hy. cbn [fold_left].
      destruct (F64.ltb y best) eqn:E.
      + destruct (IH y Hy Hr) as [H1 H2]. split.
        * eapply F64_leb_trans; [exact H1|apply F64_ltb_leb, E].
        * intros x [<-|Hx]; [exact H1|apply H2, Hx].
      + destruct (IH best Hb Hr) as [H1 H2]. split; [exact H1|].
        intros x [<-|Hx]; [|apply H2, Hx].
        eapply F64_leb_trans; [exact H1|]. apply F64_leb_total; assumption. }
  intros first H x Hx. cbn [forallb] in H. apply andb_prop in H.
  destruct H as [Hf Hr]. apply negb_true_iff in Hf.
  destruct (G first Hf Hr) as [H1 H2].
  destruct Hx as [<-|Hx]; [exact H1|apply H2, Hx].
Qed.

Lemma extremum_greatest (rest : list F64.t) : forall first,
  forallb (fun x => negb (F64.is_nan x)) (first :: rest) = true ->
  forall x, In x (first :: rest) ->
    F64.leb x (extremum (fun x best => F64.ltb best x) first rest) = true.
Proof.
  unfold extremum.
  assert (G : forall best,
    F64.is_nan best = false ->
    forallb (fun x => negb (F64.is_nan x)) rest = true ->
    F64.leb best
      (fold_left (fun best x => if F64.ltb best x then x else best) rest best) = true /\
    forall x, In x rest ->
      F64.leb x
        (fold_left (fun best x => if F64.ltb best x then x else best) rest best) = true).
  { induction rest as [|y rest IH]; intros best Hb Hr.
    - split; [apply F64_leb_refl, Hb|intros x []].
    - cbn [forallb] in Hr. apply andb_prop in Hr. destruct Hr as [Hy Hr].
      apply negb_true_iff in Hy. cbn [fold_left].
      destruct (F64.ltb best y) eqn:E.
      + destruct (IH y Hy Hr) as [H1 H2]. split.
        * eapply F64_leb_trans; [apply F64_ltb_leb, E|exact H1].
        * intros x [<-|Hx]; [exact H1|apply H2, Hx].
      + destruct (IH best Hb Hr) as [H1 H2]. split; [exact H1|].
        intros x [<-|Hx]; [|apply H2, Hx].
        eapply F64_leb_trans; [|exact H1]. apply F64_leb_total; assumption. }
  intros first H x Hx. cbn [forallb] in H. apply andb_prop in H.
  destruct H as [Hf Hr]. apply negb_true_iff in Hf.
  destruct (G first Hf Hr) as [H1 H2].
  destruct Hx as [<-|Hx]; [exact H1|apply H2, Hx].
Qed.

Lemma floats_of_floats (xs : list F64.t) : floats_of (map VFloat xs) = Some xs.
Proof. induction xs as [|x xs IH]; [reflexivity|]. cbn. rewrite IH. reflexivity. Qed.

Lemma filter_all {A : Type} (p : A -> bool) (xs : list A) :
  forallb p xs = true -> filter p xs = xs.
Proof.
  induction xs as [|x xs IH]; [reflexivity|]. cbn. intros H.
  apply andb_prop in H. destruct H as [-> H]. rewrite IH by exact H. reflexivity.
Qed.

Lemma reduce_with_floats flt ilt slt (x : F64.t) (rest : list F64.t) :
  forallb (fun x => negb (F64.is_nan x)) (x :: rest) = true ->
  reduce_with flt ilt slt (map VFloat (x :: rest))
  = Return (VFloat (extremum flt x rest)).
Proof.
  intros H. unfold reduce_with. rewrite floats_of_floats, (filter_all _ _ H).
  reflexivity.
Qed.

(** *** Time differences *)

Lemma Timedelta_seconds_range (ns : Z) : (0 <= Timedelta_seconds ns <= 86399)%Z.
Proof.
  unfold Timedelta_seconds, ns_per_day, ns_per_second.
  pose proof (Z.mod_pos_bound ns (86400 * 1000000000) ltac:(lia)) as B.
  split.
  - apply Z.div_pos; lia.
  - apply Z.lt_succ_r. apply Z.div_lt_upper_bound; lia.
Qed.

Lemma Timedelta_seconds_below_total (ns : Z) :
  (ns_per_day <= ns)%Z ->
  (Timedelta_seconds ns < Timedelta_total_seconds ns)%Z.
Proof.
  intros H. pose proof (Timedelta_seconds_range ns) as B.
  unfold Timedelta_total_seconds, ns_per_day, ns_per_second in *.
  assert (86400 <= ns / 1000000000)%Z by (apply Z.div_le_lower_bound; lia).
  lia.
Qed.

Lemma combine_map {A B : Type} (f : A -> B) (xs ys : list A) :
  combine (map f xs) (map f ys)
  = map (fun p => (f (fst p), f (snd p))) (combine xs ys).
Proof.
  revert ys. induction xs as [|x xs IH]; intros [|y ys]; try reflexivity.
  cbn. rewrite IH. reflexivity.
Qed.

(** The seconds column the three kinematic functions divide by, for a
    table whose times are [ts]. *)
Lemma diff_timestamps (t0 : Z) (later : list Z) :
  diff (map VTimestamp (t0 :: later))
  = Return (VNaT :: map (fun p => VTimedelta (fst p - snd p))
                      (combine later (t0 :: later))).
Proof.
  unfold diff. cbn [map na_like].
  change (VTimestamp t0 :: map VTimestamp later)
    with (map VTimestamp (t0 :: later)).
  rewrite combine_map.
  rewrite (mapM_Return _ (fun p => match fst p, snd p with
                                   | VTimestamp a, VTimestamp b => VTimedelta (a - b)
                                   | _, _ => VNaT
                                   end)).
  - cbn [bind]. rewrite map_map. reflexivity.
  - intros p Hp. apply in_map_iff in Hp. destruct Hp as (q & <- & _). reflexivity.
Qed.

Lemma dt_seconds_after_diff (deltas : list Z) :
  dt_seconds (VNaT :: map VTimedelta deltas)
  = Return (NaN :: map (fun d => VFloat (F64.of_Z (Timedelta_seconds d))) deltas).
Proof.
  unfold dt_seconds. cbn [existsb is_NaT orb mapM bind].
  rewrite (mapM_Return _ (fun c => match c with
                                   | VTimedelta ns => VFloat (F64.of_Z (Timedelta_seconds ns))
                                   | _ => NaN
                                   end)).
  - cbn [bind]. rewrite map_map. reflexivity.
  - intros c Hc. apply in_map_iff in Hc. destruct Hc as (d & <- & _). reflexivity.
Qed.


(** A zero divisor never gives a finite quotient. *)
Lemma truediv_by_zero_not_finite (d : cell) (x : F64.t) (s : bool) :
  as_float d = Some x ->
  exists y, cell_truediv d (VFloat (S754_zero s)) = Return (VFloat y) /\
            F64.is_finite y = false.
Proof.
  intros H. unfold cell_truediv. rewrite H. cbn [as_float].
  eexists. split; [reflexivity|]. destruct x; reflexivity.
Qed.


Lemma getitem_setitem (df out : DataFrame) (c : string) (v : Series) :
  setitem df c v = Return out -> getitem out c = Return v.
Proof.
  unfold setitem. destruct (negb _); [discriminate|].
  destruct (has_name c (column_names df)) eqn:E; intros H; injection H as <-;
    unfold getitem; cbn [columns]; unfold column_names in E.
  - induction (columns df) as [|[n s] rest IH]; [discriminate|].
    cbn [map fst lookup]. cbn [map fst has_name existsb] in E.
    destruct (String.eqb c n) eqn:En; cbn [fst lookup].
    + rewrite String.eqb_refl. reflexivity.
    + rewrite En. apply IH. exact E.
  - induction (columns df) as [|[n s] rest IH].
    + cbn. rewrite String.eqb_refl. reflexivity.
    + cbn [app lookup]. cbn [map fst has_name existsb] in E.
      apply orb_false_elim in E. destruct E as [En E]. rewrite En.
      apply IH. exact E.
Qed.

Lemma truediv_floats (xs ys : list F64.t) :
  truediv (map VFloat xs) (map VFloat ys)
  = Return (map VFloat (map (fun p => F64.div (fst p) (snd p)) (combine xs ys))).
Proof.
  unfold truediv. rewrite combine_map.
  rewrite (mapM_Return _ (fun p => match as_float (fst p), as_float (snd p) with
                                   | Some x, Some y => VFloat (F64.div x y)
                                   | _, _ => NaN
                                   end)).
  - rewrite !map_map. reflexivity.
  - intros p Hp. apply in_map_iff in Hp. destruct Hp as (q & <- & _). reflexivity.
Qed.

(** Row [i + 1] of the seconds column. *)
Lemma nth_consecutive {A : Type} (f : Z * Z -> A) (d : A) (later : list Z) :
  forall (t0 : Z) (i : nat), (i < List.length later)%nat ->
  nth i (map f (combine later (t0 :: later))) d
  = f (nth i later 0%Z, nth i (t0 :: later) 0%Z).
Proof.
  induction later as [|t1 later IH]; intros t0 i Hi; [inversion Hi|].
  destruct i as [|i]; [reflexivity|].
  cbn [combine map nth]. cbn [List.length] in Hi.
  rewrite IH by lia. reflexivity.
Qed.

Lemma div_by_zero_not_finite (x : F64.t) :
  F64.is_finite (F64.div x (F64.of_Z 0)) = false.
Proof. destruct x as [s|s| |s m e]; reflexivity. Qed.

End Facts.

Import Facts.

(* ================================================================= *)
(** ** features/spatial_features.py: the claims *)

Module SpatialFeaturesProofs.

Import SpatialFeatures Examples.

(** *** The row-count partitioner *)

Lemma loc_slice_range (flat : DataFrame) (n k : nat) :
  index flat = RangeIndex n ->
  Forall (fun c => List.length (snd c) = n) (columns flat) ->
  loc_slice flat (Z.of_nat k * 75001) (Z.of_nat k * 75001 + 75000) =
  mkFrame [(None, slice k (map (fun j => VInt (Z.of_nat j)) (seq 0 n)))]
          (map (fun c => (fst c, slice k (snd c))) (columns flat)).
Proof.
  intros Hidx Hcols. unfold loc_slice, select_rows. rewrite Hidx.
  cbn [RangeIndex map fst snd].
  assert (S : forall (A : Type) (s : list A), List.length s = n ->
    select (map (label_in (Z.of_nat k * 75001) (Z.of_nat k * 75001 + 75000))
              (map (fun j => VInt (Z.of_nat j)) (seq 0 n))) s = slice k s).
  { intros A s Hs. rewrite <- Hs, select_label_range. unfold slice.
    f_equal; [lia|f_equal; lia]. }
  f_equal.
  - rewrite S by (rewrite length_map, length_seq; reflexivity). reflexivity.
  - apply map_ext_in. intros c Hc. rewrite S; [reflexivity|].
    rewrite Forall_forall in Hcols. apply Hcols, Hc.
Qed.

Lemma seq_offset (a m : nat) : seq a m = map (Nat.add a) (seq 0 m).
Proof.
  revert a. induction m as [|m IH]; intros a; [reflexivity|].
  cbn [seq map]. rewrite Nat.add_0_r. f_equal.
  rewrite (IH (S a)), (IH 1%nat), map_map. apply map_ext. intros j. lia.
Qed.

Lemma nth_slice {A : Type} (k j : nat) (s : list A) (d : A) :
  (j < Z.to_nat 75001)%nat ->
  nth j (slice k s) d = nth (k * Z.to_nat 75001 + j) s d.
Proof.
  intros Hj. unfold slice. rewrite nth_firstn.
  destruct (Nat.ltb_spec j (Z.to_nat 75001)); [|lia].
  apply nth_skipn.
Qed.

Lemma length_slice {A : Type} (k : nat) (s : list A) :
  List.length (slice k s)
  = Nat.min (Z.to_nat 75001) (List.length s - k * Z.to_nat 75001).
Proof. unfold slice. rewrite length_firstn, length_skipn. reflexivity. Qed.

Lemma rows_slice (flat : DataFrame) (n k : nat) :
  index flat = RangeIndex n ->
  Forall (fun c => List.length (snd c) = n) (columns flat) ->
  rows (loc_slice flat (Z.of_nat k * 75001) (Z.of_nat k * 75001 + 75000))
  = map (row_at flat)
      (seq (k * Z.to_nat 75001) (Nat.min (Z.to_nat 75001) (n - k * Z.to_nat 75001))).
Proof.
  intros Hidx Hcols. rewrite (loc_slice_range flat n k Hidx Hcols).
  unfold rows, len. cbn [index]. rewrite length_slice, length_map, length_seq.
  rewrite (seq_offset (k * Z.to_nat 75001)), map_map.
  apply map_ext_in. intros j Hj. apply in_seq in Hj.
  unfold row_at. rewrite Hidx. cbn [index columns RangeIndex map snd].
  rewrite nth_slice by lia. f_equal.
  rewrite map_map. apply map_ext. intros c. cbn [snd].
  apply nth_slice. lia.
Qed.

Lemma tile (s : nat) : (0 < s)%nat -> forall (m a n : nat),
  (m = 0 /\ n = 0 \/ 0 < m /\ (m - 1) * s < n <= m * s)%nat ->
  List.concat (map (fun k => seq (a + k * s) (Nat.min s (n - k * s))) (seq 0 m))
  = seq a n.
Proof.
  intros Hs. induction m as [|m IH]; intros a n H.
  - destruct H as [[_ ->]|[H _]]; [reflexivity|lia].
  - destruct H as [[H _]|[_ H]]; [discriminate|].
    cbn [seq map List.concat]. rewrite <- seq_shift, map_map.
    rewrite Nat.mul_0_l, Nat.add_0_r, Nat.sub_0_r.
    replace (m - 0)%nat with m in H by lia.
    rewrite (map_ext _ (fun k => seq (a + s + k * s) (Nat.min s (n - s - k * s)))).
    2:{ intros k. f_equal; lia. }
    destruct m as [|m'].
    + cbn [seq map List.concat]. rewrite app_nil_r. f_equal. lia.
    + rewrite IH.
      2:{ right. split; [lia|]. cbn [Nat.sub] in *. nia. }
      replace (Nat.min s n) with s by nia.
      rewrite <- seq_app. f_equal. nia.
Qed.

Lemma range_len_chunks (n : nat) :
  let m := range_len 0 (Z.of_nat n) 75001 in
  (m = 0 /\ n = 0 \/
   0 < m /\ (m - 1) * Z.to_nat 75001 < n <= m * Z.to_nat 75001)%nat.
Proof.
  unfold range_len. destruct (Z.ltb_spec 0 (Z.of_nat n)) as [H|H]; [right|left; lia].
  pose proof (Z.div_mod (Z.of_nat n - 0 + 75001 - 1) 75001 ltac:(lia)) as E.
  pose proof (Z.mod_pos_bound (Z.of_nat n - 0 + 75001 - 1) 75001 ltac:(lia)) as B.
  set (q := ((Z.of_nat n - 0 + 75001 - 1) / 75001)%Z) in *.
  assert (0 < q)%Z by lia.
  lia.
Qed.

Lemma mapM_Raise {A B : Type} (e : exn) (xs : list A) (ys : list B) :
  mapM (fun _ => Raise e) xs = Return ys -> xs = [].
Proof. destruct xs; [reflexivity|discriminate]. Qed.

Lemma row_chunks_Return (dataframe flat : DataFrame) :
  reset_index dataframe = Return flat ->
  row_chunks dataframe
  = Return (map (fun k => loc_slice flat (Z.of_nat k * 75001)
                            (Z.of_nat k * 75001 + 75000))
              (seq 0 (range_len 0 (Z.of_nat (len dataframe)) 75001))).
Proof.
  intros H. unfold row_chunks, range. rewrite H. cbn [bind].
  rewrite (mapM_Return _ (fun i => loc_slice flat i (i + 75000)))
    by reflexivity.
  rewrite map_map. reflexivity.
Qed.

Lemma aligned_reset_index (dataframe flat : DataFrame) :
  aligned dataframe -> reset_index dataframe = Return flat ->
  index flat = RangeIndex (len dataframe) /\
  Forall (fun c => List.length (snd c) = len dataframe) (columns flat).
Proof.
  intros (_ & Hi & Hc) H. destruct (reset_index_Return _ _ H) as [Hidx Hcols].
  split; [exact Hidx|].
  rewrite Forall_forall in *. intros c Hin.
  assert (In (snd c) (map snd (columns flat))) as Hs by (apply in_map, Hin).
  rewrite Hcols in Hs. apply in_app_or in Hs.
  destruct Hs as [Hs|Hs]; apply in_map_iff in Hs; destruct Hs as (x & <- & Hx); auto.
Qed.

Lemma row_at_reset_index (dataframe flat : DataFrame) (k : nat) :
  reset_index dataframe = Return flat -> (k < len dataframe)%nat ->
  row_at flat k = VInt (Z.of_nat k) :: row_at dataframe k.
Proof.
  intros H Hk. destruct (reset_index_Return _ _ H) as [Hidx Hcols].
  unfold row_at. rewrite Hidx. cbn [RangeIndex map snd app].
  f_equal.
  - rewrite (nth_indep _ NaN (VInt (Z.of_nat 0)))
      by (rewrite length_map, length_seq; exact Hk).
    rewrite (map_nth (fun j => VInt (Z.of_nat j))), seq_nth by exact Hk.
    reflexivity.
  - assert (E : forall (A : Type) (cols : list (A * Series)),
              map (fun c => nth k (snd c) NaN) cols
              = map (fun s => nth k s NaN) (map snd cols))
      by (intros; rewrite map_map; reflexivity).
    rewrite !E, Hcols, map_app. reflexivity.
Qed.

Lemma rows_reset_index (dataframe flat : DataFrame) :
  reset_index dataframe = Return flat ->
  rows flat = map (fun k => VInt (Z.of_nat k) :: row_at dataframe k)
                (seq 0 (len dataframe)).
Proof.
  intros H. unfold rows.
  replace (len flat) with (len dataframe).
  - apply map_ext_in. intros k Hk. apply in_seq in Hk.
    apply row_at_reset_index; [exact H|lia].
  - destruct (reset_index_Return _ _ H) as [Hidx _].
    unfold len at 2. rewrite Hidx. cbn. rewrite length_map, length_seq. reflexivity.
Qed.

Lemma concat_rows_chunks (dataframe flat : DataFrame) (chunks : list DataFrame) :
  aligned dataframe -> reset_index dataframe = Return flat ->
  row_chunks dataframe = Return chunks ->
  List.concat (map rows chunks) = rows flat.
Proof.
  intros Ha H Hc. rewrite (row_chunks_Return _ _ H) in Hc. inversion Hc; subst chunks.
  destruct (aligned_reset_index _ _ Ha H) as [Hidx Hcols].
  rewrite map_map.
  rewrite (map_ext _ (fun k => map (row_at flat)
     (seq (0 + k * Z.to_nat 75001)
          (Nat.min (Z.to_nat 75001) (len dataframe - k * Z.to_nat 75001)))))
    by (intros k; apply (rows_slice flat (len dataframe) k Hidx Hcols)).
  rewrite <- (map_map (fun k => seq (0 + k * Z.to_nat 75001)
          (Nat.min (Z.to_nat 75001) (len dataframe - k * Z.to_nat 75001)))
          (map (row_at flat))).
  rewrite <- concat_map, tile.
  - unfold rows. replace (len flat) with (len dataframe); [reflexivity|].
    unfold len at 2. rewrite Hidx. cbn. rewrite length_map, length_seq. reflexivity.
  - lia.
  - apply range_len_chunks.
Qed.

Lemma len_loc_slice (flat : DataFrame) (n k : nat) :
  index flat = RangeIndex n ->
  Forall (fun c => List.length (snd c) = n) (columns flat) ->
  len (loc_slice flat (Z.of_nat k * 75001) (Z.of_nat k * 75001 + 75000))
  = Nat.min (Z.to_nat 75001) (n - k * Z.to_nat 75001).
Proof.
  intros Hidx Hcols. rewrite (loc_slice_range flat n k Hidx Hcols).
  unfold len. cbn [index]. rewrite length_slice, length_map, length_seq.
  reflexivity.
Qed.

(** The bound the code does keep: no chunk has more than 75,001
    records. *)
Lemma row_chunks_at_most_75001 (dataframe : DataFrame) (chunks : list DataFrame) :
  aligned dataframe ->
  row_chunks dataframe = Return chunks ->
  Forall (fun chunk => (Z.of_nat (len chunk) <= 75001)%Z) chunks.
Proof.
  intros Ha Hc. destruct (reset_index dataframe) as [flat|e] eqn:Hflat.
  - rewrite (row_chunks_Return _ _ Hflat) in Hc. inversion Hc; subst chunks.
    destruct (aligned_reset_index _ _ Ha Hflat) as [Hidx Hcols].
    apply Forall_forall. intros chunk Hin. apply in_map_iff in Hin.
    destruct Hin as (k & <- & _).
    rewrite (len_loc_slice flat _ k Hidx Hcols). lia.
  - unfold row_chunks in Hc. rewrite Hflat in Hc. cbn [bind] in Hc.
    pose proof (mapM_Raise _ _ _ Hc) as Hr. rewrite Hr in Hc.
    inversion Hc. constructor.
Qed.

(** *** The fallback chain *)

Section Kinematics.

Variables LAT LONG DateTime TRAJECTORY_ID : string.

Lemma derived_from_exposes (src dst : string) (pre : Series -> result Series)
  (df df' flat' : DataFrame) :
  String.eqb "index" dst = false ->
  derived_from DateTime src dst pre df = Return df' ->
  reset_index df' = Return flat' ->
  has_name dst (column_names flat') = true /\
  has_name DateTime (column_names flat') = true.
Proof.
  intros Hdst H H'. unfold derived_from in H.
  apply bind_Return_inv in H. destruct H as (flat & Hflat & H).
  apply bind_Return_inv in H. destruct H as (x & _ & H).
  apply bind_Return_inv in H. destruct H as (y & _ & H).
  apply bind_Return_inv in H. destruct H as (seconds & Hsec & H).
  apply bind_Return_inv in H. destruct H as (q & _ & H).
  unfold time_deltas in Hsec. rewrite Hflat in Hsec. cbn [bind] in Hsec.
  apply bind_Return_inv in Hsec. destruct Hsec as (times & Htimes & _).
  apply getitem_Return_has_name in Htimes.
  rewrite (column_names_reset_index _ _ Hflat), has_name_app in Htimes.
  rewrite (column_names_reset_index _ _ H'), !has_name_app.
  rewrite (level_names_setitem _ _ _ _ H Hdst).
  destruct (setitem_names _ _ _ _ H) as [_ Hn]. rewrite !Hn, String.eqb_refl.
  split; [rewrite !orb_true_r; reflexivity|].
  destruct (has_name DateTime (level_names df)); [reflexivity|].
  simpl in Htimes. rewrite Htimes. reflexivity.
Qed.

Lemma time_deltas_no_KeyError (df flat : DataFrame) :
  reset_index df = Return flat ->
  has_name DateTime (column_names flat) = true ->
  raises_KeyError (time_deltas DateTime df) = false.
Proof.
  intros H Hdt. unfold time_deltas. rewrite H. cbn [bind].
  apply raises_KeyError_bind; [apply getitem_no_KeyError, Hdt|]. intros times _.
  apply raises_KeyError_bind; [apply diff_no_KeyError|]. intros deltas _.
  apply dt_seconds_no_KeyError.
Qed.

Lemma derived_from_no_KeyError (src dst : string) (pre : Series -> result Series)
  (df : DataFrame) :
  (forall x, raises_KeyError (pre x) = false) ->
  (forall flat, reset_index df = Return flat ->
     has_name src (column_names flat) = true /\
     has_name DateTime (column_names flat) = true) ->
  raises_KeyError (derived_from DateTime src dst pre df) = false.
Proof.
  intros Hpre H. unfold derived_from.
  apply raises_KeyError_bind; [apply reset_index_no_KeyError|]. intros flat Hflat.
  destruct (H flat Hflat) as [Hsrc Hdt].
  apply raises_KeyError_bind; [apply getitem_no_KeyError, Hsrc|]. intros x _.
  apply raises_KeyError_bind; [apply Hpre|]. intros y _.
  apply raises_KeyError_bind; [eapply time_deltas_no_KeyError; eassumption|].
  intros seconds _.
  apply raises_KeyError_bind; [apply truediv_no_KeyError|]. intros q _.
  apply setitem_no_KeyError.
Qed.

Lemma derived_from_missing (src dst : string) (pre : Series -> result Series)
  (df flat : DataFrame) :
  reset_index df = Return flat -> exposes df src = false ->
  derived_from DateTime src dst pre df = Raise (KeyError src).
Proof.
  intros E H. unfold derived_from. rewrite E. cbn [bind]. unfold getitem.
  rewrite lookup_lacks_name; [reflexivity|].
  fold (column_names flat). rewrite (column_names_reset_index _ _ E). exact H.
Qed.

Lemma derived_from_reset_raises (src dst : string) (pre : Series -> result Series)
  (df : DataFrame) (e : exn) :
  reset_index df = Raise e -> derived_from DateTime src dst pre df = Raise e.
Proof. intros E. unfold derived_from. rewrite E. reflexivity. Qed.

Variable NumPandasTraj :
  DataFrame -> string -> string -> string -> string -> result DataFrame.
Variable _consecutive_distance_helper : DataFrame -> result DataFrame.

Local Abbreviation create_distance :=
  (create_distance_between_consecutive_column LAT LONG DateTime TRAJECTORY_ID
     NumPandasTraj _consecutive_distance_helper).
Local Abbreviation create_speed :=
  (create_speed_from_prev_column LAT LONG DateTime TRAJECTORY_ID
     NumPandasTraj _consecutive_distance_helper).
Local Abbreviation create_acceleration :=
  (create_acceleration_from_prev_column LAT LONG DateTime TRAJECTORY_ID
     NumPandasTraj _consecutive_distance_helper).
Local Abbreviation create_jerk :=
  (create_jerk_from_prev_column LAT LONG DateTime TRAJECTORY_ID
     NumPandasTraj _consecutive_distance_helper).

Lemma speed_from_shape :
  speed_from DateTime
  = derived_from DateTime "Distance_prev_to_curr" "Speed_prev_to_curr" Return.
Proof. reflexivity. Qed.

Lemma acceleration_from_shape :
  acceleration_from DateTime
  = derived_from DateTime "Speed_prev_to_curr" "Acceleration_prev_to_curr" diff.
Proof. reflexivity. Qed.

Lemma jerk_from_shape :
  jerk_from DateTime
  = derived_from DateTime "Acceleration_prev_to_curr" "jerk_prev_to_curr" diff.
Proof. reflexivity. Qed.

Lemma create_speed_Return (df d1 : DataFrame) :
  create_speed df = Return d1 -> exists d0, speed_from DateTime d0 = Return d1.
Proof.
  unfold create_speed_from_prev_column.
  destruct (speed_from DateTime df) as [d|[]] eqn:E; cbn [try_except_KeyError];
    intros H; try discriminate.
  - exists df. rewrite E. exact H.
  - apply bind_Return_inv in H. destruct H as (d0 & _ & H). exists d0. exact H.
Qed.

(** After the speed column is set, the [try] block of
    [create_acceleration_from_prev_column] goes through. *)
Lemma acceleration_after_speed (d0 d1 : DataFrame) :
  speed_from DateTime d0 = Return d1 ->
  create_acceleration d1 = acceleration_from DateTime d1.
Proof.
  intros H. unfold create_acceleration_from_prev_column.
  apply try_except_KeyError_body. rewrite acceleration_from_shape.
  apply derived_from_no_KeyError; [apply diff_no_KeyError|].
  intros flat Hflat. rewrite speed_from_shape in H.
  exact (derived_from_exposes "Distance_prev_to_curr" "Speed_prev_to_curr"
           Return d0 d1 flat eq_refl H Hflat).
Qed.

Lemma jerk_after_acceleration (d1 d2 : DataFrame) :
  acceleration_from DateTime d1 = Return d2 ->
  create_jerk d2 = jerk_from DateTime d2.
Proof.
  intros H. unfold create_jerk_from_prev_column.
  apply try_except_KeyError_body. rewrite jerk_from_shape.
  apply derived_from_no_KeyError; [apply diff_no_KeyError|].
  intros flat Hflat. rewrite acceleration_from_shape in H.
  exact (derived_from_exposes "Speed_prev_to_curr" "Acceleration_prev_to_curr"
           diff d1 d2 flat eq_refl H Hflat).
Qed.

(** C4.  On a table that has none of the columns
    Distance_prev_to_curr, Speed_prev_to_curr and
    Acceleration_prev_to_curr, [create_jerk_from_prev_column] alone
    gives what [create_speed_from_prev_column], then
    [create_acceleration_from_prev_column], then
    [create_jerk_from_prev_column] give in sequence: the same table (so
    the same jerk column), or the same exception. *)
Theorem jerk_fallback_chain (dataframe : DataFrame) :
  exposes dataframe "Distance_prev_to_curr" = false ->
  exposes dataframe "Speed_prev_to_curr" = false ->
  exposes dataframe "Acceleration_prev_to_curr" = false ->
  create_jerk dataframe
  = (with_speed <- create_speed dataframe ;;
     with_acceleration <- create_acceleration with_speed ;;
     create_jerk with_acceleration).
Proof.
  intros _ Hspeed Hacc.
  destruct (reset_index dataframe) as [flat|e] eqn:E.
  - assert (Hj : create_jerk dataframe
                 = (d <- create_acceleration dataframe ;; jerk_from DateTime d)).
    { unfold create_jerk_from_prev_column at 1.
      rewrite jerk_from_shape, (derived_from_missing _ _ _ _ _ E Hacc).
      reflexivity. }
    assert (Ha : create_acceleration dataframe
                 = (d <- create_speed dataframe ;; acceleration_from DateTime d)).
    { unfold create_acceleration_from_prev_column at 1.
      rewrite acceleration_from_shape, (derived_from_missing _ _ _ _ _ E Hspeed).
      reflexivity. }
    rewrite Hj, Ha.
    destruct (create_speed dataframe) as [d1|e1] eqn:E1; cbn [bind]; [|reflexivity].
    destruct (create_speed_Return _ _ E1) as [d0 H0].
    rewrite (acceleration_after_speed _ _ H0).
    destruct (acceleration_from DateTime d1) as [d2|e2] eqn:E2; cbn [bind];
      [|reflexivity].
    symmetry. apply (jerk_after_acceleration _ _ E2).
  - pose proof (reset_index_no_KeyError dataframe) as Hk. rewrite E in Hk.
    assert (Hs : create_speed dataframe = Raise e).
    { unfold create_speed_from_prev_column. rewrite speed_from_shape.
      rewrite (derived_from_reset_raises _ _ _ _ _ E).
      apply try_except_KeyError_body. exact Hk. }
    rewrite Hs. cbn [bind].
    unfold create_jerk_from_prev_column. rewrite jerk_from_shape.
    rewrite (derived_from_reset_raises _ _ _ _ _ E).
    apply try_except_KeyError_body. exact Hk.
Qed.

End Kinematics.

(** *** Start and end locations *)

Section Locations.

Variables LAT LONG DateTime TRAJECTORY_ID : string.

Hypothesis index_is_free : has_name "index" [LAT; LONG] = false.

Variable extreme : Series -> result cell.
Hypothesis extreme_nil : extreme [] = Return NaN.
Hypothesis extreme_times : forall t0 rest,
  exists t, extreme (map VTimestamp (t0 :: rest)) = Return (VTimestamp t) /\
            In t (t0 :: rest).

Variables (dataframe flat : DataFrame) (ids lats lons : Series) (ts : list Z).
Hypothesis Hflat : reset_index dataframe = Return flat.
Hypothesis Hids : getitem flat TRAJECTORY_ID = Return ids.
Hypothesis Htimes : getitem flat DateTime = Return (map VTimestamp ts).
Hypothesis Hlats : getitem flat LAT = Return lats.
Hypothesis Hlons : getitem flat LONG = Return lons.
Hypothesis Lids : List.length ids = len dataframe.
Hypothesis Lts : List.length ts = len dataframe.
Hypothesis Llats : List.length lats = len dataframe.
Hypothesis Llons : List.length lons = len dataframe.

Let labels : Series := map (fun k => VInt (Z.of_nat k)) (seq 0 (len dataframe)).

Lemma flat_index : index flat = [(None, labels)].
Proof. destruct (reset_index_Return _ _ Hflat) as [H _]. exact H. Qed.

Lemma labels_length : List.length labels = len dataframe.
Proof. unfold labels. rewrite length_map, length_seq. reflexivity. Qed.

Lemma LAT_not_index : String.eqb LAT "index" = false.
Proof.
  simpl in index_is_free. apply orb_false_elim in index_is_free.
  destruct index_is_free as [H _]. rewrite String.eqb_sym. exact H.
Qed.

Lemma LONG_not_index : String.eqb LONG "index" = false.
Proof.
  simpl in index_is_free. apply orb_false_elim in index_is_free.
  destruct index_is_free as [_ H]. apply orb_false_elim in H.
  destruct H as [H _]. rewrite String.eqb_sym. exact H.
Qed.

(** The two row selections of the [else] branch, on a table that has
    the four columns. *)
Lemma location_at_selected (id : string) :
  let mask1 := eq_scalar ids (VStr id) in
  exists t,
    extreme (map VTimestamp (select mask1 ts)) = Return t /\
    let mask2 := eq_scalar (map VTimestamp (select mask1 ts)) t in
    location_at LAT LONG DateTime TRAJECTORY_ID extreme dataframe (Some id)
    = if (List.length (select mask2 (select mask1 labels)) =? 0)%nat
      then Return (Message (missing_id_message id))
      else (lat0 <- at_label0 (select mask2 (select mask1 lats)) ;;
            lon0 <- at_label0 (select mask2 (select mask1 lons)) ;;
            Return (LatLon lat0 lon0)).
Proof.
  intros mask1.
  assert (Ht : exists t, extreme (map VTimestamp (select mask1 ts)) = Return t).
  { destruct (select mask1 ts) as [|t0 rest].
    - exists NaN. exact extreme_nil.
    - destruct (extreme_times t0 rest) as (t & Ht & _). eexists; exact Ht. }
  destruct Ht as [t Ht]. exists t. split; [exact Ht|]. intros mask2.
  unfold location_at. rewrite Hflat. cbn [bind]. rewrite Hids. cbn [bind].
  fold mask1.
  destruct (loc_mask_cols_spec flat mask1 [DateTime; LAT; LONG])
    as (filt & Hfilt & Hfi & Hfn & Hfg).
  { cbn [forallb].
    rewrite (getitem_Return_has_name _ _ _ Htimes),
      (getitem_Return_has_name _ _ _ Hlats),
      (getitem_Return_has_name _ _ _ Hlons). reflexivity. }
  rewrite Hfilt. cbn [bind].
  assert (Ft : getitem filt DateTime = Return (map VTimestamp (select mask1 ts))).
  { rewrite Hfg by (left; reflexivity). rewrite Htimes. cbn [bind].
    rewrite select_map. reflexivity. }
  assert (Fa : getitem filt LAT = Return (select mask1 lats)).
  { rewrite Hfg by (right; left; reflexivity). rewrite Hlats. reflexivity. }
  assert (Fo : getitem filt LONG = Return (select mask1 lons)).
  { rewrite Hfg by (right; right; left; reflexivity). rewrite Hlons. reflexivity. }
  rewrite Ft. cbn [bind]. rewrite Ht. cbn [bind]. fold mask2.
  destruct (loc_mask_cols_spec filt mask2 [LAT; LONG])
    as (picked & Hpicked & Hpi & Hpn & Hpg).
  { cbn [forallb].
    rewrite (getitem_Return_has_name _ _ _ Fa),
      (getitem_Return_has_name _ _ _ Fo). reflexivity. }
  rewrite Hpicked. cbn [bind].
  rewrite Hfi, flat_index in Hpi. cbn [map fst snd] in Hpi.
  rewrite (reset_index_unnamed picked _ Hpi)
    by (rewrite Hpn; exact index_is_free).
  cbn [bind]. rewrite len_range_frame.
  destruct (List.length (select mask2 (select mask1 labels)) =? 0)%nat;
    [reflexivity|].
  unfold first_lat_lon.
  rewrite (getitem_skip _ (index picked)) by exact LAT_not_index.
  rewrite (getitem_same_columns _ picked) by reflexivity.
  rewrite Hpg by (left; reflexivity). rewrite Fa. cbn [bind].
  destruct (at_label0 (select mask2 (select mask1 lats))); cbn [bind];
    [|reflexivity].
  rewrite (getitem_skip _ (index picked)) by exact LONG_not_index.
  rewrite (getitem_same_columns _ picked) by reflexivity.
  rewrite Hpg by (right; left; reflexivity). rewrite Fo. cbn [bind].
  reflexivity.
Qed.

Lemma location_at_missing (id : string) :
  ~ In (VStr id) ids ->
  location_at LAT LONG DateTime TRAJECTORY_ID extreme dataframe (Some id)
  = Return (Message (missing_id_message id)).
Proof.
  intros Hid. destruct (location_at_selected id) as (t & _ & ->).
  assert (Hm : forallb negb (eq_scalar ids (VStr id)) = true).
  { apply existsb_false_forallb. apply not_true_is_false. intros H.
    apply existsb_exists in H. destruct H as (c & Hc & Heq).
    apply cell_eqb_VStr in Heq. subst c. exact (Hid Hc). }
  rewrite (select_all_false _ labels Hm).
  destruct (eq_scalar _ t); reflexivity.
Qed.

Lemma location_at_present (id : string) :
  In (VStr id) ids ->
  exists lat lon,
    location_at LAT LONG DateTime TRAJECTORY_ID extreme dataframe (Some id)
    = Return (LatLon lat lon) /\ In lat lats /\ In lon lons.
Proof.
  intros Hid. destruct (location_at_selected id) as (t & Ht & ->).
  set (mask1 := eq_scalar ids (VStr id)) in *.
  assert (L1 : List.length mask1 = len dataframe)
    by (unfold mask1, eq_scalar; rewrite length_map; exact Lids).
  assert (N1 : In true mask1).
  { unfold mask1, eq_scalar. apply existsb_true_In. apply existsb_exists.
    exists (VStr id). split; [exact Hid|]. apply cell_eqb_VStr. reflexivity. }
  assert (S1 : forall (A : Type) (s : list A), List.length s = len dataframe ->
            List.length (select mask1 s) = List.length (select mask1 ts)).
  { intros A s Hs. rewrite !length_select by congruence. reflexivity. }
  destruct (select mask1 ts) as [|t0 rest] eqn:Ets.
  { exfalso. apply (filter_true_nonempty _ N1).
    apply length_zero_iff_nil. rewrite <- (length_select mask1 ts) by congruence.
    rewrite Ets. reflexivity. }
  destruct (extreme_times t0 rest) as (t' & Ht' & Hin).
  rewrite Ht' in Ht. inversion Ht; subst t. clear Ht.
  set (mask2 := eq_scalar (map VTimestamp (t0 :: rest)) (VTimestamp t')) in *.
  assert (L2 : List.length mask2 = List.length (t0 :: rest))
    by (unfold mask2, eq_scalar; rewrite !length_map; reflexivity).
  assert (N2 : In true mask2).
  { unfold mask2, eq_scalar. rewrite map_map. apply in_map_iff.
    exists t'. split; [apply Z.eqb_refl|exact Hin]. }
  assert (S2 : forall (s : Series), List.length s = len dataframe ->
            exists x rest', select mask2 (select mask1 s) = x :: rest').
  { intros s Hs.
    destruct (select mask2 (select mask1 s)) as [|x rest'] eqn:E;
      [|eexists; eexists; reflexivity].
    exfalso. apply (filter_true_nonempty _ N2). apply length_zero_iff_nil.
    rewrite <- (length_select mask2 (select mask1 s))
      by (rewrite L2; symmetry; apply S1, Hs).
    rewrite E. reflexivity. }
  destruct (S2 labels labels_length) as (l0 & lrest & ->).
  destruct (S2 lats Llats) as (lat0 & arest & Ea).
  destruct (S2 lons Llons) as (lon0 & orest & Eo).
  rewrite Ea, Eo. cbn. exists lat0, lon0. split; [reflexivity|]. split.
  - apply (In_select mask1), (In_select mask2). rewrite Ea. left; reflexivity.
  - apply (In_select mask1), (In_select mask2). rewrite Eo. left; reflexivity.
Qed.

End Locations.

(** *** The claims *)

(** C1.  The chunks that the loop
    [for i in range(0, len(dataframe), 75001): ... .loc[i: i + 75000]]
    cuts, put one after the other, are the table again: the records of
    [dataframe.reset_index()] in their order, each with its position as
    label; without the label, the records of [dataframe] itself.  This
    holds for every table, the empty one and the one-row one included;
    the loop returns chunks whenever [reset_index()] does. *)
Theorem row_chunks_concat_is_table (dataframe : DataFrame) :
  aligned dataframe ->
  (forall flat, reset_index dataframe = Return flat ->
     exists chunks, row_chunks dataframe = Return chunks) /\
  (forall chunks, row_chunks dataframe = Return chunks ->
     List.concat (map rows chunks)
     = map (fun k => VInt (Z.of_nat k) :: row_at dataframe k)
           (seq 0 (len dataframe)) /\
     map (@tl cell) (List.concat (map rows chunks)) = rows dataframe).
Proof.
  intros Ha. split.
  - intros flat Hflat. eexists. apply (row_chunks_Return _ _ Hflat).
  - intros chunks Hc.
    assert (G : List.concat (map rows chunks)
                = map (fun k => VInt (Z.of_nat k) :: row_at dataframe k)
                      (seq 0 (len dataframe))).
    { destruct (reset_index dataframe) as [flat|e] eqn:Hflat.
      - rewrite (concat_rows_chunks _ _ _ Ha Hflat Hc).
        apply rows_reset_index, Hflat.
      - unfold row_chunks in Hc. rewrite Hflat in Hc. cbn [bind] in Hc.
        pose proof (mapM_Raise _ _ _ Hc) as Hr. rewrite Hr in Hc.
        inversion Hc; subst chunks.
        unfold range in Hr. apply map_eq_nil in Hr.
        destruct (range_len_chunks (len dataframe)) as [[_ ->]|[Hm _]];
          [reflexivity|].
        destruct (range_len 0 (Z.of_nat (len dataframe)) 75001);
          [lia|discriminate]. }
    split; [exact G|]. rewrite G, map_map. reflexivity.
Qed.

Lemma aligned_walk : aligned walk.
Proof.
  split; [discriminate|]. split; repeat constructor.
Qed.

Lemma row_chunks_concat_is_table_witness :
  aligned walk /\
  exists chunks,
    row_chunks walk = Return chunks /\
    List.concat (map rows chunks)
    = map (fun k => VInt (Z.of_nat k) :: row_at walk k) (seq 0 (len walk)) /\
    map (@tl cell) (List.concat (map rows chunks)) = rows walk.
Proof.
  split; [exact aligned_walk|].
  destruct (row_chunks_concat_is_table walk aligned_walk) as [Hex Hall].
  destruct (Hex _ eq_refl) as [chunks Hc].
  exists chunks. split; [exact Hc|]. exact (Hall chunks Hc).
Defined.

Lemma Series_min_nil : Series_min [] = Return NaN.
Proof. reflexivity. Qed.

Lemma Series_max_nil : Series_max [] = Return NaN.
Proof. reflexivity. Qed.

Lemma Series_min_times (t0 : Z) (rest : list Z) :
  exists t, Series_min (map VTimestamp (t0 :: rest)) = Return (VTimestamp t) /\
            In t (t0 :: rest).
Proof.
  eexists. split; [apply reduce_with_timestamps|apply extremum_In].
Qed.

Lemma Series_max_times (t0 : Z) (rest : list Z) :
  exists t, Series_max (map VTimestamp (t0 :: rest)) = Return (VTimestamp t) /\
            In t (t0 :: rest).
Proof.
  eexists. split; [apply reduce_with_timestamps|apply extremum_In].
Qed.

Lemma message_names_the_id (id : string) :
  exists before after,
    missing_id_message id = String.append before (String.append id after).
Proof. eexists. eexists. reflexivity. Qed.

(** C7.  On a table with the trajectory id, time, latitude and
    longitude columns: for an id that no record carries,
    [get_start_location] and [get_end_location] return the message
    string, which contains the id; for an id that some record carries,
    they return a pair of a latitude and a longitude of the table. *)
Theorem location_of_missing_or_present_id
  (LAT LONG DateTime TRAJECTORY_ID : string) (dataframe flat : DataFrame)
  (ids lats lons : Series) (ts : list Z) (id : string) :
  has_name "index" [LAT; LONG] = false ->
  reset_index dataframe = Return flat ->
  getitem flat TRAJECTORY_ID = Return ids ->
  getitem flat DateTime = Return (map VTimestamp ts) ->
  getitem flat LAT = Return lats ->
  getitem flat LONG = Return lons ->
  List.length ids = len dataframe ->
  List.length ts = len dataframe ->
  List.length lats = len dataframe ->
  List.length lons = len dataframe ->
  (~ In (VStr id) ids ->
     get_start_location LAT LONG DateTime TRAJECTORY_ID dataframe (Some id)
     = Return (Message (missing_id_message id)) /\
     get_end_location LAT LONG DateTime TRAJECTORY_ID dataframe (Some id)
     = Return (Message (missing_id_message id)) /\
     exists before after,
       missing_id_message id = String.append before (String.append id after)) /\
  (In (VStr id) ids ->
     (exists lat lon,
        get_start_location LAT LONG DateTime TRAJECTORY_ID dataframe (Some id)
        = Return (LatLon lat lon) /\ In lat lats /\ In lon lons) /\
     (exists lat lon,
        get_end_location LAT LONG DateTime TRAJECTORY_ID dataframe (Some id)
        = Return (LatLon lat lon) /\ In lat lats /\ In lon lons)).
Proof.
  intros Hfree Hflat Hids Htimes Hlats Hlons Lids Lts Llats Llons.
  unfold get_start_location, get_end_location. split; intros Hid.
  - split; [|split].
    + eapply location_at_missing; eauto using Series_min_nil, Series_min_times.
    + eapply location_at_missing; eauto using Series_max_nil, Series_max_times.
    + apply message_names_the_id.
  - split.
    + eapply location_at_present; eauto using Series_min_nil, Series_min_times.
    + eapply location_at_present; eauto using Series_max_nil, Series_max_times.
Qed.

Lemma walk_has_no_zz : ~ In (VStr "zz") [VStr "a"; VStr "a"; VStr "b"].
Proof.
  intros [H|[H|[H|[]]]]; discriminate H.
Qed.

Lemma location_of_missing_or_present_id_witness :
  get_start_location LAT LONG DateTime TRAJECTORY_ID walk (Some "zz")
  = Return (Message (missing_id_message "zz")) /\
  get_end_location LAT LONG DateTime TRAJECTORY_ID walk (Some "zz")
  = Return (Message (missing_id_message "zz")) /\
  (exists lat lon,
     get_start_location LAT LONG DateTime TRAJECTORY_ID walk (Some "a")
     = Return (LatLon lat lon) /\
     In lat [num 10; num 20; num 15] /\ In lon [num 30; num 40; num 35]).
Proof.
  pose proof (fun id =>
    location_of_missing_or_present_id LAT LONG DateTime TRAJECTORY_ID walk _
      [VStr "a"; VStr "a"; VStr "b"] [num 10; num 20; num 15]
      [num 30; num 40; num 35] [0; 10 * ns_per_second; 5 * ns_per_second]%Z id
      eq_refl eq_refl eq_refl eq_refl eq_refl eq_refl eq_refl eq_refl eq_refl
      eq_refl) as T.
  destruct (T "zz") as [[H1 [H2 _]] _]; [exact walk_has_no_zz|].
  destruct (T "a") as [_ Hp].
  destruct Hp as [Hs _]; [left; reflexivity|].
  split; [exact H1|]. split; [exact H2|exact Hs].
Defined.

(** C8.  On a table with at least one record (and no NaN coordinate),
    [get_bounding_box] returns (least latitude, least longitude,
    greatest latitude, greatest longitude); on the table with latitudes
    10, 20 and longitudes 30, 40 it returns (10, 30, 20, 40). *)
Theorem bounding_box_is_min_max (LAT LONG : string) (dataframe : DataFrame)
  (lats lons : list F64.t) :
  getitem dataframe LAT = Return (map VFloat lats) ->
  getitem dataframe LONG = Return (map VFloat lons) ->
  lats <> [] -> lons <> [] ->
  forallb (fun x => negb (F64.is_nan x)) lats = true ->
  forallb (fun x => negb (F64.is_nan x)) lons = true ->
  (exists min_lat min_lon max_lat max_lon,
     get_bounding_box LAT LONG dataframe
     = Return (VFloat min_lat, VFloat min_lon, VFloat max_lat, VFloat max_lon) /\
     (In min_lat lats /\ forall x, In x lats -> F64.leb min_lat x = true) /\
     (In min_lon lons /\ forall y, In y lons -> F64.leb min_lon y = true) /\
     (In max_lat lats /\ forall x, In x lats -> F64.leb x max_lat = true) /\
     (In max_lon lons /\ forall y, In y lons -> F64.leb y max_lon = true)) /\
  get_bounding_box Examples.LAT Examples.LONG box
  = Return (num 10, num 30, num 20, num 40).
Proof.
  intros Hlat Hlon Na No Va Vo. split; [|reflexivity].
  destruct lats as [|a lats]; [contradiction|].
  destruct lons as [|o lons]; [contradiction|].
  unfold get_bounding_box, Series_min, Series_max.
  rewrite Hlat, Hlon. cbn [bind].
  rewrite !reduce_with_floats by assumption. cbn [bind].
  do 4 eexists. split; [reflexivity|].
  repeat split;
    try apply extremum_In;
    try (apply extremum_least; assumption);
    apply extremum_greatest; assumption.
Qed.

Lemma time_deltas_of_timestamps (DateTime : string)
  (dataframe flat : DataFrame) (ts : list Z) :
  reset_index dataframe = Return flat ->
  getitem flat DateTime = Return (map VTimestamp ts) ->
  time_deltas DateTime dataframe
  = Return match ts with
           | [] => []
           | _ :: later =>
               NaN :: map (fun p => VFloat (F64.of_Z (Timedelta_seconds (fst p - snd p))))
                          (combine later ts)
           end.
Proof.
  intros Hflat Htimes.
  unfold time_deltas. rewrite Hflat. cbn [bind]. rewrite Htimes. cbn [bind].
  destruct ts as [|t0 later]; [reflexivity|].
  rewrite diff_timestamps. cbn [bind].
  rewrite <- (map_map (fun p => fst p - snd p)%Z VTimedelta).
  rewrite dt_seconds_after_diff, map_map. reflexivity.
Qed.

(** C9.  The column that [create_speed_from_prev_column],
    [create_acceleration_from_prev_column] and
    [create_jerk_from_prev_column] divide by holds, for every row but
    the first, the seconds component of the time difference to the row
    just before it in the whole table, whatever the trajectory ids of
    the two rows: a value between 0 and 86,399, and less than the
    elapsed seconds as soon as the rows are a day or more apart. *)
Theorem time_divisor_is_seconds_component (DateTime : string)
  (dataframe flat : DataFrame) (ts : list Z) :
  reset_index dataframe = Return flat ->
  getitem flat DateTime = Return (map VTimestamp ts) ->
  let divisors :=
    match ts with
    | [] => []
    | _ :: later =>
        NaN :: map (fun p => VFloat (F64.of_Z (Timedelta_seconds (fst p - snd p))))
                   (combine later ts)
    end in
  time_deltas DateTime dataframe = Return divisors /\
  speed_from DateTime dataframe
  = (distances <- getitem flat "Distance_prev_to_curr" ;;
     speed <- truediv distances divisors ;;
     setitem dataframe "Speed_prev_to_curr" speed) /\
  acceleration_from DateTime dataframe
  = (speeds <- getitem flat "Speed_prev_to_curr" ;;
     speed_deltas <- diff speeds ;;
     acceleration <- truediv speed_deltas divisors ;;
     setitem dataframe "Acceleration_prev_to_curr" acceleration) /\
  jerk_from DateTime dataframe
  = (accelerations <- getitem flat "Acceleration_prev_to_curr" ;;
     acceleration_deltas <- diff accelerations ;;
     jerk <- truediv acceleration_deltas divisors ;;
     setitem dataframe "jerk_prev_to_curr" jerk) /\
  (forall current previous : Z,
     (0 <= Timedelta_seconds (current - previous) <= 86399)%Z) /\
  (forall current previous : Z,
     (ns_per_day <= current - previous)%Z ->
     (Timedelta_seconds (current - previous)
      < Timedelta_total_seconds (current - previous))%Z).
Proof.
  intros Hflat Htimes divisors.
  assert (Hd : time_deltas DateTime dataframe = Return divisors)
    by (apply (time_deltas_of_timestamps _ _ flat); assumption).
  split; [exact Hd|].
  unfold speed_from, acceleration_from, jerk_from. rewrite Hflat, Hd. cbn [bind].
  do 3 (split; [reflexivity|]).
  split; intros current previous.
  - apply Timedelta_seconds_range.
  - apply Timedelta_seconds_below_total.
Qed.

(** C5.  Two records one day and ten seconds apart, 100 km from each
    other: [create_speed_from_prev_column] stores 100 / 10, the
    distance over the seconds component of the time difference, where
    the elapsed time is 86,410 s and the speed 100 / 86410. *)
Theorem speed_divides_by_seconds_component :
  forall (NumPandasTraj :
            DataFrame -> string -> string -> string -> string -> result DataFrame)
         (_consecutive_distance_helper : DataFrame -> result DataFrame),
  (out <- create_speed_from_prev_column LAT LONG DateTime TRAJECTORY_ID
            NumPandasTraj _consecutive_distance_helper day_gap ;;
   getitem out "Speed_prev_to_curr")
  = Return [NaN; VFloat (F64.div (F64.of_Z 100) (F64.of_Z 10))] /\
  Timedelta_total_seconds (86410 * ns_per_second - 0 * ns_per_second) = 86410%Z /\
  F64.eqb (F64.div (F64.of_Z 100) (F64.of_Z 10))
          (F64.div (F64.of_Z 100) (F64.of_Z 86410)) = false.
Proof. intros. vm_compute. repeat split. Qed.

Lemma speed_at_same_instant_is_infinite :
  forall (NumPandasTraj :
            DataFrame -> string -> string -> string -> string -> result DataFrame)
         (_consecutive_distance_helper : DataFrame -> result DataFrame),
  (out <- create_speed_from_prev_column LAT LONG DateTime TRAJECTORY_ID
            NumPandasTraj _consecutive_distance_helper same_instant ;;
   getitem out "Speed_prev_to_curr")
  = Return [NaN; VFloat (S754_infinity false)].
Proof. intros. vm_compute. reflexivity. Qed.

(** The zero-divisor half of the speed claim, on every table that has
    the distance column: two consecutive records at one instant give
    the later one a speed that is an infinity or a NaN. *)
Lemma speed_at_repeated_time_not_finite (DateTime : string)
  (dataframe flat : DataFrame) (distances : list F64.t) (ts : list Z) :
  reset_index dataframe = Return flat ->
  getitem flat "Distance_prev_to_curr" = Return (map VFloat distances) ->
  getitem flat DateTime = Return (map VTimestamp ts) ->
  List.length distances = len dataframe ->
  List.length ts = len dataframe ->
  exists out speed,
    speed_from DateTime dataframe = Return out /\
    getitem out "Speed_prev_to_curr" = Return (map VFloat speed) /\
    List.length speed = len dataframe /\
    forall i, (i + 1 < len dataframe)%nat ->
      nth (i + 1) ts 0%Z = nth i ts 0%Z ->
      F64.is_finite (nth (i + 1) speed F64.nan) = false.
Proof.
  intros Hflat Hdist Htimes Ld Lt.
  unfold speed_from. rewrite Hflat. cbn [bind]. rewrite Hdist. cbn [bind].
  rewrite (time_deltas_of_timestamps _ _ _ _ Hflat Htimes). cbn [bind].
  set (seconds := match ts with
                  | [] => []
                  | _ :: later =>
                      F64.nan :: map (fun p => F64.of_Z (Timedelta_seconds (fst p - snd p)))
                                     (combine later ts)
                  end).
  assert (Hsec : match ts with
                 | [] => []
                 | _ :: later =>
                     NaN :: map (fun p => VFloat (F64.of_Z (Timedelta_seconds (fst p - snd p))))
                                (combine later ts)
                 end = map VFloat seconds).
  { subst seconds. destruct ts as [|t0 later]; [reflexivity|].
    cbn [map]. rewrite map_map. reflexivity. }
  rewrite Hsec, truediv_floats. cbn [bind].
  assert (Lsec : List.length seconds = len dataframe).
  { subst seconds. rewrite <- Lt. destruct ts as [|t0 later]; [reflexivity|].
    cbn [List.length]. rewrite length_map, length_combine. cbn [List.length]. lia. }
  set (speed := map (fun p => F64.div (fst p) (snd p)) (combine distances seconds)).
  assert (Lspeed : List.length speed = len dataframe).
  { subst speed. rewrite length_map, length_combine. lia. }
  destruct (setitem dataframe "Speed_prev_to_curr" (map VFloat speed))
    as [out|e] eqn:Hset.
  2:{ unfold setitem in Hset. rewrite length_map, Lspeed, Nat.eqb_refl in Hset.
      cbn [negb] in Hset. destruct (has_name _ _); discriminate. }
  exists out, speed. split; [reflexivity|].
  split; [apply (getitem_setitem _ _ _ _ Hset)|]. split; [exact Lspeed|].
  intros i Hi Heq. subst speed.
  rewrite (nth_indep _ F64.nan (F64.div (fst (F64.nan, F64.nan)) (snd (F64.nan, F64.nan))))
    by (rewrite length_map, length_combine; lia).
  rewrite (map_nth (fun p => F64.div (fst p) (snd p))).
  rewrite combine_nth by lia. cbn [fst snd].
  subst seconds. destruct ts as [|t0 later]; [cbn in Lt; lia|].
  rewrite Nat.add_1_r in *. cbn [nth] in Heq |- *.
  rewrite (nth_consecutive (fun p => F64.of_Z (Timedelta_seconds (fst p - snd p))))
    by (cbn [List.length] in Lt; lia).
  cbn [fst snd]. rewrite Heq, Z.sub_diag.
  apply div_by_zero_not_finite.
Qed.

Section EmptyTable.

Variables LAT LONG DateTime TRAJECTORY_ID : string.
Variable NumPandasTraj :
  DataFrame -> string -> string -> string -> string -> result DataFrame.
Variable _consecutive_distance_helper : DataFrame -> result DataFrame.
Variable _start_distance_helper : DataFrame -> result DataFrame.
Variable _point_within_range_helper :
  DataFrame -> cell * cell -> cell -> result DataFrame.
Variable _given_point_distance_helper :
  DataFrame -> cell * cell -> result DataFrame.

Lemma row_chunks_empty (dataframe : DataFrame) :
  len dataframe = 0%nat -> row_chunks dataframe = Return [].
Proof. intros H. unfold row_chunks. rewrite H. reflexivity. Qed.

(** C10.  On a table without rows, each of the four chunked functions
    raises the [ValueError] of [multiprocessing.Pool(0)]: no chunk is
    cut, so a pool of zero processes is asked for. *)
Theorem empty_table_raises (dataframe : DataFrame) (coordinates : cell * cell)
  (dist_range : cell) :
  len dataframe = 0%nat ->
  let refused := Raise (ValueError "Number of processes must be at least 1") in
  create_distance_between_consecutive_column LAT LONG DateTime TRAJECTORY_ID
    NumPandasTraj _consecutive_distance_helper dataframe = refused /\
  create_distance_from_start_column LAT LONG DateTime TRAJECTORY_ID
    NumPandasTraj _start_distance_helper dataframe = refused /\
  create_distance_from_given_point_column LAT LONG DateTime TRAJECTORY_ID
    NumPandasTraj _given_point_distance_helper dataframe coordinates = refused /\
  create_point_within_range_column LAT LONG DateTime TRAJECTORY_ID
    NumPandasTraj _point_within_range_helper dataframe coordinates dist_range
  = refused.
Proof.
  intros H refused.
  unfold create_distance_between_consecutive_column,
    create_distance_from_start_column, create_distance_from_given_point_column,
    create_point_within_range_column.
  rewrite (row_chunks_empty _ H). repeat split; reflexivity.
Qed.

End EmptyTable.

Lemma reset_index_steady (n : nat) :
  exists flat, reset_index (steady n) = Return flat.
Proof. eexists. reflexivity. Qed.

Lemma len_steady (n : nat) : len (steady n) = n.
Proof. apply repeat_length. Qed.

Lemma aligned_steady (n : nat) : aligned (steady n).
Proof.
  unfold aligned. rewrite len_steady. cbn [steady trajectory index columns].
  split; [discriminate|].
  split; repeat constructor; cbn [snd];
    rewrite ?repeat_length, ?length_map, ?length_seq; reflexivity.
Qed.

(** C3.  A table of 75,001 records is cut into one chunk, and that
    chunk holds all 75,001 of them: the label slice
    [loc[i : i + 75000]] includes both ends. *)
Theorem chunk_of_75001_records :
  exists chunk,
    row_chunks (steady (Z.to_nat 75001)) = Return [chunk] /\
    Z.of_nat (len chunk) = 75001%Z.
Proof.
  destruct (reset_index_steady (Z.to_nat 75001)) as [flat Hflat].
  rewrite (row_chunks_Return _ _ Hflat), len_steady.
  replace (range_len 0 (Z.of_nat (Z.to_nat 75001)) 75001) with 1%nat
    by (unfold range_len; rewrite Z2Nat.id by lia; reflexivity).
  cbn [seq map]. eexists. split; [reflexivity|].
  destruct (aligned_reset_index _ _ (aligned_steady _) Hflat) as [Hidx Hcols].
  rewrite (loc_slice_range flat _ 0 Hidx Hcols).
  unfold len at 1. cbn [index]. rewrite length_slice, length_map, length_seq, len_steady.
  lia.
Qed.

Lemma jerk_fallback_chain_witness :
  create_jerk_from_prev_column LAT LONG DateTime TRAJECTORY_ID
    as_trajectory taxicab_helper walk
  = (with_speed <- create_speed_from_prev_column LAT LONG DateTime TRAJECTORY_ID
                     as_trajectory taxicab_helper walk ;;
     with_acceleration <-
       create_acceleration_from_prev_column LAT LONG DateTime TRAJECTORY_ID
         as_trajectory taxicab_helper with_speed ;;
     create_jerk_from_prev_column LAT LONG DateTime TRAJECTORY_ID
       as_trajectory taxicab_helper with_acceleration).
Proof.
  apply (jerk_fallback_chain LAT LONG DateTime TRAJECTORY_ID
           as_trajectory taxicab_helper walk); reflexivity.
Defined.

Lemma jerk_of_walk_returns :
  exists out jerk,
    create_jerk_from_prev_column LAT LONG DateTime TRAJECTORY_ID
      as_trajectory taxicab_helper walk = Return out /\
    getitem out "jerk_prev_to_curr" = Return jerk /\ List.length jerk = 3%nat.
Proof. eexists. eexists. split; [vm_compute; reflexivity|]. split; reflexivity. Qed.

Lemma bounding_box_is_min_max_witness :
  exists min_lat min_lon max_lat max_lon,
    get_bounding_box LAT LONG box
    = Return (VFloat min_lat, VFloat min_lon, VFloat max_lat, VFloat max_lon) /\
    (In min_lat [F64.of_Z 10; F64.of_Z 20] /\
     forall x, In x [F64.of_Z 10; F64.of_Z 20] -> F64.leb min_lat x = true) /\
    (In min_lon [F64.of_Z 30; F64.of_Z 40] /\
     forall y, In y [F64.of_Z 30; F64.of_Z 40] -> F64.leb min_lon y = true) /\
    (In max_lat [F64.of_Z 10; F64.of_Z 20] /\
     forall x, In x [F64.of_Z 10; F64.of_Z 20] -> F64.leb x max_lat = true) /\
    (In max_lon [F64.of_Z 30; F64.of_Z 40] /\
     forall y, In y [F64.of_Z 30; F64.of_Z 40] -> F64.leb y max_lon = true).
Proof.
  refine (proj1 (bounding_box_is_min_max LAT LONG box
                   [F64.of_Z 10; F64.of_Z 20] [F64.of_Z 30; F64.of_Z 40]
                   eq_refl eq_refl _ _ eq_refl eq_refl)); discriminate.
Defined.

Lemma time_divisor_is_seconds_component_witness :
  time_deltas DateTime walk
  = Return [NaN; VFloat (F64.of_Z 10); VFloat (F64.of_Z 86395)].
Proof.
  exact (proj1 (time_divisor_is_seconds_component DateTime walk _
                  [0; 10 * ns_per_second; 5 * ns_per_second]%Z eq_refl eq_refl)).
Defined.

Lemma empty_table_raises_witness :
  create_distance_between_consecutive_column LAT LONG DateTime TRAJECTORY_ID
    as_trajectory taxicab_helper no_rows
  = Raise (ValueError "Number of processes must be at least 1") /\
  create_distance_from_start_column LAT LONG DateTime TRAJECTORY_ID
    as_trajectory taxicab_helper no_rows
  = Raise (ValueError "Number of processes must be at least 1") /\
  create_distance_from_given_point_column LAT LONG DateTime TRAJECTORY_ID
    as_trajectory (fun chunk _ => taxicab_helper chunk) no_rows (num 0, num 0)
  = Raise (ValueError "Number of processes must be at least 1") /\
  create_point_within_range_column LAT LONG DateTime TRAJECTORY_ID
    as_trajectory (fun chunk _ _ => taxicab_helper chunk) no_rows
    (num 0, num 0) (num 5)
  = Raise (ValueError "Number of processes must be at least 1").
Proof.
  exact (empty_table_raises LAT LONG DateTime TRAJECTORY_ID as_trajectory
           taxicab_helper taxicab_helper (fun chunk _ _ => taxicab_helper chunk)
           (fun chunk _ => taxicab_helper chunk) no_rows (num 0, num 0) (num 5)
           eq_refl).
Defined.


End SpatialFeaturesProofs.

(* ================================================================= *)
(** ** ptrail/preprocessing/statistics.py: the claims *)

Module StatisticsProofs.

Import Statistics Examples.

(** C2.  [pivot_stats_df] leaves its target appended to the shared list
    [const.ORDERED_COLS], so a second call in the same process selects
    the target column twice: on the table [stats "Species"] the first
    call returns the columns Distance_max, Distance_mean, Species and
    the second one Distance_max, Distance_mean, Species, Species. *)
Theorem second_pivot_call_sees_first_target :
  (forall (pivot_table : DataFrame -> string -> string -> result (Frame (list string)))
          (dataframe : DataFrame) (target_col_name : string)
          (ORDERED_COLS : list string),
     pivot_twice pivot_table (dataframe, target_col_name)
       (dataframe, target_col_name) ORDERED_COLS
     = match pivot_chunks pivot_table dataframe target_col_name with
       | Return to_return =>
           (getitems to_return (ORDERED_COLS ++ [target_col_name]),
            getitems to_return
              ((ORDERED_COLS ++ [target_col_name]) ++ [target_col_name]),
            (ORDERED_COLS ++ [target_col_name]) ++ [target_col_name])
       | Raise e => (Raise e, Raise e, ORDERED_COLS)
       end) /\
  (let species := ("Species", [VStr "deer"; VStr "elk"]) in
   let wide := [("Distance_max", [num 4; num 9]);
                ("Distance_mean", [num 2; num 3])] in
   let ids := [(Some "traj_id", [VStr "a"; VStr "b"])] in
   pivot_twice first_row_pivot (stats "Species", "Species")
     (stats "Species", "Species") Examples.ORDERED_COLS
   = (Return (mkFrame ids (wide ++ [species])),
      Return (mkFrame ids (wide ++ [species; species])),
      ["Distance_max"; "Distance_mean"; "Species"; "Species"])).
Proof.
  split.
  - intros. unfold pivot_twice, pivot_stats_df. cbn [fst snd].
    destruct (pivot_chunks pivot_table dataframe target_col_name); reflexivity.
  - vm_compute. reflexivity.
Qed.

(** C6.  On a statistics table whose label column is called
    [label], [pivot_stats_df] with target [label] raises
    [KeyError: Species]: the column it drops is the literal Species,
    not the target. *)
Theorem pivot_drops_Species_whatever_the_target :
  forall (pivot_table : DataFrame -> string -> string -> result (Frame (list string)))
         (ORDERED_COLS : list string),
    pivot_stats_df pivot_table (stats "label") "label" ORDERED_COLS
    = (Raise (KeyError "Species"), ORDERED_COLS).
Proof. intros. reflexivity. Qed.

(** When [pivot_stats_df] returns a table, its columns are the shared
    list as the call found it, then the target. *)
Lemma pivot_stats_df_columns
  (pivot_table : DataFrame -> string -> string -> result (Frame (list string)))
  (dataframe out : DataFrame) (target_col_name : string)
  (ORDERED_COLS left_behind : list string) :
  pivot_stats_df pivot_table dataframe target_col_name ORDERED_COLS
  = (Return out, left_behind) ->
  column_names out = ORDERED_COLS ++ [target_col_name] /\
  left_behind = ORDERED_COLS ++ [target_col_name].
Proof.
  unfold pivot_stats_df.
  destruct (pivot_chunks pivot_table dataframe target_col_name) as [to_return|e];
    intros H; inversion H as [[Hout Hleft]]. split; [|reflexivity].
  destruct (getitems_columns _ _ _ Hout) as (_ & Hn & _). exact Hn.
Qed.

(** The target is the last column of every table the function
    returns. *)
Lemma pivot_stats_df_target_last
  (pivot_table : DataFrame -> string -> string -> result (Frame (list string)))
  (dataframe out : DataFrame) (target_col_name : string)
  (ORDERED_COLS left_behind : list string) :
  pivot_stats_df pivot_table dataframe target_col_name ORDERED_COLS
  = (Return out, left_behind) ->
  last (column_names out) "" = target_col_name.
Proof.
  intros H. destruct (pivot_stats_df_columns _ _ _ _ _ _ H) as [-> _].
  apply last_last.
Qed.

End StatisticsProofs.

(* ================================================================= *)
(** * More of [SpatialFeatures] *)
(* ================================================================= *)

Module SpatialFeaturesMore.

Import SpatialFeatures KinematicColumns SpatialFeaturesProofs Examples Journeys.

(** *** The row-count partitioner: sizes *)

Lemma len_RangeIndex_frame (flat : DataFrame) (n : nat) :
  index flat = RangeIndex n -> len flat = n.
Proof.
  intros H. unfold len. rewrite H. cbn. rewrite length_map, length_seq. reflexivity.
Qed.

Lemma firstn_skipn_all {A : Type} (n : nat) (s : list A) :
  (List.length s <= n)%nat -> firstn n (skipn 0 s) = s.
Proof. intros H. cbn [skipn]. apply firstn_all2, H. Qed.

(** A table of at most 75,001 rows is one chunk: the whole of
    [dataframe.reset_index()]. *)
Lemma loc_slice_whole (flat : DataFrame) (n : nat) :
  index flat = RangeIndex n ->
  Forall (fun c => List.length (snd c) = n) (columns flat) ->
  (n <= Z.to_nat 75001)%nat ->
  loc_slice flat (Z.of_nat 0 * 75001) (Z.of_nat 0 * 75001 + 75000) = flat.
Proof.
  intros Hidx Hcols Hn. rewrite (loc_slice_range flat n 0 Hidx Hcols).
  destruct flat as [idx cols]. cbn [index columns] in *. subst idx.
  unfold RangeIndex, slice. cbn [Nat.mul].
  rewrite firstn_skipn_all by (rewrite length_map, length_seq; exact Hn).
  f_equal. rewrite <- (map_id cols) at 2. apply map_ext_in.
  intros [c s] Hc. cbn [fst snd]. rewrite firstn_skipn_all; [reflexivity|].
  rewrite Forall_forall in Hcols. specialize (Hcols _ Hc). cbn [snd] in Hcols.
  rewrite Hcols. exact Hn.
Qed.

Lemma row_chunks_small (dataframe flat : DataFrame) :
  aligned dataframe ->
  reset_index dataframe = Return flat ->
  (0 < len dataframe)%nat ->
  (Z.of_nat (len dataframe) <= 75001)%Z ->
  row_chunks dataframe = Return [flat].
Proof.
  intros Ha Hflat Hpos Hn. rewrite (row_chunks_Return _ _ Hflat).
  replace (range_len 0 (Z.of_nat (len dataframe)) 75001) with 1%nat.
  - cbn [seq map]. destruct (aligned_reset_index _ _ Ha Hflat) as [Hidx Hcols].
    rewrite (loc_slice_whole flat _ Hidx Hcols) by lia. reflexivity.
  - destruct (range_len_chunks (len dataframe)) as [[_ H0]|[Hm Hb]]; lia.
Qed.



(** X1.  The sizes of the chunks: as many chunks as 75,001 goes into the
    row count, rounded up; every chunk but the last has 75,001 rows and
    the last one the rest; no chunk is empty. *)
Theorem row_chunk_sizes (dataframe flat : DataFrame) (chunks : list DataFrame) :
  aligned dataframe ->
  reset_index dataframe = Return flat ->
  row_chunks dataframe = Return chunks ->
  let n := Z.of_nat (len dataframe) in
  Z.of_nat (List.length chunks) = ((n + 75000) / 75001)%Z /\
  (forall k chunk, nth_error chunks k = Some chunk ->
     Z.of_nat (len chunk) = Z.min 75001 (n - 75001 * Z.of_nat k) /\
     (0 < Z.of_nat (len chunk))%Z) /\
  Z.of_nat (list_sum (map len chunks)) = n.
Proof.
  intros Ha Hflat Hc n.
  rewrite (row_chunks_Return _ _ Hflat) in Hc. inversion Hc; subst chunks; clear Hc.
  destruct (aligned_reset_index _ _ Ha Hflat) as [Hidx Hcols].
  pose proof (range_len_chunks (len dataframe)) as Hm. cbv zeta in Hm.
  set (m := range_len 0 (Z.of_nat (len dataframe)) 75001) in *.
  assert (Hcount : Z.of_nat m = ((n + 75000) / 75001)%Z).
  { subst n. destruct Hm as [[-> ->]|[Hpos Hb]]; [reflexivity|].
    apply Z.div_unique with (r := (Z.of_nat (len dataframe) + 75000
                                             - 75001 * Z.of_nat m)%Z); lia. }
  split; [rewrite length_map, length_seq; exact Hcount|]. split.
  - intros k chunk Hk. rewrite nth_error_map in Hk.
    destruct (nth_error (seq 0 m) k) as [j|] eqn:Ej; [|discriminate].
    pose proof (nth_error_In _ _ Ej) as Hin. apply in_seq in Hin.
    assert (j = k).
    { pose proof (nth_error_nth _ _ 0%nat Ej) as Hn.
      assert (Hkm : (k < List.length (seq 0 m))%nat)
        by (apply nth_error_Some; rewrite Ej; discriminate).
      rewrite length_seq in Hkm. rewrite seq_nth in Hn by exact Hkm. lia. }
    subst j. cbn [option_map] in Hk. injection Hk as <-.
    rewrite (len_loc_slice flat _ k Hidx Hcols). subst n. lia.
  - rewrite map_map.
    rewrite (map_ext_in _ (fun k => Nat.min (Z.to_nat 75001)
                                      (len dataframe - k * Z.to_nat 75001)))
      by (intros k _; apply (len_loc_slice flat _ k Hidx Hcols)).
    subst n. f_equal.
    assert (G : forall (m a n : nat),
      (m = 0 /\ n = 0 \/ 0 < m /\ (m - 1) * Z.to_nat 75001 < n <= m * Z.to_nat 75001)%nat ->
      list_sum (map (fun k => Nat.min (Z.to_nat 75001) (n - k * Z.to_nat 75001))
                    (seq 0 m)) = n).
    { clear. intros m a n H.
      pose proof (tile (Z.to_nat 75001) ltac:(lia) m a n H) as T.
      apply (f_equal (@List.length nat)) in T.
      rewrite length_seq, length_concat, map_map in T.
      etransitivity; [|exact T].
      f_equal. apply map_ext. intros k. rewrite length_seq. reflexivity. }
    apply (G m 0%nat). exact Hm.
Qed.

Lemma row_chunk_sizes_witness :
  exists chunks,
    row_chunks walk = Return chunks /\
    Z.of_nat (List.length chunks) = 1%Z /\
    Z.of_nat (list_sum (map len chunks)) = 3%Z.
Proof.
  eexists. split; [reflexivity|].
  destruct (row_chunk_sizes walk _ _ aligned_walk eq_refl eq_refl) as (H1 & _ & H3).
  split; [exact H1|exact H3].
Defined.

(** *** The kinematic columns on float data *)

Lemma diff_floats (xs : list F64.t) :
  diff (map VFloat xs) = Return (map VFloat (differences xs)).
Proof.
  destruct xs as [|x later]; [reflexivity|]. unfold diff, differences.
  cbn [map na_like].
  change (VFloat x :: map VFloat later) with (map VFloat (x :: later)).
  rewrite combine_map.
  rewrite (mapM_Return _ (fun p => match fst p, snd p with
                                   | VFloat a, VFloat b => VFloat (F64.sub a b)
                                   | _, _ => NaN
                                   end)).
  - cbn [bind]. rewrite !map_map. reflexivity.
  - intros p Hp. apply in_map_iff in Hp. destruct Hp as (q & <- & _). reflexivity.
Qed.

Lemma length_seconds_between (ts : list Z) :
  List.length (seconds_between ts) = List.length ts.
Proof.
  destruct ts as [|t later]; [reflexivity|]. cbn [seconds_between List.length].
  rewrite length_map, length_combine. cbn [List.length]. lia.
Qed.

Lemma length_differences (xs : list F64.t) :
  List.length (differences xs) = List.length xs.
Proof.
  destruct xs as [|x later]; [reflexivity|]. cbn [differences List.length].
  rewrite length_map, length_combine. cbn [List.length]. lia.
Qed.

Lemma length_quotients (xs ys : list F64.t) :
  List.length xs = List.length ys -> List.length (quotients xs ys) = List.length xs.
Proof. intros H. unfold quotients. rewrite length_map, length_combine. lia. Qed.

Lemma nth_quotients (xs ys : list F64.t) (i : nat) :
  (i < List.length xs)%nat -> List.length xs = List.length ys ->
  nth i (quotients xs ys) F64.nan = F64.div (nth i xs F64.nan) (nth i ys F64.nan).
Proof.
  intros Hi Hl. unfold quotients.
  rewrite (nth_indep _ F64.nan (F64.div (fst (F64.nan, F64.nan)) (snd (F64.nan, F64.nan))))
    by (rewrite length_map, length_combine; lia).
  rewrite (map_nth (fun p => F64.div (fst p) (snd p))), combine_nth by exact Hl.
  reflexivity.
Qed.

Lemma nth_pairs {A B : Type} (f : A * A -> B) (d : B) (a0 : A) (later : list A) :
  forall (x0 : A) (i : nat), (i < List.length later)%nat ->
  nth i (map f (combine later (x0 :: later))) d
  = f (nth i later a0, nth i (x0 :: later) a0).
Proof.
  induction later as [|x1 later IH]; intros x0 i Hi; [inversion Hi|].
  destruct i as [|i]; [reflexivity|].
  cbn [combine map nth]. cbn [List.length] in Hi.
  rewrite IH by lia. reflexivity.
Qed.

Lemma nth_seconds_between (ts : list Z) (i : nat) :
  (i + 1 < List.length ts)%nat ->
  nth (i + 1) (seconds_between ts) F64.nan
  = F64.of_Z (Timedelta_seconds (nth (i + 1) ts 0%Z - nth i ts 0%Z)).
Proof.
  intros Hi. destruct ts as [|t later]; [cbn in Hi; lia|].
  rewrite Nat.add_1_r in *. cbn [seconds_between nth].
  rewrite (nth_pairs _ _ 0%Z) by (cbn [List.length] in Hi; lia). reflexivity.
Qed.

Lemma nth_differences (xs : list F64.t) (i : nat) :
  (i + 1 < List.length xs)%nat ->
  nth (i + 1) (differences xs) F64.nan
  = F64.sub (nth (i + 1) xs F64.nan) (nth i xs F64.nan).
Proof.
  intros Hi. destruct xs as [|x later]; [cbn in Hi; lia|].
  rewrite Nat.add_1_r in *. cbn [differences nth].
  rewrite (nth_pairs _ _ F64.nan) by (cbn [List.length] in Hi; lia). reflexivity.
Qed.

Lemma head_seconds_between (ts : list Z) :
  ts <> [] -> nth 0 (seconds_between ts) F64.nan = F64.nan.
Proof. destruct ts; [contradiction|reflexivity]. Qed.

Lemma head_differences (xs : list F64.t) : nth 0 (differences xs) F64.nan = F64.nan.
Proof. destruct xs; reflexivity. Qed.

Lemma div_nan_r (x : F64.t) : F64.div x F64.nan = F64.nan.
Proof. destruct x; reflexivity. Qed.

Lemma div_nan_l (y : F64.t) : F64.div F64.nan y = F64.nan.
Proof. reflexivity. Qed.

Lemma sub_nan_r (x : F64.t) : F64.sub x F64.nan = F64.nan.
Proof. destruct x; reflexivity. Qed.

Lemma sub_nan_l (y : F64.t) : F64.sub F64.nan y = F64.nan.
Proof. reflexivity. Qed.

Lemma lookup_app (c : string) (xs ys : list (string * Series)) :
  lookup c (xs ++ ys)
  = match lookup c xs with Some s => Some s | None => lookup c ys end.
Proof.
  induction xs as [|[n s] xs IH]; [reflexivity|]. cbn [app lookup].
  destruct (String.eqb c n); [reflexivity|exact IH].
Qed.

(** Assignment leaves the other columns alone. *)
Lemma lookup_setitem_other (df out : DataFrame) (c c' : string) (v : Series) :
  setitem df c v = Return out -> String.eqb c' c = false ->
  lookup c' (columns out) = lookup c' (columns df).
Proof.
  unfold setitem. destruct (negb _); [discriminate|].
  destruct (has_name c (column_names df)); intros H Hne; injection H as <-;
    cbn [columns].
  - induction (columns df) as [|[n s] rest IH]; [reflexivity|].
    cbn [map fst lookup].
    destruct (String.eqb_spec c n) as [<-|Hn]; cbn [lookup].
    + rewrite Hne. exact IH.
    + rewrite IH. reflexivity.
  - rewrite lookup_app. cbn [lookup]. rewrite Hne.
    destruct (lookup c' (columns df)); reflexivity.
Qed.

Lemma insert_levels_succeeds (levels : list (string * Series))
  (cols0 cols1 : list (string * Series)) (out0 : list (string * Series)) :
  (forall n, In n (map fst levels) ->
     has_name n (map fst cols1) = has_name n (map fst cols0)) ->
  insert_levels levels cols0 = Return out0 ->
  insert_levels levels cols1 = Return (levels ++ cols1).
Proof.
  revert out0. induction levels as [|[n s] rest IH]; intros out0 Hn H;
    [reflexivity|].
  cbn [insert_levels] in *.
  destruct (insert_levels rest cols0) as [r0|e] eqn:E0; cbn [bind] in H;
    [|discriminate].
  rewrite (IH r0) by (auto; intros m Hm; apply Hn; right; exact Hm).
  cbn [bind]. apply insert_levels_Return in E0. subst r0.
  destruct (has_name n (map fst (rest ++ cols0))) eqn:E; [discriminate|].
  rewrite map_app, has_name_app in E |- *.
  apply orb_false_elim in E. destruct E as [E1 E2].
  rewrite E1, (Hn n (or_introl eq_refl)), E2. reflexivity.
Qed.

(** The flat view of a table after [df[dst] = q], when [dst] is not
    the name of an index level. *)
Lemma reset_index_after_setitem (df out flat : DataFrame) (dst : string) (q : Series) :
  reset_index df = Return flat ->
  setitem df dst q = Return out ->
  has_name dst (level_names df) = false ->
  String.eqb "index" dst = false ->
  exists flat',
    reset_index out = Return flat' /\
    getitem flat' dst = Return q /\
    forall c, String.eqb c dst = false -> getitem flat' c = getitem flat c.
Proof.
  intros Hflat Hset Hlv Hidx.
  destruct (setitem_names _ _ _ _ Hset) as [Hi Hn].
  pose proof (level_names_setitem _ _ _ _ Hset Hidx) as Hl.
  assert (Hlen : len out = len df) by (unfold len; rewrite Hi; reflexivity).
  unfold reset_index in Hflat |- *.
  destruct (insert_levels (combine (level_names df) (map snd (index df))) (columns df))
    as [cols0|e] eqn:E0; cbn [bind] in Hflat; [|discriminate].
  injection Hflat as <-.
  assert (Hnames : map fst (combine (level_names df) (map snd (index df)))
                   = level_names df).
  { assert (G : forall (xs : list string) (ys : list Series),
               List.length xs = List.length ys -> map fst (combine xs ys) = xs).
    { induction xs as [|x xs IH]; intros [|y ys] Hxy; cbn in *; try discriminate;
        [reflexivity|]. f_equal. apply IH. lia. }
    apply G. rewrite level_names_length, length_map. reflexivity. }
  rewrite Hl, Hi, Hlen.
  rewrite (insert_levels_succeeds _ (columns df) (columns out) cols0); [|
    |exact E0].
  2:{ intros n Hin. rewrite Hnames in Hin.
      fold (column_names out). fold (column_names df). rewrite Hn.
      destruct (String.eqb_spec n dst) as [->|_]; [|apply orb_false_r].
      exfalso. unfold has_name in Hlv.
      assert (existsb (String.eqb dst) (level_names df) = true) as Hex
        by (apply existsb_exists; exists dst; split;
            [exact Hin|apply String.eqb_refl]).
      rewrite Hex in Hlv. discriminate. }
  cbn [bind]. eexists. split; [reflexivity|].
  apply insert_levels_Return in E0. subst cols0.
  unfold getitem. cbn [columns].
  assert (Hlev : forall c, has_name c (level_names df) = false ->
            lookup c (combine (level_names df) (map snd (index df))) = None).
  { intros c Hc. apply lookup_lacks_name. rewrite Hnames. exact Hc. }
  split.
  - rewrite lookup_app, (Hlev dst Hlv).
    pose proof (getitem_setitem _ _ _ _ Hset) as G. unfold getitem in G. exact G.
  - intros c Hc. rewrite !lookup_app.
    rewrite (lookup_setitem_other _ _ _ _ _ Hset Hc). reflexivity.
Qed.

Lemma nth_quotients_nan (xs ys : list F64.t) (i : nat) :
  List.length xs = List.length ys ->
  nth i xs F64.nan = F64.nan \/ nth i ys F64.nan = F64.nan ->
  nth i (quotients xs ys) F64.nan = F64.nan.
Proof.
  intros Hl H. destruct (Nat.lt_ge_cases i (List.length xs)) as [Hi|Hi].
  - rewrite nth_quotients by assumption.
    destruct H as [-> | ->]; [reflexivity|apply div_nan_r].
  - apply nth_overflow. rewrite length_quotients by exact Hl. exact Hi.
Qed.

Lemma nth_differences_nan (xs : list F64.t) (i : nat) :
  nth i xs F64.nan = F64.nan \/ nth (i - 1) xs F64.nan = F64.nan ->
  nth i (differences xs) F64.nan = F64.nan.
Proof.
  intros H. destruct i as [|j]; [apply head_differences|].
  destruct (Nat.lt_ge_cases (S j) (List.length xs)) as [Hi|Hi].
  - replace (S j) with (j + 1)%nat in * by lia.
    rewrite nth_differences by exact Hi.
    replace (j + 1 - 1)%nat with j in H by lia.
    destruct H as [-> | ->]; [reflexivity|apply sub_nan_r].
  - apply nth_overflow. rewrite length_differences. exact Hi.
Qed.

Lemma head_seconds_nan (ts : list Z) : nth 0 (seconds_between ts) F64.nan = F64.nan.
Proof. destruct ts; reflexivity. Qed.

Lemma setitem_succeeds (df : DataFrame) (c : string) (v : Series) :
  List.length v = len df -> exists out, setitem df c v = Return out.
Proof.
  intros H. unfold setitem. rewrite H, Nat.eqb_refl. cbn [negb].
  destruct (has_name c (column_names df)); eexists; reflexivity.
Qed.

Lemma setitem_length (df out : DataFrame) (c : string) (v : Series) :
  setitem df c v = Return out -> List.length v = len df.
Proof.
  unfold setitem. destruct (Nat.eqb_spec (List.length v) (len df)) as [H|H];
    cbn [negb]; [intros _; exact H|discriminate].
Qed.

(** Assigning the same values to the same column a second time changes
    nothing. *)
Lemma setitem_twice (df out : DataFrame) (c : string) (v : Series) :
  setitem df c v = Return out -> setitem out c v = Return out.
Proof.
  intros H. pose proof (setitem_length _ _ _ _ H) as Hl.
  destruct (setitem_names _ _ _ _ H) as [Hi Hn].
  unfold setitem. unfold len at 1. rewrite Hi. fold (len df).
  rewrite Hl, Nat.eqb_refl. cbn [negb].
  rewrite (Hn c), String.eqb_refl, orb_true_r.
  f_equal. unfold setitem in H. rewrite Hl, Nat.eqb_refl in H. cbn [negb] in H.
  destruct (has_name c (column_names df)) eqn:E; injection H as <-;
    cbn [index columns]; f_equal.
  - rewrite map_map. apply map_ext. intros [n s]. cbn [fst].
    destruct (String.eqb c n) eqn:En; cbn [fst]; [rewrite String.eqb_refl|rewrite En];
      reflexivity.
  - rewrite map_app. cbn [map fst]. rewrite String.eqb_refl. f_equal.
    unfold column_names in E. rewrite <- (map_id (columns df)) at 2.
    apply map_ext_in. intros [n s] Hin. cbn [fst].
    destruct (String.eqb_spec c n) as [->|_]; [|reflexivity].
    exfalso. unfold has_name in E.
    assert (existsb (String.eqb n) (map fst (columns df)) = true) as Hex.
    { apply existsb_exists. exists n. split; [|apply String.eqb_refl].
      apply in_map_iff. exists (n, s). split; [reflexivity|exact Hin]. }
    rewrite Hex in E. discriminate.
Qed.

Section KinematicsOnFloats.

Variable DateTime : string.

Lemma time_deltas_floats (df flat : DataFrame) (ts : list Z) :
  reset_index df = Return flat ->
  getitem flat DateTime = Return (map VTimestamp ts) ->
  time_deltas DateTime df = Return (map VFloat (seconds_between ts)).
Proof.
  intros Hflat Htimes. rewrite (time_deltas_of_timestamps _ _ _ _ Hflat Htimes).
  destruct ts as [|t later]; [reflexivity|]. cbn [seconds_between map].
  rewrite map_map. reflexivity.
Qed.

(** One kinematic step on float data. *)
Lemma derived_from_floats (src dst : string) (pre : Series -> result Series)
  (df flat : DataFrame) (xs ys : list F64.t) (ts : list Z) :
  reset_index df = Return flat ->
  getitem flat src = Return (map VFloat xs) ->
  getitem flat DateTime = Return (map VTimestamp ts) ->
  pre (map VFloat xs) = Return (map VFloat ys) ->
  List.length ys = len df ->
  List.length ts = len df ->
  exists out,
    derived_from DateTime src dst pre df = Return out /\
    setitem df dst (map VFloat (quotients ys (seconds_between ts))) = Return out.
Proof.
  intros Hflat Hsrc Htimes Hpre Ly Lt. unfold derived_from.
  rewrite Hflat. cbn [bind]. rewrite Hsrc. cbn [bind]. rewrite Hpre. cbn [bind].
  rewrite (time_deltas_floats _ _ _ Hflat Htimes). cbn [bind].
  rewrite truediv_floats. cbn [bind]. fold (quotients ys (seconds_between ts)).
  destruct (setitem_succeeds df dst (map VFloat (quotients ys (seconds_between ts))))
    as [out Hout].
  { rewrite length_map, length_quotients; rewrite ?length_seconds_between; lia. }
  exists out. split; exact Hout.
Qed.

(** The same step with the flat view of its result. *)
Lemma derived_from_floats_next (src dst : string) (pre : Series -> result Series)
  (df flat : DataFrame) (xs ys : list F64.t) (ts : list Z) :
  reset_index df = Return flat ->
  getitem flat src = Return (map VFloat xs) ->
  getitem flat DateTime = Return (map VTimestamp ts) ->
  pre (map VFloat xs) = Return (map VFloat ys) ->
  List.length ys = len df ->
  List.length ts = len df ->
  has_name dst (level_names df) = false ->
  String.eqb "index" dst = false ->
  exists out flat',
    derived_from DateTime src dst pre df = Return out /\
    setitem df dst (map VFloat (quotients ys (seconds_between ts))) = Return out /\
    reset_index out = Return flat' /\
    getitem flat' dst = Return (map VFloat (quotients ys (seconds_between ts))) /\
    (forall c, String.eqb c dst = false -> getitem flat' c = getitem flat c).
Proof.
  intros Hflat Hsrc Htimes Hpre Ly Lt Hlv Hidx.
  destruct (derived_from_floats src dst pre df flat xs ys ts)
    as (out & Hrun & Hset); try assumption.
  destruct (reset_index_after_setitem _ _ _ _ _ Hflat Hset Hlv Hidx)
    as (flat' & H1 & H2 & H3).
  exists out, flat'. repeat split; assumption.
Qed.

End KinematicsOnFloats.

Lemma exposes_false (df : DataFrame) (c : string) :
  exposes df c = false ->
  has_name c (level_names df) = false /\ has_name c (column_names df) = false.
Proof. unfold exposes. rewrite has_name_app. apply orb_false_elim. Qed.

Lemma getitem_setitem_other (df out : DataFrame) (c c' : string) (v : Series) :
  setitem df c v = Return out -> String.eqb c' c = false ->
  getitem out c' = getitem df c'.
Proof.
  intros H Hne. unfold getitem. rewrite (lookup_setitem_other _ _ _ _ _ H Hne).
  reflexivity.
Qed.

Lemma len_setitem (df out : DataFrame) (c : string) (v : Series) :
  setitem df c v = Return out -> len out = len df.
Proof.
  intros H. destruct (setitem_names _ _ _ _ H) as [Hi _]. unfold len. rewrite Hi.
  reflexivity.
Qed.

Lemma has_name_neq (c d : string) (names : list string) :
  has_name c names = true -> has_name d names = false -> String.eqb c d = false.
Proof.
  intros Hc Hd. destruct (String.eqb_spec c d) as [->|_]; [|reflexivity].
  rewrite Hc in Hd. discriminate.
Qed.

Section KinematicChain.

Variables LAT LONG DateTime TRAJECTORY_ID : string.
Variable NumPandasTraj :
  DataFrame -> string -> string -> string -> string -> result DataFrame.
Variable _consecutive_distance_helper : DataFrame -> result DataFrame.

Local Abbreviation create_speed :=
  (create_speed_from_prev_column LAT LONG DateTime TRAJECTORY_ID
     NumPandasTraj _consecutive_distance_helper).
Local Abbreviation create_acceleration :=
  (create_acceleration_from_prev_column LAT LONG DateTime TRAJECTORY_ID
     NumPandasTraj _consecutive_distance_helper).
Local Abbreviation create_jerk :=
  (create_jerk_from_prev_column LAT LONG DateTime TRAJECTORY_ID
     NumPandasTraj _consecutive_distance_helper).

(** The whole chain on a table that has the distance column: the three
    columns in closed form. *)
Lemma jerk_chain_on_floats (dataframe flat : DataFrame)
  (distances : list F64.t) (ts : list Z) :
  reset_index dataframe = Return flat ->
  getitem flat "Distance_prev_to_curr" = Return (map VFloat distances) ->
  getitem flat DateTime = Return (map VTimestamp ts) ->
  List.length distances = len dataframe ->
  List.length ts = len dataframe ->
  exposes dataframe "Speed_prev_to_curr" = false ->
  exposes dataframe "Acceleration_prev_to_curr" = false ->
  let seconds := seconds_between ts in
  let speed := quotients distances seconds in
  let acceleration := quotients (differences speed) seconds in
  let jerk := quotients (differences acceleration) seconds in
  exists out,
    create_jerk dataframe = Return out /\
    getitem out "Speed_prev_to_curr" = Return (map VFloat speed) /\
    getitem out "Acceleration_prev_to_curr" = Return (map VFloat acceleration) /\
    getitem out "jerk_prev_to_curr" = Return (map VFloat jerk) /\
    len out = len dataframe.
Proof.
  intros Hflat Hdist Htimes Ld Lt Hs Ha seconds speed acceleration jerk.
  destruct (exposes_false _ _ Hs) as [Hs1 _].
  destruct (exposes_false _ _ Ha) as [Ha1 _].
  pose proof (getitem_Return_has_name _ _ _ Htimes) as Hdt.
  rewrite (column_names_reset_index _ _ Hflat) in Hdt. fold (exposes dataframe DateTime) in Hdt.
  assert (Hds : String.eqb DateTime "Speed_prev_to_curr" = false)
    by (eapply has_name_neq; [exact Hdt|exact Hs]).
  assert (Hda : String.eqb DateTime "Acceleration_prev_to_curr" = false)
    by (eapply has_name_neq; [exact Hdt|exact Ha]).
  (* speed *)
  destruct (derived_from_floats_next DateTime "Distance_prev_to_curr"
              "Speed_prev_to_curr" Return dataframe flat distances distances ts)
    as (d1 & flat1 & Hrun1 & Hset1 & Hflat1 & Hcol1 & Hoth1);
    try assumption; try reflexivity.
  fold seconds in Hset1, Hcol1. fold speed in Hset1, Hcol1.
  pose proof (len_setitem _ _ _ _ Hset1) as Hlen1.
  pose proof (level_names_setitem _ _ _ _ Hset1 eq_refl) as Hlv1.
  (* acceleration *)
  destruct (derived_from_floats_next DateTime "Speed_prev_to_curr"
              "Acceleration_prev_to_curr" diff d1 flat1 speed (differences speed) ts)
    as (d2 & flat2 & Hrun2 & Hset2 & Hflat2 & Hcol2 & Hoth2);
    try assumption; try reflexivity.
  { rewrite (Hoth1 DateTime Hds). exact Htimes. }
  { apply diff_floats. }
  { rewrite length_differences. subst speed. rewrite length_quotients;
      subst seconds; rewrite ?length_seconds_between; lia. }
  { lia. }
  { rewrite Hlv1. exact Ha1. }
  fold seconds in Hset2, Hcol2. fold acceleration in Hset2, Hcol2.
  pose proof (len_setitem _ _ _ _ Hset2) as Hlen2.
  (* jerk *)
  destruct (derived_from_floats DateTime "Acceleration_prev_to_curr"
              "jerk_prev_to_curr" diff d2 flat2 acceleration
              (differences acceleration) ts)
    as (out & Hrun3 & Hset3); try assumption.
  { rewrite (Hoth2 DateTime Hda), (Hoth1 DateTime Hds). exact Htimes. }
  { apply diff_floats. }
  { rewrite length_differences. subst acceleration.
    rewrite length_quotients; rewrite ?length_differences; subst speed;
      rewrite ?length_quotients; subst seconds; rewrite ?length_seconds_between; lia. }
  { lia. }
  fold seconds in Hset3. fold jerk in Hset3.
  exists out. split; [|split; [|split; [|split]]].
  - unfold create_jerk_from_prev_column. rewrite jerk_from_shape.
    rewrite (derived_from_missing _ _ _ _ _ _ Hflat Ha). cbn [try_except_KeyError].
    unfold create_acceleration_from_prev_column. rewrite acceleration_from_shape.
    rewrite (derived_from_missing _ _ _ _ _ _ Hflat Hs). cbn [try_except_KeyError].
    unfold create_speed_from_prev_column. rewrite speed_from_shape, Hrun1.
    cbn [try_except_KeyError bind]. rewrite Hrun2. cbn [bind]. exact Hrun3.
  - rewrite (getitem_setitem_other _ _ _ "Speed_prev_to_curr" _ Hset3 eq_refl).
    rewrite (getitem_setitem_other _ _ _ "Speed_prev_to_curr" _ Hset2 eq_refl).
    apply (getitem_setitem _ _ _ _ Hset1).
  - rewrite (getitem_setitem_other _ _ _ "Acceleration_prev_to_curr" _ Hset3 eq_refl).
    apply (getitem_setitem _ _ _ _ Hset2).
  - apply (getitem_setitem _ _ _ _ Hset3).
  - rewrite (len_setitem _ _ _ _ Hset3). lia.
Qed.

End KinematicChain.

Lemma Timedelta_seconds_zero (delta days : Z) :
  (0 <= delta - days * ns_per_day < ns_per_second)%Z ->
  Timedelta_seconds delta = 0%Z.
Proof.
  intros H. unfold Timedelta_seconds.
  assert (Hm : (delta mod ns_per_day = delta - days * ns_per_day)%Z).
  { symmetry. apply Z.mod_unique with (q := days).
    - left. unfold ns_per_day, ns_per_second in *. lia.
    - unfold ns_per_day, ns_per_second in *. lia. }
  rewrite Hm. apply Z.div_small. exact H.
Qed.

Section KinematicProperties.

Variables LAT LONG DateTime TRAJECTORY_ID : string.
Variable NumPandasTraj :
  DataFrame -> string -> string -> string -> string -> result DataFrame.
Variable _consecutive_distance_helper : DataFrame -> result DataFrame.

Local Abbreviation create_speed :=
  (create_speed_from_prev_column LAT LONG DateTime TRAJECTORY_ID
     NumPandasTraj _consecutive_distance_helper).
Local Abbreviation create_acceleration :=
  (create_acceleration_from_prev_column LAT LONG DateTime TRAJECTORY_ID
     NumPandasTraj _consecutive_distance_helper).
Local Abbreviation create_jerk :=
  (create_jerk_from_prev_column LAT LONG DateTime TRAJECTORY_ID
     NumPandasTraj _consecutive_distance_helper).

(** X5.  On a table that has the distance column and valid times but no
    speed and no acceleration column, [create_jerk_from_prev_column]
    adds all three kinematic columns, each computed from the one
    before: speed is distance over the seconds between records,
    acceleration the change of speed over those seconds, jerk the
    change of acceleration over those seconds. *)
Theorem kinematic_columns_closed_form (dataframe flat : DataFrame)
  (distances : list F64.t) (ts : list Z) :
  reset_index dataframe = Return flat ->
  getitem flat "Distance_prev_to_curr" = Return (map VFloat distances) ->
  getitem flat DateTime = Return (map VTimestamp ts) ->
  List.length distances = len dataframe ->
  List.length ts = len dataframe ->
  exposes dataframe "Speed_prev_to_curr" = false ->
  exposes dataframe "Acceleration_prev_to_curr" = false ->
  let seconds := seconds_between ts in
  let speed := quotients distances seconds in
  let acceleration := quotients (differences speed) seconds in
  let jerk := quotients (differences acceleration) seconds in
  exists out,
    create_jerk dataframe = Return out /\
    getitem out "Speed_prev_to_curr" = Return (map VFloat speed) /\
    getitem out "Acceleration_prev_to_curr" = Return (map VFloat acceleration) /\
    getitem out "jerk_prev_to_curr" = Return (map VFloat jerk) /\
    len out = len dataframe.
Proof. apply jerk_chain_on_floats. Qed.

(** X6.  The kinematic columns start with missing values: the first record
    has no speed, the first two no acceleration and the first three no
    jerk. *)
Theorem kinematic_columns_start_with_NaN (dataframe flat : DataFrame)
  (distances : list F64.t) (ts : list Z) :
  reset_index dataframe = Return flat ->
  getitem flat "Distance_prev_to_curr" = Return (map VFloat distances) ->
  getitem flat DateTime = Return (map VTimestamp ts) ->
  List.length distances = len dataframe ->
  List.length ts = len dataframe ->
  exposes dataframe "Speed_prev_to_curr" = false ->
  exposes dataframe "Acceleration_prev_to_curr" = false ->
  exists out speed acceleration jerk,
    create_jerk dataframe = Return out /\
    getitem out "Speed_prev_to_curr" = Return (map VFloat speed) /\
    getitem out "Acceleration_prev_to_curr" = Return (map VFloat acceleration) /\
    getitem out "jerk_prev_to_curr" = Return (map VFloat jerk) /\
    nth 0 speed F64.nan = F64.nan /\
    (nth 0 acceleration F64.nan = F64.nan /\ nth 1 acceleration F64.nan = F64.nan) /\
    (nth 0 jerk F64.nan = F64.nan /\ nth 1 jerk F64.nan = F64.nan /\
     nth 2 jerk F64.nan = F64.nan).
Proof.
  intros Hflat Hdist Htimes Ld Lt Hs Ha.
  destruct (jerk_chain_on_floats LAT LONG DateTime TRAJECTORY_ID NumPandasTraj
              _consecutive_distance_helper dataframe flat distances ts
              Hflat Hdist Htimes Ld Lt Hs Ha) as (out & Hrun & H1 & H2 & H3 & _).
  set (seconds := seconds_between ts) in *.
  set (speed := quotients distances seconds) in *.
  set (acceleration := quotients (differences speed) seconds) in *.
  set (jerk := quotients (differences acceleration) seconds) in *.
  assert (Ls : List.length seconds = len dataframe)
    by (subst seconds; rewrite length_seconds_between; exact Lt).
  assert (Lsp : List.length speed = len dataframe)
    by (subst speed; rewrite length_quotients; lia).
  assert (Lac : List.length acceleration = len dataframe)
    by (subst acceleration; rewrite length_quotients;
        rewrite ?length_differences; lia).
  assert (S0 : nth 0 speed F64.nan = F64.nan).
  { subst speed. apply nth_quotients_nan; [lia|]. right. apply head_seconds_nan. }
  assert (A0 : nth 0 acceleration F64.nan = F64.nan).
  { subst acceleration. apply nth_quotients_nan; [rewrite length_differences; lia|].
    right. apply head_seconds_nan. }
  assert (A1 : nth 1 acceleration F64.nan = F64.nan).
  { subst acceleration. apply nth_quotients_nan; [rewrite length_differences; lia|].
    left. apply nth_differences_nan. right. exact S0. }
  exists out, speed, acceleration, jerk.
  repeat split; try assumption; subst jerk;
    (apply nth_quotients_nan; [rewrite length_differences; lia|]).
  - right. apply head_seconds_nan.
  - left. apply nth_differences_nan. left. exact A1.
  - left. apply nth_differences_nan. right. exact A1.
Qed.

(** X7.  Records whose time difference, less whole days, is under one
    second get a speed that is an infinity or a NaN: the divisor is
    0. *)
Theorem speed_not_finite_within_a_second (dataframe flat : DataFrame)
  (distances : list F64.t) (ts : list Z) (i : nat) (days : Z) :
  reset_index dataframe = Return flat ->
  getitem flat "Distance_prev_to_curr" = Return (map VFloat distances) ->
  getitem flat DateTime = Return (map VTimestamp ts) ->
  List.length distances = len dataframe ->
  List.length ts = len dataframe ->
  (i + 1 < len dataframe)%nat ->
  (0 <= nth (i + 1) ts 0 - nth i ts 0 - days * ns_per_day < ns_per_second)%Z ->
  exists out speed,
    create_speed dataframe = Return out /\
    getitem out "Speed_prev_to_curr" = Return (map VFloat speed) /\
    F64.is_finite (nth (i + 1) speed F64.nan) = false.
Proof.
  intros Hflat Hdist Htimes Ld Lt Hi Hgap.
  destruct (derived_from_floats DateTime "Distance_prev_to_curr"
              "Speed_prev_to_curr" Return dataframe flat distances distances ts)
    as (out & Hrun & Hset); try assumption; try reflexivity.
  exists out, (quotients distances (seconds_between ts)).
  split; [|split].
  - unfold create_speed_from_prev_column. rewrite speed_from_shape, Hrun. reflexivity.
  - apply (getitem_setitem _ _ _ _ Hset).
  - rewrite nth_quotients by (rewrite ?length_seconds_between; lia).
    rewrite nth_seconds_between by lia.
    rewrite (Timedelta_seconds_zero _ days Hgap). apply div_by_zero_not_finite.
Qed.

End KinematicProperties.

Lemma try_except_Return_inv {A : Type} (f : A -> result A) (a : A)
  (fallback : result A) (out : A) :
  try_except_KeyError (f a) (d <- fallback ;; f d) = Return out ->
  exists d0, f d0 = Return out.
Proof.
  destruct (f a) as [d|[]] eqn:E; cbn [try_except_KeyError]; intros H;
    try discriminate.
  - exists a. rewrite E. exact H.
  - apply bind_Return_inv in H. destruct H as (d0 & _ & H). exists d0. exact H.
Qed.

Section DerivedColumns.

Variable DateTime : string.

Lemma derived_from_Return (src dst : string) (pre : Series -> result Series)
  (df out : DataFrame) :
  derived_from DateTime src dst pre df = Return out ->
  exists flat x y seconds q,
    reset_index df = Return flat /\ getitem flat src = Return x /\
    pre x = Return y /\ time_deltas DateTime df = Return seconds /\
    truediv y seconds = Return q /\ setitem df dst q = Return out.
Proof.
  unfold derived_from. intros H.
  apply bind_Return_inv in H. destruct H as (flat & Hflat & H).
  apply bind_Return_inv in H. destruct H as (x & Hx & H).
  apply bind_Return_inv in H. destruct H as (y & Hy & H).
  apply bind_Return_inv in H. destruct H as (seconds & Hsec & H).
  apply bind_Return_inv in H. destruct H as (q & Hq & H).
  exists flat, x, y, seconds, q. repeat split; assumption.
Qed.

(** With the source column and the time at hand, the [try] block goes
    through: the fallback is not run. *)
Lemma derived_from_try (src dst : string) (pre : Series -> result Series)
  (df : DataFrame) (handler : result DataFrame) :
  (forall x, raises_KeyError (pre x) = false) ->
  exposes df src = true -> exposes df DateTime = true ->
  try_except_KeyError (derived_from DateTime src dst pre df) handler
  = derived_from DateTime src dst pre df.
Proof.
  intros Hpre Hsrc Hdt. apply try_except_KeyError_body.
  apply derived_from_no_KeyError; [exact Hpre|].
  intros flat Hflat. rewrite (column_names_reset_index _ _ Hflat).
  split; assumption.
Qed.

(** A step sets its own column and nothing else. *)
Lemma derived_from_keeps (src dst : string) (pre : Series -> result Series)
  (df out : DataFrame) :
  derived_from DateTime src dst pre df = Return out ->
  index out = index df /\
  (forall c, String.eqb c dst = false -> getitem out c = getitem df c) /\
  exists q, getitem out dst = Return q /\ List.length q = len df.
Proof.
  intros H. destruct (derived_from_Return _ _ _ _ _ H)
    as (flat & x & y & seconds & q & _ & _ & _ & _ & _ & Hset).
  destruct (setitem_names _ _ _ _ Hset) as [Hi _].
  split; [exact Hi|]. split.
  - intros c Hc. apply (getitem_setitem_other _ _ _ _ _ Hset Hc).
  - exists q. split; [apply (getitem_setitem _ _ _ _ Hset)|].
    apply (setitem_length _ _ _ _ Hset).
Qed.

(** Running a step on its own result changes nothing. *)
Lemma derived_from_again (src dst : string) (pre : Series -> result Series)
  (d0 d1 : DataFrame) :
  derived_from DateTime src dst pre d0 = Return d1 ->
  String.eqb src dst = false ->
  String.eqb DateTime dst = false ->
  String.eqb "index" dst = false ->
  has_name dst (level_names d1) = false ->
  derived_from DateTime src dst pre d1 = Return d1.
Proof.
  intros H Hsrc Hdt Hidx Hlv.
  destruct (derived_from_Return _ _ _ _ _ H)
    as (flat & x & y & seconds & q & Hflat & Hx & Hy & Hsec & Hq & Hset).
  rewrite (level_names_setitem _ _ _ _ Hset Hidx) in Hlv.
  destruct (reset_index_after_setitem _ _ _ _ _ Hflat Hset Hlv Hidx)
    as (flat' & Hflat' & _ & Hoth).
  assert (Hsec' : time_deltas DateTime d1 = Return seconds).
  { unfold time_deltas in *. rewrite Hflat'. rewrite Hflat in Hsec.
    cbn [bind] in *. rewrite (Hoth DateTime Hdt). exact Hsec. }
  unfold derived_from. rewrite Hflat'. cbn [bind].
  rewrite (Hoth src Hsrc), Hx. cbn [bind]. rewrite Hy. cbn [bind].
  rewrite Hsec'. cbn [bind]. rewrite Hq. cbn [bind].
  apply (setitem_twice _ _ _ _ Hset).
Qed.

End DerivedColumns.

Section KinematicCalls.

Variables LAT LONG DateTime TRAJECTORY_ID : string.
Variable NumPandasTraj :
  DataFrame -> string -> string -> string -> string -> result DataFrame.
Variable _consecutive_distance_helper : DataFrame -> result DataFrame.

Local Abbreviation create_speed :=
  (create_speed_from_prev_column LAT LONG DateTime TRAJECTORY_ID
     NumPandasTraj _consecutive_distance_helper).
Local Abbreviation create_acceleration :=
  (create_acceleration_from_prev_column LAT LONG DateTime TRAJECTORY_ID
     NumPandasTraj _consecutive_distance_helper).
Local Abbreviation create_jerk :=
  (create_jerk_from_prev_column LAT LONG DateTime TRAJECTORY_ID
     NumPandasTraj _consecutive_distance_helper).

Lemma Return_no_KeyError (x : Series) : raises_KeyError (Return x) = false.
Proof. reflexivity. Qed.

(** X3.  When the column a kinematic function starts from is there, the
    function takes its [try] block and never recomputes that column;
    what it returns has the index of its argument, every other column
    unchanged, and the new column with one value per record. *)
Theorem kinematics_keep_the_rest_of_the_table (dataframe : DataFrame) :
  exposes dataframe DateTime = true ->
  (exposes dataframe "Distance_prev_to_curr" = true ->
   create_speed dataframe = speed_from DateTime dataframe /\
   forall out, create_speed dataframe = Return out ->
     index out = index dataframe /\
     (forall c, String.eqb c "Speed_prev_to_curr" = false ->
        getitem out c = getitem dataframe c) /\
     exists speed, getitem out "Speed_prev_to_curr" = Return speed /\
                   List.length speed = len dataframe) /\
  (exposes dataframe "Speed_prev_to_curr" = true ->
   create_acceleration dataframe = acceleration_from DateTime dataframe /\
   forall out, create_acceleration dataframe = Return out ->
     index out = index dataframe /\
     (forall c, String.eqb c "Acceleration_prev_to_curr" = false ->
        getitem out c = getitem dataframe c) /\
     exists acceleration,
       getitem out "Acceleration_prev_to_curr" = Return acceleration /\
       List.length acceleration = len dataframe) /\
  (exposes dataframe "Acceleration_prev_to_curr" = true ->
   create_jerk dataframe = jerk_from DateTime dataframe /\
   forall out, create_jerk dataframe = Return out ->
     index out = index dataframe /\
     (forall c, String.eqb c "jerk_prev_to_curr" = false ->
        getitem out c = getitem dataframe c) /\
     exists jerk, getitem out "jerk_prev_to_curr" = Return jerk /\
                  List.length jerk = len dataframe).
Proof.
  intros Hdt. split; [|split]; intros Hsrc.
  - assert (E : create_speed dataframe = speed_from DateTime dataframe).
    { unfold create_speed_from_prev_column. rewrite speed_from_shape.
      apply derived_from_try; [apply Return_no_KeyError|assumption|assumption]. }
    split; [exact E|]. intros out Hout. rewrite E, speed_from_shape in Hout.
    apply (derived_from_keeps _ _ _ _ _ _ Hout).
  - assert (E : create_acceleration dataframe = acceleration_from DateTime dataframe).
    { unfold create_acceleration_from_prev_column. rewrite acceleration_from_shape.
      apply derived_from_try; [apply diff_no_KeyError|assumption|assumption]. }
    split; [exact E|]. intros out Hout. rewrite E, acceleration_from_shape in Hout.
    apply (derived_from_keeps _ _ _ _ _ _ Hout).
  - assert (E : create_jerk dataframe = jerk_from DateTime dataframe).
    { unfold create_jerk_from_prev_column. rewrite jerk_from_shape.
      apply derived_from_try; [apply diff_no_KeyError|assumption|assumption]. }
    split; [exact E|]. intros out Hout. rewrite E, jerk_from_shape in Hout.
    apply (derived_from_keeps _ _ _ _ _ _ Hout).
Qed.

Lemma derived_call_again (src dst : string) (pre : Series -> result Series)
  (df d1 : DataFrame) (fallback fallback' : result DataFrame) :
  try_except_KeyError (derived_from DateTime src dst pre df)
    (d <- fallback ;; derived_from DateTime src dst pre d) = Return d1 ->
  String.eqb src dst = false ->
  String.eqb DateTime dst = false ->
  String.eqb "index" dst = false ->
  has_name dst (level_names d1) = false ->
  try_except_KeyError (derived_from DateTime src dst pre d1) fallback' = Return d1.
Proof.
  intros H Hsrc Hdt Hidx Hlv.
  destruct (try_except_Return_inv (derived_from DateTime src dst pre) _ _ _ H)
    as [d0 H0].
  rewrite (derived_from_again _ _ _ _ _ _ H0 Hsrc Hdt Hidx Hlv). reflexivity.
Qed.

(** X4.  Calling a kinematic function on its own result returns that
    result again. *)
Theorem kinematic_functions_are_idempotent (dataframe once : DataFrame) :
  (create_speed dataframe = Return once ->
   String.eqb DateTime "Speed_prev_to_curr" = false ->
   has_name "Speed_prev_to_curr" (level_names once) = false ->
   create_speed once = Return once) /\
  (create_acceleration dataframe = Return once ->
   String.eqb DateTime "Acceleration_prev_to_curr" = false ->
   has_name "Acceleration_prev_to_curr" (level_names once) = false ->
   create_acceleration once = Return once) /\
  (create_jerk dataframe = Return once ->
   String.eqb DateTime "jerk_prev_to_curr" = false ->
   has_name "jerk_prev_to_curr" (level_names once) = false ->
   create_jerk once = Return once).
Proof.
  split; [|split]; intros H Hdt Hlv.
  - unfold create_speed_from_prev_column in *. rewrite speed_from_shape in *.
    apply (derived_call_again _ _ _ _ _ _ _ H eq_refl Hdt eq_refl Hlv).
  - unfold create_acceleration_from_prev_column in *.
    rewrite acceleration_from_shape in *.
    apply (derived_call_again _ _ _ _ _ _ _ H eq_refl Hdt eq_refl Hlv).
  - unfold create_jerk_from_prev_column in *. rewrite jerk_from_shape in *.
    apply (derived_call_again _ _ _ _ _ _ _ H eq_refl Hdt eq_refl Hlv).
Qed.

End KinematicCalls.

Lemma extremum_Z_least (rest : list Z) : forall first x,
  In x (first :: rest) -> (extremum Z.ltb first rest <= x)%Z.
Proof.
  unfold extremum. induction rest as [|y rest IH]; intros first x Hx.
  - destruct Hx as [<-|[]]. cbn. lia.
  - cbn [fold_left]. destruct (Z.ltb_spec y first).
    + destruct Hx as [<-|[<-|Hx]].
      * specialize (IH y y (or_introl eq_refl)). lia.
      * apply IH; left; reflexivity.
      * apply IH; right; exact Hx.
    + destruct Hx as [<-|[<-|Hx]].
      * apply IH; left; reflexivity.
      * specialize (IH first first (or_introl eq_refl)). lia.
      * apply IH; right; exact Hx.
Qed.

Lemma extremum_Z_greatest (rest : list Z) : forall first x,
  In x (first :: rest) ->
  (x <= extremum (fun x best => Z.ltb best x) first rest)%Z.
Proof.
  unfold extremum. induction rest as [|y rest IH]; intros first x Hx.
  - destruct Hx as [<-|[]]. cbn. lia.
  - cbn [fold_left]. destruct (Z.ltb_spec first y).
    + destruct Hx as [<-|[<-|Hx]].
      * specialize (IH y y (or_introl eq_refl)). lia.
      * apply IH; left; reflexivity.
      * apply IH; right; exact Hx.
    + destruct Hx as [<-|[<-|Hx]].
      * apply IH; left; reflexivity.
      * specialize (IH first first (or_introl eq_refl)). lia.
      * apply IH; right; exact Hx.
Qed.

Lemma Series_min_earliest (t0 : Z) (rest : list Z) :
  exists t, Series_min (map VTimestamp (t0 :: rest)) = Return (VTimestamp t) /\
            In t (t0 :: rest) /\ forall x, In x (t0 :: rest) -> (t <= x)%Z.
Proof.
  eexists. split; [apply reduce_with_timestamps|].
  split; [apply extremum_In|apply extremum_Z_least].
Qed.

Lemma Series_max_latest (t0 : Z) (rest : list Z) :
  exists t, Series_max (map VTimestamp (t0 :: rest)) = Return (VTimestamp t) /\
            In t (t0 :: rest) /\ forall x, In x (t0 :: rest) -> (t >= x)%Z.
Proof.
  eexists. split; [apply reduce_with_timestamps|].
  split; [apply extremum_In|].
  intros x Hx. apply Z.le_ge. apply extremum_Z_greatest, Hx.
Qed.

(** A boolean mask computed from the rows selects the rows it holds
    for. *)
Lemma select_by {R B : Type} (p : R -> bool) (f : R -> B) (rows : list R) :
  select (map p rows) (map f rows) = map f (filter p rows).
Proof.
  unfold select. induction rows as [|r rows IH]; [reflexivity|].
  cbn [map combine filter fst]. destruct (p r); cbn [map snd]; rewrite IH;
    reflexivity.
Qed.

Lemma filter_filter {A : Type} (p q : A -> bool) (xs : list A) :
  filter q (filter p xs) = filter (fun x => p x && q x) xs.
Proof.
  induction xs as [|x xs IH]; [reflexivity|]. cbn [filter].
  destruct (p x); cbn [andb filter]; [destruct (q x)|]; rewrite IH; reflexivity.
Qed.

Lemma filter_first {A : Type} (p : A -> bool) (xs : list A) (x : A)
  (rest : list A) :
  filter p xs = x :: rest ->
  exists k, nth_error xs k = Some x /\ p x = true /\
    forall j y, (j < k)%nat -> nth_error xs j = Some y -> p y = false.
Proof.
  induction xs as [|a xs IH]; [discriminate|]. cbn [filter].
  destruct (p a) eqn:E; intros H.
  - injection H as -> _. exists 0%nat. split; [reflexivity|].
    split; [exact E|]. intros j y Hj. lia.
  - destruct (IH H) as (k & Hk & Hp & Hfirst). exists (S k).
    split; [exact Hk|]. split; [exact Hp|].
    intros [|j] y Hj Hy; cbn in Hy.
    + injection Hy as <-. exact E.
    + apply (Hfirst j y); [lia|exact Hy].
Qed.

(** Among the rows that [p] keeps, the first one whose time is the
    extreme [t]. *)
Lemma first_best_row {R : Type} (before : Z -> Z -> Prop) (p : R -> bool)
  (time : R -> Z) (rows : list R) (t : Z) :
  In t (map time (filter p rows)) ->
  (forall x, In x (map time (filter p rows)) -> before t x) ->
  exists r rest k,
    filter (fun r => Z.eqb (time r) t) (filter p rows) = r :: rest /\
    nth_error rows k = Some r /\ p r = true /\ time r = t /\
    forall j r', nth_error rows j = Some r' -> p r' = true ->
      before t (time r') /\ ((j < k)%nat -> time r' <> t).
Proof.
  intros Hin Hbest.
  destruct (filter (fun r => Z.eqb (time r) t) (filter p rows)) as [|r rest] eqn:E.
  { exfalso. apply in_map_iff in Hin. destruct Hin as (r & Hr & Hin).
    assert (H : In r (filter (fun r => Z.eqb (time r) t) (filter p rows))).
    { apply filter_In. split; [exact Hin|]. apply Z.eqb_eq, Hr. }
    rewrite E in H. exact H. }
  rewrite filter_filter in E.
  destruct (filter_first _ _ _ _ E) as (k & Hk & Hp & Hfirst).
  apply andb_prop in Hp. destruct Hp as [Hp Ht]. apply Z.eqb_eq in Ht.
  exists r, rest, k. split; [reflexivity|]. split; [exact Hk|].
  split; [exact Hp|]. split; [exact Ht|].
  intros j r' Hj Hp'. split.
  - apply Hbest. apply in_map. apply filter_In. split; [|exact Hp'].
    apply (nth_error_In _ _ Hj).
  - intros Hlt Heq. specialize (Hfirst j r' Hlt Hj). cbn beta in Hfirst.
    rewrite Hp' in Hfirst. cbn [andb] in Hfirst.
    apply Z.eqb_neq in Hfirst. exact (Hfirst Heq).
Qed.

(** Five columns of one length, as rows. *)
Lemma zip5 {A B C D E : Type} (n : nat) : forall (a : list A) (b : list B)
  (c : list C) (d : list D) (e : list E),
  List.length a = n -> List.length b = n -> List.length c = n ->
  List.length d = n -> List.length e = n ->
  exists rows : list (A * (B * (C * (D * E)))),
    a = map fst rows /\
    b = map (fun r => fst (snd r)) rows /\
    c = map (fun r => fst (snd (snd r))) rows /\
    d = map (fun r => fst (snd (snd (snd r)))) rows /\
    e = map (fun r => snd (snd (snd (snd r)))) rows.
Proof.
  induction n as [|n IH]; intros [|a0 a] [|b0 b] [|c0 c] [|d0 d] [|e0 e];
    cbn [List.length]; intros Ha Hb Hc Hd He; try discriminate.
  - exists []. repeat split.
  - destruct (IH a b c d e) as (rows & -> & -> & -> & -> & ->); try lia.
    exists ((a0, (b0, (c0, (d0, e0)))) :: rows). repeat split.
Qed.

Section RecordsByTime.

Variables LAT LONG DateTime TRAJECTORY_ID : string.

Hypothesis index_is_free : has_name "index" [LAT; LONG] = false.

Variable extreme : Series -> result cell.
Variable before : Z -> Z -> Prop.
Hypothesis extreme_nil : extreme [] = Return NaN.
Hypothesis extreme_best : forall t0 rest,
  exists t, extreme (map VTimestamp (t0 :: rest)) = Return (VTimestamp t) /\
            In t (t0 :: rest) /\ forall x, In x (t0 :: rest) -> before t x.

Variables (dataframe flat : DataFrame) (lats lons : Series) (ts : list Z).
Hypothesis Hflat : reset_index dataframe = Return flat.
Hypothesis Htimes : getitem flat DateTime = Return (map VTimestamp ts).
Hypothesis Hlats : getitem flat LAT = Return lats.
Hypothesis Hlons : getitem flat LONG = Return lons.
Hypothesis Lts : List.length ts = len dataframe.
Hypothesis Llats : List.length lats = len dataframe.
Hypothesis Llons : List.length lons = len dataframe.

Lemma extreme_In : forall t0 rest,
  exists t, extreme (map VTimestamp (t0 :: rest)) = Return (VTimestamp t) /\
            In t (t0 :: rest).
Proof.
  intros t0 rest. destruct (extreme_best t0 rest) as (t & H1 & H2 & _).
  exists t. split; assumption.
Qed.

(** The row selection of the [if] branch. *)
Lemma location_at_all :
  exists t,
    extreme (map VTimestamp ts) = Return t /\
    let mask := eq_scalar (map VTimestamp ts) t in
    location_at LAT LONG DateTime TRAJECTORY_ID extreme dataframe None
    = (lat0 <- at_label0 (select mask lats) ;;
       lon0 <- at_label0 (select mask lons) ;;
       Return (LatLon lat0 lon0)).
Proof.
  assert (Ht : exists t, extreme (map VTimestamp ts) = Return t).
  { destruct ts as [|t0 rest].
    - exists NaN. exact extreme_nil.
    - destruct (extreme_best t0 rest) as (t & Ht & _). eexists; exact Ht. }
  destruct Ht as [t Ht]. exists t. split; [exact Ht|]. intros mask.
  unfold location_at. rewrite Hflat. cbn [bind]. rewrite Htimes. cbn [bind].
  rewrite Ht. cbn [bind]. fold mask.
  destruct (loc_mask_cols_spec flat mask [LAT; LONG])
    as (picked & Hpicked & Hpi & Hpn & Hpg).
  { cbn [forallb].
    rewrite (getitem_Return_has_name _ _ _ Hlats),
      (getitem_Return_has_name _ _ _ Hlons). reflexivity. }
  rewrite Hpicked. cbn [bind].
  rewrite (flat_index _ _ Hflat) in Hpi. cbn [map fst snd] in Hpi.
  rewrite (reset_index_unnamed picked _ Hpi)
    by (rewrite Hpn; exact index_is_free).
  cbn [bind]. unfold first_lat_lon.
  rewrite (getitem_skip _ (index picked))
    by exact (LAT_not_index _ _ index_is_free).
  rewrite (getitem_same_columns _ picked) by reflexivity.
  rewrite Hpg by (left; reflexivity). rewrite Hlats. cbn [bind].
  destruct (at_label0 (select mask lats)); cbn [bind]; [|reflexivity].
  rewrite (getitem_skip _ (index picked))
    by exact (LONG_not_index _ _ index_is_free).
  rewrite (getitem_same_columns _ picked) by reflexivity.
  rewrite Hpg by (right; left; reflexivity). rewrite Hlons. cbn [bind].
  reflexivity.
Qed.

Lemma location_at_all_first_best :
  (0 < len dataframe)%nat ->
  exists k t lat lon,
    nth_error ts k = Some t /\
    nth_error lats k = Some lat /\ nth_error lons k = Some lon /\
    location_at LAT LONG DateTime TRAJECTORY_ID extreme dataframe None
    = Return (LatLon lat lon) /\
    forall j t', nth_error ts j = Some t' ->
      before t t' /\ ((j < k)%nat -> t' <> t).
Proof.
  intros Hlen. destruct location_at_all as (tc & Ht & ->).
  destruct (zip5 (len dataframe) ts ts ts lats lons Lts Lts Lts Llats Llons)
    as (rows & Ets & _ & _ & Elats & Elons).
  set (time := fun r : Z * (Z * (Z * (cell * cell))) => fst r) in *.
  set (lat := fun r : Z * (Z * (Z * (cell * cell))) => fst (snd (snd (snd r)))) in *.
  set (lon := fun r : Z * (Z * (Z * (cell * cell))) => snd (snd (snd (snd r)))) in *.
  assert (Eall : filter (fun _ : Z * (Z * (Z * (cell * cell))) => true) rows = rows)
    by (apply filter_all, forallb_forall; reflexivity).
  destruct ts as [|t0 rest] eqn:Ets0.
  { cbn in Lts. lia. }
  destruct (extreme_best t0 rest) as (t & Ht' & Hin & Hbest).
  rewrite Ht' in Ht. injection Ht as <-.
  rewrite Ets in Hin, Hbest. rewrite <- Eall in Hin, Hbest.
  destruct (first_best_row before (fun _ => true) time rows t Hin Hbest)
    as (r & rest' & k & Hsel & Hk & _ & Htime & Hfirst).
  rewrite Eall in Hsel.
  assert (M : eq_scalar (map VTimestamp (t0 :: rest)) (VTimestamp t)
              = map (fun r => Z.eqb (time r) t) rows).
  { rewrite Ets. unfold eq_scalar. rewrite !map_map. reflexivity. }
  rewrite M, Elats, Elons, !select_by, Hsel. cbn [map at_label0 bind].
  exists k, t, (lat r), (lon r).
  split; [rewrite Ets, nth_error_map, Hk; cbn; f_equal; exact Htime|].
  split; [rewrite nth_error_map, Hk; reflexivity|].
  split; [rewrite nth_error_map, Hk; reflexivity|].
  split; [reflexivity|].
  intros j t' Hj. rewrite Ets, nth_error_map in Hj.
  destruct (nth_error rows j) as [r'|] eqn:Er; [|discriminate].
  cbn in Hj. injection Hj as <-. apply (Hfirst j r' Er eq_refl).
Qed.

Lemma location_at_all_empty :
  len dataframe = 0%nat ->
  location_at LAT LONG DateTime TRAJECTORY_ID extreme dataframe None
  = Raise (KeyError "0").
Proof.
  intros Hlen. destruct location_at_all as (tc & Ht & ->).
  rewrite Hlen in Llats. apply length_zero_iff_nil in Llats. rewrite Llats.
  unfold select. rewrite combine_nil. reflexivity.
Qed.

Variable ids : Series.
Hypothesis Hids : getitem flat TRAJECTORY_ID = Return ids.
Hypothesis Lids : List.length ids = len dataframe.

Lemma location_at_first_best (id : string) :
  In (VStr id) ids ->
  exists k t lat lon,
    nth_error ids k = Some (VStr id) /\ nth_error ts k = Some t /\
    nth_error lats k = Some lat /\ nth_error lons k = Some lon /\
    location_at LAT LONG DateTime TRAJECTORY_ID extreme dataframe (Some id)
    = Return (LatLon lat lon) /\
    forall j t', nth_error ids j = Some (VStr id) -> nth_error ts j = Some t' ->
      before t t' /\ ((j < k)%nat -> t' <> t).
Proof.
  intros Hid.
  destruct (location_at_selected LAT LONG DateTime TRAJECTORY_ID index_is_free
              extreme extreme_nil extreme_In dataframe flat ids lats lons ts
              Hflat Hids Htimes Hlats Hlons id) as (tc & Ht & ->).
  set (labels := map (fun k : nat => VInt (Z.of_nat k)) (seq 0 (len dataframe))).
  assert (Llab : List.length labels = len dataframe)
    by (unfold labels; rewrite length_map, length_seq; reflexivity).
  destruct (zip5 (len dataframe) ids ts labels lats lons Lids Lts Llab Llats Llons)
    as (rows & Eids & Ets & Elab & Elats & Elons).
  set (rid := fun r : cell * (Z * (cell * (cell * cell))) => fst r) in *.
  set (time := fun r : cell * (Z * (cell * (cell * cell))) => fst (snd r)) in *.
  set (lab := fun r : cell * (Z * (cell * (cell * cell))) => fst (snd (snd r))) in *.
  set (lat := fun r : cell * (Z * (cell * (cell * cell))) => fst (snd (snd (snd r)))) in *.
  set (lon := fun r : cell * (Z * (cell * (cell * cell))) => snd (snd (snd (snd r)))) in *.
  set (p := fun r => cell_eqb (rid r) (VStr id)).
  assert (M1 : eq_scalar ids (VStr id) = map p rows).
  { rewrite Eids. unfold eq_scalar. rewrite map_map. reflexivity. }
  rewrite M1 in *. rewrite Elab, Elats, Elons. rewrite Ets in Ht |- *.
  rewrite !select_by in *.
  assert (Hne : exists r0 rest0, filter p rows = r0 :: rest0).
  { rewrite Eids in Hid. apply in_map_iff in Hid. destruct Hid as (r & Hr & Hin).
    assert (H : In r (filter p rows)).
    { apply filter_In. split; [exact Hin|]. apply cell_eqb_VStr. exact Hr. }
    destruct (filter p rows) as [|r0 rest0]; [destruct H|].
    eexists; eexists; reflexivity. }
  destruct Hne as (r0 & rest0 & E1).
  assert (Hex : exists t, tc = VTimestamp t /\ In t (map time (filter p rows)) /\
                 forall x, In x (map time (filter p rows)) -> before t x).
  { rewrite E1 in *. cbn [map] in *.
    destruct (extreme_best (time r0) (map time rest0)) as (t & Ht' & Hin & Hbest).
    rewrite Ht' in Ht. injection Ht as <-. exists t. repeat split; assumption. }
  destruct Hex as (t & -> & Hin & Hbest).
  destruct (first_best_row before p time rows t Hin Hbest)
    as (r & rest' & k & Hsel & Hk & Hp & Htime & Hfirst).
  assert (M2 : eq_scalar (map VTimestamp (map time (filter p rows))) (VTimestamp t)
               = map (fun r => Z.eqb (time r) t) (filter p rows)).
  { unfold eq_scalar. rewrite !map_map. reflexivity. }
  rewrite M2, !select_by, Hsel. cbn [map List.length Nat.eqb at_label0 bind].
  exists k, t, (lat r), (lon r).
  split.
  { rewrite Eids, nth_error_map, Hk. cbn. f_equal. apply cell_eqb_VStr, Hp. }
  split; [rewrite nth_error_map, Hk; cbn; f_equal; exact Htime|].
  split; [rewrite nth_error_map, Hk; reflexivity|].
  split; [rewrite nth_error_map, Hk; reflexivity|].
  split; [reflexivity|].
  intros j t' Hj Hj'. rewrite Eids, nth_error_map in Hj.
  rewrite nth_error_map in Hj'.
  destruct (nth_error rows j) as [r'|] eqn:Er; [|discriminate].
  cbn in Hj, Hj'. injection Hj' as <-. injection Hj as Hj.
  apply (Hfirst j r' Er). apply cell_eqb_VStr. exact Hj.
Qed.

End RecordsByTime.

(** X8.  Without a trajectory id, [get_start_location] returns the position
    of the first record, in table order, that carries the earliest
    time of the whole table, and [get_end_location] that of the first
    record that carries the latest time. *)
Theorem location_without_id_is_first_extreme_record
  (LAT LONG DateTime TRAJECTORY_ID : string) (dataframe flat : DataFrame)
  (lats lons : Series) (ts : list Z) :
  has_name "index" [LAT; LONG] = false ->
  reset_index dataframe = Return flat ->
  getitem flat DateTime = Return (map VTimestamp ts) ->
  getitem flat LAT = Return lats ->
  getitem flat LONG = Return lons ->
  List.length ts = len dataframe ->
  List.length lats = len dataframe ->
  List.length lons = len dataframe ->
  (0 < len dataframe)%nat ->
  (exists k t lat lon,
     nth_error ts k = Some t /\
     nth_error lats k = Some lat /\ nth_error lons k = Some lon /\
     get_start_location LAT LONG DateTime TRAJECTORY_ID dataframe None
     = Return (LatLon lat lon) /\
     forall j t', nth_error ts j = Some t' ->
       (t <= t')%Z /\ ((j < k)%nat -> (t < t')%Z)) /\
  (exists k t lat lon,
     nth_error ts k = Some t /\
     nth_error lats k = Some lat /\ nth_error lons k = Some lon /\
     get_end_location LAT LONG DateTime TRAJECTORY_ID dataframe None
     = Return (LatLon lat lon) /\
     forall j t', nth_error ts j = Some t' ->
       (t' <= t)%Z /\ ((j < k)%nat -> (t' < t)%Z)).
Proof.
  intros Hfree Hflat Htimes Hlats Hlons Lts Llats Llons Hlen. split.
  - destruct (location_at_all_first_best LAT LONG DateTime TRAJECTORY_ID Hfree
                Series_min Z.le Series_min_nil Series_min_earliest
                dataframe flat lats lons ts Hflat Htimes Hlats Hlons
                Lts Llats Llons Hlen)
      as (k & t & lat & lon & H1 & H2 & H3 & H4 & H5).
    exists k, t, lat, lon. do 4 (split; [assumption|]).
    intros j t' Hj. destruct (H5 j t' Hj) as [Hle Hne]. split; [exact Hle|].
    intros Hlt. specialize (Hne Hlt). lia.
  - destruct (location_at_all_first_best LAT LONG DateTime TRAJECTORY_ID Hfree
                Series_max Z.ge Series_max_nil Series_max_latest
                dataframe flat lats lons ts Hflat Htimes Hlats Hlons
                Lts Llats Llons Hlen)
      as (k & t & lat & lon & H1 & H2 & H3 & H4 & H5).
    exists k, t, lat, lon. do 4 (split; [assumption|]).
    intros j t' Hj. destruct (H5 j t' Hj) as [Hle Hne]. split; [lia|].
    intros Hlt. specialize (Hne Hlt). lia.
Qed.

Lemma location_without_id_is_first_extreme_record_witness :
  (exists k t lat lon,
     nth_error [0; 10 * ns_per_second; 5 * ns_per_second]%Z k = Some t /\
     nth_error [num 10; num 20; num 15] k = Some lat /\
     nth_error [num 30; num 40; num 35] k = Some lon /\
     get_start_location LAT LONG DateTime TRAJECTORY_ID walk None
     = Return (LatLon lat lon) /\
     forall j t',
       nth_error [0; 10 * ns_per_second; 5 * ns_per_second]%Z j = Some t' ->
       (t <= t')%Z /\ ((j < k)%nat -> (t < t')%Z)).
Proof.
  refine (proj1 (location_without_id_is_first_extreme_record
                   LAT LONG DateTime TRAJECTORY_ID walk _
                   [num 10; num 20; num 15] [num 30; num 40; num 35]
                   [0; 10 * ns_per_second; 5 * ns_per_second]%Z
                   eq_refl eq_refl eq_refl eq_refl eq_refl eq_refl eq_refl
                   eq_refl _)).
  cbv. lia.
Defined.

(** X9.  With a trajectory id that occurs in the table, [get_start_location]
    returns the position of one record of that trajectory: the first
    one, in table order, whose time is the earliest of the trajectory;
    [get_end_location] returns that of the first record whose time is
    the latest of the trajectory.  Latitude and longitude come from
    the same record. *)
Theorem location_with_id_is_first_extreme_record_of_the_trajectory
  (LAT LONG DateTime TRAJECTORY_ID : string) (dataframe flat : DataFrame)
  (ids lats lons : Series) (ts : list Z) (id : string) :
  has_name "index" [LAT; LONG] = false ->
  reset_index dataframe = Return flat ->
  getitem flat TRAJECTORY_ID = Return ids ->
  getitem flat DateTime = Return (map VTimestamp ts) ->
  getitem flat LAT = Return lats ->
  getitem flat LONG = Return lons ->
  List.length ids = len dataframe ->
  List.length ts = len dataframe ->
  List.length lats = len dataframe ->
  List.length lons = len dataframe ->
  In (VStr id) ids ->
  (exists k t lat lon,
     nth_error ids k = Some (VStr id) /\ nth_error ts k = Some t /\
     nth_error lats k = Some lat /\ nth_error lons k = Some lon /\
     get_start_location LAT LONG DateTime TRAJECTORY_ID dataframe (Some id)
     = Return (LatLon lat lon) /\
     forall j t', nth_error ids j = Some (VStr id) -> nth_error ts j = Some t' ->
       (t <= t')%Z /\ ((j < k)%nat -> (t < t')%Z)) /\
  (exists k t lat lon,
     nth_error ids k = Some (VStr id) /\ nth_error ts k = Some t /\
     nth_error lats k = Some lat /\ nth_error lons k = Some lon /\
     get_end_location LAT LONG DateTime TRAJECTORY_ID dataframe (Some id)
     = Return (LatLon lat lon) /\
     forall j t', nth_error ids j = Some (VStr id) -> nth_error ts j = Some t' ->
       (t' <= t)%Z /\ ((j < k)%nat -> (t' < t)%Z)).
Proof.
  intros Hfree Hflat Hids Htimes Hlats Hlons Lids Lts Llats Llons Hid. split.
  - destruct (location_at_first_best LAT LONG DateTime TRAJECTORY_ID Hfree
                Series_min Z.le Series_min_nil Series_min_earliest
                dataframe flat lats lons ts Hflat Htimes Hlats Hlons
                Lts Llats Llons ids Hids Lids id Hid)
      as (k & t & lat & lon & H0 & H1 & H2 & H3 & H4 & H5).
    exists k, t, lat, lon. do 5 (split; [assumption|]).
    intros j t' Hi Hj. destruct (H5 j t' Hi Hj) as [Hle Hne].
    split; [exact Hle|]. intros Hlt. specialize (Hne Hlt). lia.
  - destruct (location_at_first_best LAT LONG DateTime TRAJECTORY_ID Hfree
                Series_max Z.ge Series_max_nil Series_max_latest
                dataframe flat lats lons ts Hflat Htimes Hlats Hlons
                Lts Llats Llons ids Hids Lids id Hid)
      as (k & t & lat & lon & H0 & H1 & H2 & H3 & H4 & H5).
    exists k, t, lat, lon. do 5 (split; [assumption|]).
    intros j t' Hi Hj. destruct (H5 j t' Hi Hj) as [Hle Hne].
    split; [lia|]. intros Hlt. specialize (Hne Hlt). lia.
Qed.

Lemma location_with_id_is_first_extreme_record_of_the_trajectory_witness :
  exists k t lat lon,
    nth_error [VStr "a"; VStr "a"; VStr "b"] k = Some (VStr "a") /\
    nth_error [0; 10 * ns_per_second; 5 * ns_per_second]%Z k = Some t /\
    nth_error [num 10; num 20; num 15] k = Some lat /\
    nth_error [num 30; num 40; num 35] k = Some lon /\
    get_end_location LAT LONG DateTime TRAJECTORY_ID walk (Some "a")
    = Return (LatLon lat lon) /\
    forall j t',
      nth_error [VStr "a"; VStr "a"; VStr "b"] j = Some (VStr "a") ->
      nth_error [0; 10 * ns_per_second; 5 * ns_per_second]%Z j = Some t' ->
      (t' <= t)%Z /\ ((j < k)%nat -> (t' < t)%Z).
Proof.
  refine (proj2 (location_with_id_is_first_extreme_record_of_the_trajectory
                   LAT LONG DateTime TRAJECTORY_ID walk _
                   [VStr "a"; VStr "a"; VStr "b"]
                   [num 10; num 20; num 15] [num 30; num 40; num 35]
                   [0; 10 * ns_per_second; 5 * ns_per_second]%Z "a"
                   eq_refl eq_refl eq_refl eq_refl eq_refl eq_refl eq_refl
                   eq_refl eq_refl eq_refl _)).
  left; reflexivity.
Defined.

(** X10.  On a table without rows, [get_start_location] and
    [get_end_location] called without a trajectory id raise a
    [KeyError] for the label 0: there is no first row to read. *)
Theorem location_without_id_on_empty_table_raises
  (LAT LONG DateTime TRAJECTORY_ID : string) (dataframe flat : DataFrame)
  (lats lons : Series) (ts : list Z) :
  has_name "index" [LAT; LONG] = false ->
  reset_index dataframe = Return flat ->
  getitem flat DateTime = Return (map VTimestamp ts) ->
  getitem flat LAT = Return lats ->
  getitem flat LONG = Return lons ->
  List.length ts = len dataframe ->
  List.length lats = len dataframe ->
  len dataframe = 0%nat ->
  get_start_location LAT LONG DateTime TRAJECTORY_ID dataframe None
  = Raise (KeyError "0") /\
  get_end_location LAT LONG DateTime TRAJECTORY_ID dataframe None
  = Raise (KeyError "0").
Proof.
  intros Hfree Hflat Htimes Hlats Hlons Lts Llats Hlen. split.
  - apply (location_at_all_empty LAT LONG DateTime TRAJECTORY_ID Hfree
             Series_min Z.le Series_min_nil Series_min_earliest
             dataframe flat lats lons ts Hflat Htimes Hlats Hlons Lts Llats Hlen).
  - apply (location_at_all_empty LAT LONG DateTime TRAJECTORY_ID Hfree
             Series_max Z.ge Series_max_nil Series_max_latest
             dataframe flat lats lons ts Hflat Htimes Hlats Hlons Lts Llats Hlen).
Qed.

Lemma location_without_id_on_empty_table_raises_witness :
  get_start_location LAT LONG DateTime TRAJECTORY_ID no_rows None
  = Raise (KeyError "0") /\
  get_end_location LAT LONG DateTime TRAJECTORY_ID no_rows None
  = Raise (KeyError "0").
Proof.
  exact (location_without_id_on_empty_table_raises
           LAT LONG DateTime TRAJECTORY_ID no_rows _ [] [] []
           eq_refl eq_refl eq_refl eq_refl eq_refl eq_refl eq_refl eq_refl).
Defined.

Lemma insert_levels_fresh (levels cols out : list (string * Series)) (c : string) :
  insert_levels levels cols = Return out ->
  has_name c (map fst cols) = true -> lookup c levels = None.
Proof.
  revert out. induction levels as [|[n s] rest IH]; intros out H Hc;
    [reflexivity|].
  cbn [insert_levels] in H.
  destruct (insert_levels rest cols) as [cols'|e] eqn:E; cbn [bind] in H;
    [|discriminate].
  destruct (has_name n (map fst cols')) eqn:Hn; [discriminate|].
  cbn [lookup]. destruct (String.eqb_spec c n) as [->|_]; [|apply (IH _ eq_refl Hc)].
  exfalso. rewrite (insert_levels_Return _ _ _ E), map_app, has_name_app, Hc,
    orb_true_r in Hn. discriminate.
Qed.

(** [reset_index] keeps the columns of the table readable under their
    names. *)
Lemma getitem_reset_index (df flat : DataFrame) (c : string) (s : Series) :
  reset_index df = Return flat ->
  getitem df c = Return s -> getitem flat c = Return s.
Proof.
  unfold reset_index. intros H Hc.
  destruct (insert_levels _ (columns df)) as [cols|e] eqn:E; cbn [bind] in H;
    [|discriminate].
  injection H as <-. unfold getitem in *. cbn [columns].
  rewrite (insert_levels_Return _ _ _ E), lookup_app.
  destruct (lookup c (columns df)) as [s'|] eqn:El; [|discriminate].
  rewrite (insert_levels_fresh _ _ _ c E (has_name_lookup _ _ _ El)).
  exact Hc.
Qed.

(** [min()] and [max()] of a float column skip the missing values. *)
Lemma extremes_skip_NaN (xs : list F64.t) :
  exists lo hi,
    Series_min (map VFloat xs) = Return (VFloat lo) /\
    Series_max (map VFloat xs) = Return (VFloat hi) /\
    (((forall x, In x xs -> F64.is_nan x = true) /\ lo = F64.nan /\ hi = F64.nan) \/
     (In lo xs /\ In hi xs /\ F64.is_nan lo = false /\ F64.is_nan hi = false /\
      forall x, In x xs -> F64.is_nan x = false ->
        F64.leb lo x = true /\ F64.leb x hi = true)).
Proof.
  unfold Series_min, Series_max, reduce_with. rewrite floats_of_floats.
  destruct (filter (fun x => negb (F64.is_nan x)) xs) as [|y rest] eqn:E.
  - exists F64.nan, F64.nan. split; [reflexivity|]. split; [reflexivity|].
    left. split; [|split; reflexivity].
    intros x Hx. destruct (F64.is_nan x) eqn:N; [reflexivity|].
    assert (H : In x (filter (fun x => negb (F64.is_nan x)) xs))
      by (apply filter_In; split; [exact Hx|rewrite N; reflexivity]).
    rewrite E in H. destruct H.
  - assert (V : forallb (fun x => negb (F64.is_nan x)) (y :: rest) = true).
    { apply forallb_forall. intros x Hx. rewrite <- E in Hx.
      apply filter_In in Hx. exact (proj2 Hx). }
    assert (S : forall x, In x (y :: rest) -> In x xs /\ F64.is_nan x = false).
    { intros x Hx. rewrite <- E in Hx. apply filter_In in Hx.
      destruct Hx as [Hx N]. split; [exact Hx|]. apply negb_true_iff, N. }
    do 2 eexists. split; [reflexivity|]. split; [reflexivity|]. right.
    split; [apply S, extremum_In|]. split; [apply S, extremum_In|].
    split; [apply S, extremum_In|]. split; [apply S, extremum_In|].
    intros x Hx N.
    assert (Hx' : In x (y :: rest)).
    { rewrite <- E. apply filter_In. split; [exact Hx|]. rewrite N. reflexivity. }
    split; [apply extremum_least|apply extremum_greatest]; assumption.
Qed.

(** X11.  The bounding box of a table with float coordinates is built from
    the coordinates that are present: each corner value is the least
    or greatest of the values that are not NaN, and NaN when the
    column holds nothing else. *)
Theorem bounding_box_skips_missing_values (LAT LONG : string)
  (dataframe : DataFrame) (lats lons : list F64.t) :
  getitem dataframe LAT = Return (map VFloat lats) ->
  getitem dataframe LONG = Return (map VFloat lons) ->
  exists min_lat min_lon max_lat max_lon,
    get_bounding_box LAT LONG dataframe
    = Return (VFloat min_lat, VFloat min_lon, VFloat max_lat, VFloat max_lon) /\
    (((forall x, In x lats -> F64.is_nan x = true) /\
      min_lat = F64.nan /\ max_lat = F64.nan) \/
     (In min_lat lats /\ In max_lat lats /\
      F64.is_nan min_lat = false /\ F64.is_nan max_lat = false /\
      forall x, In x lats -> F64.is_nan x = false ->
        F64.leb min_lat x = true /\ F64.leb x max_lat = true)) /\
    (((forall y, In y lons -> F64.is_nan y = true) /\
      min_lon = F64.nan /\ max_lon = F64.nan) \/
     (In min_lon lons /\ In max_lon lons /\
      F64.is_nan min_lon = false /\ F64.is_nan max_lon = false /\
      forall y, In y lons -> F64.is_nan y = false ->
        F64.leb min_lon y = true /\ F64.leb y max_lon = true)).
Proof.
  intros Hlat Hlon.
  destruct (extremes_skip_NaN lats) as (lo_a & hi_a & Ha1 & Ha2 & Ha).
  destruct (extremes_skip_NaN lons) as (lo_o & hi_o & Ho1 & Ho2 & Ho).
  exists lo_a, lo_o, hi_a, hi_o. split; [|split; assumption].
  unfold get_bounding_box. rewrite Hlat, Hlon. cbn [bind].
  rewrite Ha1, Ho1, Ha2, Ho2. reflexivity.
Qed.

Section LocationInsideBox.

Variables LAT LONG DateTime TRAJECTORY_ID : string.
Hypothesis index_is_free : has_name "index" [LAT; LONG] = false.

Variable extreme : Series -> result cell.
Hypothesis extreme_nil : extreme [] = Return NaN.
Hypothesis extreme_times : forall t0 rest,
  exists t, extreme (map VTimestamp (t0 :: rest)) = Return (VTimestamp t) /\
            In t (t0 :: rest).

Variables (dataframe flat : DataFrame) (ids lats lons : Series) (ts : list Z).
Hypothesis Hflat : reset_index dataframe = Return flat.
Hypothesis Hids : getitem flat TRAJECTORY_ID = Return ids.
Hypothesis Htimes : getitem flat DateTime = Return (map VTimestamp ts).
Hypothesis Hlats : getitem flat LAT = Return lats.
Hypothesis Hlons : getitem flat LONG = Return lons.

(** A position that the two functions return was read from the
    table. *)
Lemma location_at_In (traj_id : option string) (lat lon : cell) :
  location_at LAT LONG DateTime TRAJECTORY_ID extreme dataframe traj_id
  = Return (LatLon lat lon) ->
  In lat lats /\ In lon lons.
Proof.
  assert (G : forall (mask1 mask2 : list bool) (a o : Series),
    (lat0 <- at_label0 (select mask2 (select mask1 a)) ;;
     lon0 <- at_label0 (select mask2 (select mask1 o)) ;;
     Return (LatLon lat0 lon0)) = Return (LatLon lat lon) ->
    In lat a /\ In lon o).
  { intros mask1 mask2 a o H.
    destruct (select mask2 (select mask1 a)) as [|x xs] eqn:Ea; [discriminate|].
    destruct (select mask2 (select mask1 o)) as [|y ys] eqn:Eo; [discriminate|].
    cbn in H. injection H as <- <-. split.
    - apply (In_select mask1), (In_select mask2). rewrite Ea. left; reflexivity.
    - apply (In_select mask1), (In_select mask2). rewrite Eo. left; reflexivity. }
  destruct traj_id as [id|]; intros H.
  - destruct (location_at_selected LAT LONG DateTime TRAJECTORY_ID index_is_free
                extreme extreme_nil extreme_times dataframe flat ids lats lons ts
                Hflat Hids Htimes Hlats Hlons id) as (tc & _ & E).
    rewrite E in H.
    destruct (List.length _ =? 0)%nat; [discriminate|]. apply (G _ _ _ _ H).
  - assert (Ht : exists t, extreme (map VTimestamp ts) = Return t).
    { destruct ts as [|t0 rest].
      - exists NaN. exact extreme_nil.
      - destruct (extreme_times t0 rest) as (t & Ht & _). eexists; exact Ht. }
    destruct Ht as [t Ht].
    unfold location_at in H. rewrite Hflat in H. cbn [bind] in H.
    rewrite Htimes in H. cbn [bind] in H. rewrite Ht in H. cbn [bind] in H.
    set (mask := eq_scalar (map VTimestamp ts) t) in *.
    destruct (loc_mask_cols_spec flat mask [LAT; LONG])
      as (picked & Hpicked & Hpi & Hpn & Hpg).
    { cbn [forallb].
      rewrite (getitem_Return_has_name _ _ _ Hlats),
        (getitem_Return_has_name _ _ _ Hlons). reflexivity. }
    rewrite Hpicked in H. cbn [bind] in H.
    rewrite (flat_index _ _ Hflat) in Hpi. cbn [map fst snd] in Hpi.
    rewrite (reset_index_unnamed picked _ Hpi) in H
      by (rewrite Hpn; exact index_is_free).
    cbn [bind] in H. unfold first_lat_lon in H.
    rewrite (getitem_skip _ (index picked)) in H
      by exact (LAT_not_index _ _ index_is_free).
    rewrite (getitem_same_columns _ picked) in H by reflexivity.
    rewrite Hpg in H by (left; reflexivity). rewrite Hlats in H. cbn [bind] in H.
    destruct (at_label0 (select mask lats)) as [lat0|e] eqn:Ea; cbn [bind] in H;
      [|discriminate].
    rewrite (getitem_skip _ (index picked)) in H
      by exact (LONG_not_index _ _ index_is_free).
    rewrite (getitem_same_columns _ picked) in H by reflexivity.
    rewrite Hpg in H by (right; left; reflexivity). rewrite Hlons in H.
    cbn [bind] in H.
    destruct (select mask lats) as [|x xs] eqn:Sa; [discriminate|].
    destruct (select mask lons) as [|y ys] eqn:So; [discriminate|].
    cbn in Ea, H. injection Ea as <-. injection H as <- <-. split.
    + apply (In_select mask). rewrite Sa. left; reflexivity.
    + apply (In_select mask). rewrite So. left; reflexivity.
Qed.

End LocationInsideBox.

(** X12.  On a table whose coordinates are floats, none of them NaN, every
    position that [get_start_location] or [get_end_location] returns,
    with or without a trajectory id, lies inside the box that
    [get_bounding_box] returns for the same table. *)
Theorem locations_lie_inside_the_bounding_box
  (LAT LONG DateTime TRAJECTORY_ID : string) (dataframe flat : DataFrame)
  (ids : Series) (lats lons : list F64.t) (ts : list Z) :
  has_name "index" [LAT; LONG] = false ->
  reset_index dataframe = Return flat ->
  getitem flat TRAJECTORY_ID = Return ids ->
  getitem flat DateTime = Return (map VTimestamp ts) ->
  getitem dataframe LAT = Return (map VFloat lats) ->
  getitem dataframe LONG = Return (map VFloat lons) ->
  forallb (fun x => negb (F64.is_nan x)) lats = true ->
  forallb (fun x => negb (F64.is_nan x)) lons = true ->
  forall (traj_id : option string) (lat lon : cell),
    get_start_location LAT LONG DateTime TRAJECTORY_ID dataframe traj_id
    = Return (LatLon lat lon) \/
    get_end_location LAT LONG DateTime TRAJECTORY_ID dataframe traj_id
    = Return (LatLon lat lon) ->
    exists x y min_lat min_lon max_lat max_lon,
      lat = VFloat x /\ lon = VFloat y /\
      get_bounding_box LAT LONG dataframe
      = Return (VFloat min_lat, VFloat min_lon, VFloat max_lat, VFloat max_lon) /\
      F64.leb min_lat x = true /\ F64.leb x max_lat = true /\
      F64.leb min_lon y = true /\ F64.leb y max_lon = true.
Proof.
  intros Hfree Hflat Hids Htimes Hlat Hlon Va Vo traj_id lat lon H.
  pose proof (getitem_reset_index _ _ _ _ Hflat Hlat) as Fa.
  pose proof (getitem_reset_index _ _ _ _ Hflat Hlon) as Fo.
  assert (Hin : In lat (map VFloat lats) /\ In lon (map VFloat lons)).
  { destruct H as [H|H].
    - apply (location_at_In LAT LONG DateTime TRAJECTORY_ID Hfree Series_min
               Series_min_nil Series_min_times dataframe flat ids _ _ ts
               Hflat Hids Htimes Fa Fo traj_id lat lon H).
    - apply (location_at_In LAT LONG DateTime TRAJECTORY_ID Hfree Series_max
               Series_max_nil Series_max_times dataframe flat ids _ _ ts
               Hflat Hids Htimes Fa Fo traj_id lat lon H). }
  destruct Hin as [Ha Ho].
  apply in_map_iff in Ha. destruct Ha as (x & <- & Hx).
  apply in_map_iff in Ho. destruct Ho as (y & <- & Hy).
  destruct lats as [|a lats]; [destruct Hx|].
  destruct lons as [|o lons]; [destruct Hy|].
  exists x, y. do 4 eexists. split; [reflexivity|]. split; [reflexivity|].
  split.
  { unfold get_bounding_box, Series_min, Series_max.
    rewrite Hlat, Hlon. cbn [bind].
    rewrite !reduce_with_floats by assumption. reflexivity. }
  split; [apply extremum_least; assumption|].
  split; [apply extremum_greatest; assumption|].
  split; [apply extremum_least; assumption|].
  apply extremum_greatest; assumption.
Qed.

Lemma locations_lie_inside_the_bounding_box_witness :
  exists x y min_lat min_lon max_lat max_lon,
    LatLon (num 10) (num 30) = LatLon (VFloat x) (VFloat y) /\
    get_bounding_box LAT LONG walk
    = Return (VFloat min_lat, VFloat min_lon, VFloat max_lat, VFloat max_lon) /\
    F64.leb min_lat x = true /\ F64.leb x max_lat = true /\
    F64.leb min_lon y = true /\ F64.leb y max_lon = true.
Proof.
  destruct (locations_lie_inside_the_bounding_box
              LAT LONG DateTime TRAJECTORY_ID walk _
              [VStr "a"; VStr "a"; VStr "b"]
              [F64.of_Z 10; F64.of_Z 20; F64.of_Z 15]
              [F64.of_Z 30; F64.of_Z 40; F64.of_Z 35]
              [0; 10 * ns_per_second; 5 * ns_per_second]%Z
              eq_refl eq_refl eq_refl eq_refl eq_refl eq_refl eq_refl eq_refl
              (Some "a") (num 10) (num 30) (or_introl eq_refl))
    as (x & y & a & b & c & d & Hx & Hy & H).
  exists x, y, a, b, c, d. split; [congruence|exact H].
Defined.

Lemma kinematic_columns_closed_form_witness :
  exists out,
    create_jerk_from_prev_column LAT LONG DateTime TRAJECTORY_ID
      as_trajectory taxicab_helper trip = Return out /\
    getitem out "Speed_prev_to_curr"
    = Return [NaN; num 10; VFloat (F64.div (F64.of_Z 50) (F64.of_Z 0));
              VFloat (F64.div (F64.of_Z 30) (F64.of_Z 5))] /\
    len out = 4%nat.
Proof.
  destruct (kinematic_columns_closed_form LAT LONG DateTime TRAJECTORY_ID
              as_trajectory taxicab_helper trip _
              [F64.of_Z 0; F64.of_Z 100; F64.of_Z 50; F64.of_Z 30]
              [0; 10 * ns_per_second; 10 * ns_per_second;
               86415 * ns_per_second]%Z
              eq_refl eq_refl eq_refl eq_refl eq_refl eq_refl eq_refl)
    as (out & Hrun & Hspeed & _ & _ & Hlen).
  exists out. split; [exact Hrun|]. split; [|exact Hlen].
  rewrite Hspeed. vm_compute. reflexivity.
Defined.

Lemma kinematic_columns_start_with_NaN_witness :
  exists out speed acceleration jerk,
    create_jerk_from_prev_column LAT LONG DateTime TRAJECTORY_ID
      as_trajectory taxicab_helper trip = Return out /\
    getitem out "Speed_prev_to_curr" = Return (map VFloat speed) /\
    getitem out "Acceleration_prev_to_curr" = Return (map VFloat acceleration) /\
    getitem out "jerk_prev_to_curr" = Return (map VFloat jerk) /\
    nth 0 speed F64.nan = F64.nan /\
    (nth 0 acceleration F64.nan = F64.nan /\ nth 1 acceleration F64.nan = F64.nan) /\
    (nth 0 jerk F64.nan = F64.nan /\ nth 1 jerk F64.nan = F64.nan /\
     nth 2 jerk F64.nan = F64.nan).
Proof.
  exact (kinematic_columns_start_with_NaN LAT LONG DateTime TRAJECTORY_ID
           as_trajectory taxicab_helper trip _
           [F64.of_Z 0; F64.of_Z 100; F64.of_Z 50; F64.of_Z 30]
           [0; 10 * ns_per_second; 10 * ns_per_second;
            86415 * ns_per_second]%Z
           eq_refl eq_refl eq_refl eq_refl eq_refl eq_refl eq_refl).
Defined.

Lemma speed_not_finite_within_a_second_witness :
  exists out speed,
    create_speed_from_prev_column LAT LONG DateTime TRAJECTORY_ID
      as_trajectory taxicab_helper trip = Return out /\
    getitem out "Speed_prev_to_curr" = Return (map VFloat speed) /\
    F64.is_finite (nth 2 speed F64.nan) = false.
Proof.
  refine (speed_not_finite_within_a_second LAT LONG DateTime TRAJECTORY_ID
            as_trajectory taxicab_helper trip _
            [F64.of_Z 0; F64.of_Z 100; F64.of_Z 50; F64.of_Z 30]
            [0; 10 * ns_per_second; 10 * ns_per_second;
             86415 * ns_per_second]%Z 1%nat 0%Z
            eq_refl eq_refl eq_refl eq_refl eq_refl _ _).
  - cbv. lia.
  - cbv. split; [discriminate|reflexivity].
Defined.

Lemma kinematics_keep_the_rest_of_the_table_witness :
  create_speed_from_prev_column LAT LONG DateTime TRAJECTORY_ID
    as_trajectory taxicab_helper trip = speed_from DateTime trip /\
  forall out,
    create_speed_from_prev_column LAT LONG DateTime TRAJECTORY_ID
      as_trajectory taxicab_helper trip = Return out ->
    index out = index trip /\
    (forall c, String.eqb c "Speed_prev_to_curr" = false ->
       getitem out c = getitem trip c) /\
    exists speed, getitem out "Speed_prev_to_curr" = Return speed /\
                  List.length speed = len trip.
Proof.
  exact (proj1 (kinematics_keep_the_rest_of_the_table LAT LONG DateTime
                  TRAJECTORY_ID as_trajectory taxicab_helper trip eq_refl)
           eq_refl).
Defined.

Lemma bounding_box_skips_missing_values_witness :
  get_bounding_box LAT LONG patchy
  = Return (num 10, NaN, num 20, NaN).
Proof.
  destruct (bounding_box_skips_missing_values LAT LONG patchy
              [F64.nan; F64.of_Z 10; F64.of_Z 20] [F64.nan; F64.nan; F64.nan]
              eq_refl eq_refl) as (a & b & c & d & H & _).
  rewrite H. vm_compute in H. injection H as <- <- <- <-. reflexivity.
Defined.

Lemma union_names_fresh (names : list string) : forall seen,
  NoDup names ->
  (forall n, In n names -> has_name n seen = false) ->
  union_names seen names = names.
Proof.
  induction names as [|n names IH]; intros seen Hnd Hfresh; [reflexivity|].
  cbn [union_names]. rewrite (Hfresh n (or_introl eq_refl)).
  f_equal. apply IH.
  - inversion Hnd; assumption.
  - intros m Hm. pose proof (Hfresh m (or_intror Hm)) as Hf.
    unfold has_name in *. cbn [existsb]. rewrite Hf, orb_false_r.
    apply String.eqb_neq. intros ->. inversion Hnd; contradiction.
Qed.

Lemma lookup_NoDup (missing : Series) (cols : list (string * Series)) :
  forall before,
  NoDup (map fst (before ++ cols)) ->
  map (fun c => (c, match lookup c (before ++ cols) with
                    | Some s => s
                    | None => missing
                    end ++ [])) (map fst cols) = cols.
Proof.
  induction cols as [|[n s] cols IH]; intros before Hnd; [reflexivity|].
  cbn [map fst]. f_equal.
  - f_equal. rewrite lookup_app.
    assert (Hb : lookup n before = None).
    { apply lookup_lacks_name. apply not_true_is_false. intros H.
      apply existsb_exists in H. destruct H as (m & Hm & Heq).
      apply String.eqb_eq in Heq. subst m.
      rewrite map_app in Hnd. cbn [map fst] in Hnd.
      apply NoDup_remove_2 in Hnd. apply Hnd, in_or_app. left; exact Hm. }
    rewrite Hb. cbn [lookup]. rewrite String.eqb_refl. apply app_nil_r.
  - specialize (IH (before ++ [(n, s)])). rewrite <- app_assoc in IH.
    cbn [app] in IH. apply IH, Hnd.
Qed.

(** Concatenating a single table gives that table back. *)
Lemma pd_concat_single (df : DataFrame) :
  NoDup (column_names df) -> pd_concat [df] = Return df.
Proof.
  intros Hnd. destruct df as [idx cols]. unfold pd_concat, column_names in *.
  cbn [index columns] in *. f_equal. f_equal.
  - assert (G : forall (prefix levels : list (option string * Series)),
              idx = prefix ++ levels ->
              map (fun p => concat_level [mkFrame idx cols] (fst p) (snd p))
                  (combine (seq (List.length prefix) (List.length levels)) levels)
              = levels).
    { intros prefix levels. revert prefix.
      induction levels as [|lv levels IH]; intros prefix E; [reflexivity|].
      cbn [List.length seq combine map fst snd]. f_equal.
      - unfold concat_level. cbn [forallb map index List.concat].
        rewrite E, app_nth2 by lia. rewrite Nat.sub_diag. cbn [nth].
        destruct lv as [[n|] s]; cbn [fst snd option_string_eqb];
          rewrite ?String.eqb_refl, app_nil_r; reflexivity.
      - specialize (IH (prefix ++ [lv])). rewrite length_app in IH.
        cbn [List.length] in IH. rewrite Nat.add_1_r in IH. apply IH.
        rewrite <- app_assoc. exact E. }
    apply (G [] idx eq_refl).
  - cbn [map List.concat column_names columns]. rewrite app_nil_r.
    rewrite (union_names_fresh _ [] Hnd) by reflexivity.
    unfold column_or_nan. cbn [columns List.concat map].
    apply (lookup_NoDup _ cols [] Hnd).
Qed.

Section SmallTables.

Variables LAT LONG DateTime TRAJECTORY_ID : string.
Variable NumPandasTraj :
  DataFrame -> string -> string -> string -> string -> result DataFrame.
Variable _consecutive_distance_helper : DataFrame -> result DataFrame.
Variable _start_distance_helper : DataFrame -> result DataFrame.
Variable _point_within_range_helper :
  DataFrame -> cell * cell -> cell -> result DataFrame.
Variable _given_point_distance_helper :
  DataFrame -> cell * cell -> result DataFrame.

Lemma one_chunk_one_worker (dataframe flat : DataFrame)
  (worker : DataFrame -> result DataFrame) :
  row_chunks dataframe = Return [flat] ->
  (chunks <- row_chunks dataframe ;;
   pool <- Pool (List.length chunks) ;;
   result <- pool_map pool worker chunks ;;
   result <- pd_concat result ;;
   NumPandasTraj result LAT LONG DateTime TRAJECTORY_ID)
  = (result <- worker flat ;;
     whole <- pd_concat [result] ;;
     NumPandasTraj whole LAT LONG DateTime TRAJECTORY_ID).
Proof.
  intros ->. cbn [bind List.length Pool Nat.ltb Nat.leb]. unfold pool_map.
  cbn [mapM]. destruct (worker flat); reflexivity.
Qed.

(** X2.  A table of 1 to 75,001 records is handed to one worker in one
    piece: each of the four chunked functions is the helper applied to
    the whole flattened table, then the constructor; an exception of
    the helper is the exception of the function.  Concatenating the
    single result changes nothing when its column names are
    distinct. *)
Theorem small_table_goes_to_one_worker (dataframe flat : DataFrame)
  (coordinates : cell * cell) (dist_range : cell) :
  aligned dataframe ->
  reset_index dataframe = Return flat ->
  (0 < len dataframe)%nat ->
  (Z.of_nat (len dataframe) <= 75001)%Z ->
  row_chunks dataframe = Return [flat] /\
  create_distance_between_consecutive_column LAT LONG DateTime TRAJECTORY_ID
    NumPandasTraj _consecutive_distance_helper dataframe
  = (result <- _consecutive_distance_helper flat ;;
     whole <- pd_concat [result] ;;
     NumPandasTraj whole LAT LONG DateTime TRAJECTORY_ID) /\
  create_distance_from_start_column LAT LONG DateTime TRAJECTORY_ID
    NumPandasTraj _start_distance_helper dataframe
  = (result <- _start_distance_helper flat ;;
     whole <- pd_concat [result] ;;
     NumPandasTraj whole LAT LONG DateTime TRAJECTORY_ID) /\
  create_point_within_range_column LAT LONG DateTime TRAJECTORY_ID
    NumPandasTraj _point_within_range_helper dataframe coordinates dist_range
  = (result <- _point_within_range_helper flat coordinates dist_range ;;
     whole <- pd_concat [result] ;;
     NumPandasTraj whole LAT LONG DateTime TRAJECTORY_ID) /\
  create_distance_from_given_point_column LAT LONG DateTime TRAJECTORY_ID
    NumPandasTraj _given_point_distance_helper dataframe coordinates
  = (result <- _given_point_distance_helper flat coordinates ;;
     whole <- pd_concat [result] ;;
     NumPandasTraj whole LAT LONG DateTime TRAJECTORY_ID) /\
  forall result, NoDup (column_names result) ->
    pd_concat [result] = Return result.
Proof.
  intros Ha Hflat Hpos Hn.
  pose proof (row_chunks_small _ _ Ha Hflat Hpos Hn) as Hc.
  split; [exact Hc|].
  split; [apply (one_chunk_one_worker _ _ _ Hc)|].
  split; [apply (one_chunk_one_worker _ _ _ Hc)|].
  split; [apply (one_chunk_one_worker _ _
                   (fun chunk => _point_within_range_helper chunk coordinates
                                   dist_range) Hc)|].
  split; [apply (one_chunk_one_worker _ _
                   (fun chunk => _given_point_distance_helper chunk coordinates)
                   Hc)|].
  intros result. apply pd_concat_single.
Qed.

End SmallTables.

Lemma small_table_goes_to_one_worker_witness :
  exists flat,
    reset_index walk = Return flat /\
    create_distance_between_consecutive_column LAT LONG DateTime TRAJECTORY_ID
      as_trajectory taxicab_helper walk
    = (result <- taxicab_helper flat ;;
       whole <- pd_concat [result] ;;
       as_trajectory whole LAT LONG DateTime TRAJECTORY_ID).
Proof.
  eexists. split; [reflexivity|].
  refine (proj1 (proj2 (small_table_goes_to_one_worker LAT LONG DateTime
                          TRAJECTORY_ID as_trajectory taxicab_helper
                          taxicab_helper (fun chunk _ _ => taxicab_helper chunk)
                          (fun chunk _ => taxicab_helper chunk) walk _
                          (num 0, num 0) (num 5) aligned_walk eq_refl _ _)));
    cbn; lia.
Defined.

End SpatialFeaturesMore.

(* ================================================================= *)
(** * More of [Statistics] *)
(* ================================================================= *)

Module StatisticsMore.

Import Statistics StatisticsProofs Examples Journeys SpatialFeaturesMore.
Import StatisticsRest.

(** *** The pool size *)

Lemma NUM_CPU_up_to_4096 :
  forallb (fun k => match NUM_CPU (Some (Z.of_nat k)) with
                    | Return n => (n =? (2 * Z.of_nat k + 2) / 3)%Z
                    | Raise _ => false
                    end) (seq 1 4096) = true.
Proof. vm_compute. reflexivity. Qed.

(** X13.  For every processor count from 1 to 4096, [NUM_CPU] is two thirds
    of the count rounded up: the float division and [ceil] lose
    nothing.  It is at least 1 and at most the count, so the pool the
    module's functions open with it is never refused. *)
Theorem NUM_CPU_is_two_thirds_rounded_up (num : Z) :
  (1 <= num <= 4096)%Z ->
  NUM_CPU (Some num) = Return ((2 * num + 2) / 3)%Z /\
  (3 * ((2 * num + 2) / 3) - 2 <= 2 * num <= 3 * ((2 * num + 2) / 3))%Z /\
  (1 <= (2 * num + 2) / 3 <= num)%Z /\
  Pool (Z.to_nat ((2 * num + 2) / 3)) = Return tt.
Proof.
  intros Hnum.
  pose proof (Z.div_mod (2 * num + 2) 3 ltac:(lia)) as Hdiv.
  pose proof (Z.mod_pos_bound (2 * num + 2) 3 ltac:(lia)) as Hmod.
  split; [|split; [lia|split; [lia|]]].
  - pose proof NUM_CPU_up_to_4096 as H. rewrite forallb_forall in H.
    specialize (H (Z.to_nat num)). rewrite Z2Nat.id in H by lia.
    destruct (NUM_CPU (Some num)) as [n|e].
    + f_equal. apply Z.eqb_eq, H. apply in_seq. lia.
    + discriminate H. apply in_seq. lia.
  - unfold Pool. destruct (Nat.ltb_spec (Z.to_nat ((2 * num + 2) / 3)) 1);
      [lia|reflexivity].
Qed.

Lemma NUM_CPU_is_two_thirds_rounded_up_witness :
  NUM_CPU (Some 8%Z) = Return 6%Z.
Proof.
  exact (proj1 (NUM_CPU_is_two_thirds_rounded_up 8
                  (conj (proj1 (Z.leb_le 1 8) eq_refl)
                        (proj1 (Z.leb_le 8 4096) eq_refl)))).
Defined.

(** *** [pivot_stats_df]: the trajectory loop *)

Lemma unique_head (x : cell) (s : Series) :
  unique (x :: s) = x :: unique_from [x] s.
Proof. reflexivity. Qed.

(** A named index level is a column of the flattened table. *)
Lemma insert_levels_named (name : string) (s : Series) :
  forall (lv : list (option string * Series)) (start : nat)
         (cols out : list (string * Series)),
  insert_levels
    (combine (map (fun p : nat * (option string * Series) =>
                     match snd p with
                     | (Some n, _) => n
                     | (None, _) => String.append "level_" (string_of_nat (fst p))
                     end)
                  (combine (seq start (List.length lv)) lv))
             (map snd lv)) cols = Return out ->
  find_level name lv = Some s -> lookup name out = Some s.
Proof.
  induction lv as [|[[n|] s0] rest IH]; intros start cols out H Hf;
    [discriminate| |];
    cbn [List.length seq combine map fst snd insert_levels] in H;
    apply bind_Return_inv in H; destruct H as (cols' & Hrest & H);
    destruct (has_name _ (map fst cols')) eqn:Hn; try discriminate;
    injection H as <-; cbn [find_level] in Hf; cbn [lookup].
  - destruct (String.eqb name n); [exact Hf|]. apply (IH _ _ _ Hrest Hf).
  - pose proof (IH _ _ _ Hrest Hf) as Hl.
    destruct (String.eqb name _) eqn:E; [|exact Hl].
    apply String.eqb_eq in E.
    assert (Hn' : has_name name (map fst cols') = false)
      by (rewrite E; exact Hn).
    rewrite (has_name_lookup _ _ _ Hl) in Hn'. discriminate.
Qed.

Lemma getitem_level (df flat : DataFrame) (name : string) (s : Series) :
  reset_index df = Return flat ->
  find_level name (index df) = Some s ->
  getitem flat name = Return s.
Proof.
  unfold reset_index, level_names. intros H Hf.
  apply bind_Return_inv in H. destruct H as (cols & Hcols & H).
  injection H as <-. unfold getitem. cbn [columns].
  assert (G : lookup name cols = Some s); [|rewrite G; reflexivity].
  destruct (index df) as [|[[n|] s0] [|lv rest]] eqn:E;
    try discriminate Hf;
    try apply (insert_levels_named name s _ 0%nat _ _ Hcols Hf).
Qed.

Lemma numbered_names_select (mask : list bool)
  (lv : list (option string * Series)) : forall start,
  map (fun p : nat * (option string * Series) =>
         match snd p with
         | (Some n, _) => n
         | (None, _) => String.append "level_" (string_of_nat (fst p))
         end)
      (combine (seq start (List.length (map (fun l => (fst l, select mask (snd l))) lv)))
               (map (fun l => (fst l, select mask (snd l))) lv))
  = map (fun p : nat * (option string * Series) =>
           match snd p with
           | (Some n, _) => n
           | (None, _) => String.append "level_" (string_of_nat (fst p))
           end)
        (combine (seq start (List.length lv)) lv).
Proof.
  induction lv as [|[[n|] s0] rest IH]; intros start; [reflexivity| |];
    cbn [List.length map seq combine fst snd]; f_equal; apply IH.
Qed.

Lemma level_names_select_rows (mask : list bool) (df : DataFrame) :
  level_names (select_rows mask df) = level_names df.
Proof.
  unfold level_names. rewrite column_names_select_rows.
  unfold select_rows. cbn [index].
  destruct (index df) as [|[[n|] s0] [|lv rest]]; try reflexivity.
  - exact (numbered_names_select mask ((Some n, s0) :: lv :: rest) 0).
  - exact (numbered_names_select mask ((None, s0) :: lv :: rest) 0).
Qed.

Lemma insert_levels_map (f : Series -> Series) :
  forall (lv cols out : list (string * Series)),
  insert_levels lv cols = Return out ->
  insert_levels (map (fun c => (fst c, f (snd c))) lv)
                (map (fun c => (fst c, f (snd c))) cols)
  = Return (map (fun c => (fst c, f (snd c))) out).
Proof.
  induction lv as [|[n s] rest IH]; intros cols out H.
  - injection H as <-. reflexivity.
  - cbn [insert_levels] in H. apply bind_Return_inv in H.
    destruct H as (cols' & Hrest & H).
    destruct (has_name n (map fst cols')) eqn:Hn; [discriminate|].
    injection H as <-. cbn [map insert_levels fst snd].
    rewrite (IH _ _ Hrest). cbn [bind].
    assert (Hm : map fst (map (fun c : string * Series => (fst c, f (snd c))) cols')
                 = map fst cols')
      by (rewrite map_map; apply map_ext; reflexivity).
    rewrite Hm, Hn. reflexivity.
Qed.

Lemma combine_map_r {A B C : Type} (f : B -> C) (xs : list A) (ys : list B) :
  combine xs (map f ys) = map (fun p => (fst p, f (snd p))) (combine xs ys).
Proof.
  revert ys. induction xs as [|x xs IH]; intros [|y ys]; try reflexivity.
  cbn. rewrite IH. reflexivity.
Qed.

Lemma combine_select (mask : list bool) (idx : list (option string * Series)) :
  forall names : list string,
  combine names
    (map snd (map (fun lv : option string * Series =>
                     (fst lv, select mask (snd lv))) idx))
  = map (fun c : string * Series => (fst c, select mask (snd c)))
        (combine names (map snd idx)).
Proof.
  induction idx as [|lv idx IH]; intros [|n names]; try reflexivity.
  cbn [map combine fst snd]. f_equal. apply IH.
Qed.

(** Selecting rows and flattening the index commute. *)
Lemma reset_index_select_rows (mask : list bool) (df flat : DataFrame) :
  reset_index df = Return flat ->
  reset_index (select_rows mask df)
  = Return (mkFrame (RangeIndex (len (select_rows mask df)))
              (map (fun c => (fst c, select mask (snd c))) (columns flat))).
Proof.
  unfold reset_index. rewrite level_names_select_rows. intros H.
  apply bind_Return_inv in H. destruct H as (cols & Hcols & H).
  injection H as <-.
  assert (G : insert_levels
                (combine (level_names df) (map snd (index (select_rows mask df))))
                (columns (select_rows mask df))
              = Return (map (fun c => (fst c, select mask (snd c))) cols)).
  { refine (eq_trans
              (f_equal (fun l => insert_levels l _)
                 (combine_select mask (index df) (level_names df))) _).
    exact (insert_levels_map (select mask) _ _ _ Hcols). }
  rewrite G. reflexivity.
Qed.

Lemma lookup_filter_other (c n : string) (cols : list (string * Series)) :
  String.eqb c n = false ->
  lookup c (filter (fun col => negb (String.eqb n (fst col))) cols)
  = lookup c cols.
Proof.
  intros H. induction cols as [|[m s] cols IH]; [reflexivity|].
  cbn [filter fst lookup]. destruct (String.eqb_spec n m) as [<-|Hn];
    cbn [negb].
  - rewrite H. exact IH.
  - cbn [lookup]. rewrite IH. reflexivity.
Qed.

Lemma has_name_filter (c n : string) (cols : list (string * Series)) :
  has_name c (map fst cols) = false ->
  has_name c (map fst (filter (fun col => negb (String.eqb n (fst col))) cols))
  = false.
Proof.
  induction cols as [|[m s] cols IH]; [reflexivity|].
  cbn [map fst has_name existsb filter]. intros H.
  apply orb_false_elim in H. destruct H as [H1 H2].
  destruct (negb (String.eqb n m)); [|exact (IH H2)].
  cbn [map fst has_name existsb]. rewrite H1. exact (IH H2).
Qed.

Section Pivot.

Variable pivot_table :
  DataFrame -> string -> string -> result (Frame (list string)).

Variables (dataframe flat : DataFrame) (names : list string) (targets : Series).
Variable target_col_name : string.
Hypothesis Hflat : reset_index dataframe = Return flat.
Hypothesis Hids : find_level "traj_id" (index dataframe) = Some (map VStr names).
Hypothesis Htarget : getitem flat target_col_name = Return targets.
Hypothesis Htarget_name : String.eqb target_col_name "traj_id" = false.

(** The table [small] of the loop body for the trajectory [id], up to
    the reading of the target. *)
Lemma pivot_one_small (id : string) :
  let mask := eq_scalar (map VStr names) (VStr id) in
  pivot_one pivot_table dataframe target_col_name (VStr id)
  = (let small :=
       mkFrame [(Some "traj_id", select mask (map VStr names))]
         (filter (fun col => negb (String.eqb "traj_id" (fst col)))
            (map (fun c => (fst c, select mask (snd c))) (columns flat))) in
     target <- iloc0 (select mask targets) ;;
     small <- drop_column small "Species" ;;
     flat <- reset_index small ;;
     pivoted <- pivot_table flat "traj_id" "Columns" ;;
     setitem_scalar (flatten_columns pivoted) target_col_name target).
Proof.
  intros mask. unfold pivot_one, get_level_values. rewrite Hids. cbn [bind].
  fold mask. rewrite (reset_index_select_rows mask _ _ Hflat). cbn [bind].
  unfold set_index. unfold getitem at 1. cbn [columns].
  pose proof (getitem_level _ _ _ _ Hflat Hids) as Hl. unfold getitem in Hl.
  destruct (lookup "traj_id" (columns flat)) as [s|] eqn:E; [|discriminate].
  injection Hl as ->.
  rewrite lookup_map_series, E. cbn [option_map bind].
  unfold getitem at 1. cbn [columns].
  rewrite (lookup_filter_other _ _ _ Htarget_name), lookup_map_series.
  unfold getitem in Htarget.
  destruct (lookup target_col_name (columns flat)) as [s|] eqn:Et;
    [|discriminate].
  injection Htarget as ->. reflexivity.
Qed.

End Pivot.

Lemma mask_of_names (names : list string) (id : string) :
  eq_scalar (map VStr names) (VStr id) = map (fun n => String.eqb n id) names.
Proof. unfold eq_scalar. rewrite map_map. reflexivity. Qed.

Lemma names_of_select (f : Series -> Series) (cols : list (string * Series)) :
  map fst (map (fun c : string * Series => (fst c, f (snd c))) cols)
  = map fst cols.
Proof. rewrite map_map. apply map_ext. reflexivity. Qed.

Section PivotLoop.

Variable pivot_table :
  DataFrame -> string -> string -> result (Frame (list string)).

(** X14.  A table of statistics that has no column called Species cannot be
    pivoted, whatever the target column is called: the first
    trajectory already fails on the [drop], and the shared column list
    stays as it was. *)
Theorem pivot_stats_df_needs_a_Species_column (dataframe flat : DataFrame)
  (names : list string) (targets : Series) (target_col_name : string)
  (ORDERED_COLS : list string) :
  reset_index dataframe = Return flat ->
  find_level "traj_id" (index dataframe) = Some (map VStr names) ->
  getitem flat target_col_name = Return targets ->
  List.length targets = List.length names ->
  names <> [] ->
  String.eqb target_col_name "traj_id" = false ->
  has_name "Species" (column_names flat) = false ->
  pivot_stats_df pivot_table dataframe target_col_name ORDERED_COLS
  = (Raise (KeyError "Species"), ORDERED_COLS).
Proof.
  intros Hflat Hids Htarget Hlen Hne Hname Hspecies.
  destruct names as [|id rest]; [contradiction|].
  destruct targets as [|t0 trest]; [discriminate|].
  assert (Hone : pivot_one pivot_table dataframe target_col_name (VStr id)
                 = Raise (KeyError "Species")).
  { rewrite (pivot_one_small pivot_table _ _ _ _ _ Hflat Hids Htarget Hname).
    cbv zeta. rewrite mask_of_names. cbn [map]. rewrite String.eqb_refl.
    rewrite select_cons. cbn [iloc0 bind]. unfold drop_column, column_names.
    cbn [columns].
    rewrite has_name_filter; [reflexivity|].
    rewrite names_of_select. exact Hspecies. }
  unfold pivot_stats_df, pivot_chunks, get_level_values. rewrite Hids.
  cbn [bind map]. rewrite unique_head. cbn [mapM]. rewrite Hone. reflexivity.
Qed.

(** X15.  The target value the loop body writes into the pivoted chunk of a
    trajectory is the one in the first record of that trajectory; the
    values in its other records are not looked at. *)
Theorem pivot_takes_the_target_of_the_first_record (dataframe flat out : DataFrame)
  (names : list string) (targets : Series) (target_col_name id : string) :
  reset_index dataframe = Return flat ->
  find_level "traj_id" (index dataframe) = Some (map VStr names) ->
  getitem flat target_col_name = Return targets ->
  List.length targets = List.length names ->
  String.eqb target_col_name "traj_id" = false ->
  pivot_one pivot_table dataframe target_col_name (VStr id) = Return out ->
  exists k target,
    nth_error names k = Some id /\
    (forall j, (j < k)%nat -> nth_error names j <> Some id) /\
    nth_error targets k = Some target /\
    getitem out target_col_name = Return (repeat target (len out)).
Proof.
  intros Hflat Hids Htarget Hlen Hname Hout.
  rewrite (pivot_one_small pivot_table _ _ _ _ _ Hflat Hids Htarget Hname) in Hout.
  cbv zeta in Hout. rewrite mask_of_names in Hout.
  apply bind_Return_inv in Hout. destruct Hout as (target & Ht & Hout).
  apply bind_Return_inv in Hout. destruct Hout as (small & _ & Hout).
  apply bind_Return_inv in Hout. destruct Hout as (flat' & _ & Hout).
  apply bind_Return_inv in Hout. destruct Hout as (pivoted & _ & Hout).
  unfold setitem_scalar in Hout.
  assert (Hrows : exists rows : list (string * cell),
             names = map fst rows /\ targets = map snd rows).
  { exists (combine names targets). split.
    - clear - Hlen. revert targets Hlen.
      induction names as [|n names IH]; intros [|t ts] H; try discriminate;
        [reflexivity|]. cbn. f_equal. apply IH. cbn in H. lia.
    - symmetry. apply map_snd_combine. symmetry. exact Hlen. }
  destruct Hrows as (rows & En & Et).
  rewrite En, Et, map_map in Ht.
  rewrite (select_by (fun r : string * cell => String.eqb (fst r) id) snd rows) in Ht.
  destruct (filter _ rows) as [|r rest] eqn:E; [discriminate|].
  cbn in Ht. injection Ht as <-.
  destruct (filter_first _ _ _ _ E) as (k & Hk & Hp & Hfirst).
  exists k, (snd r). split; [|split; [|split]].
  - rewrite En, nth_error_map, Hk. cbn. f_equal. apply String.eqb_eq, Hp.
  - intros j Hj Hn. rewrite En, nth_error_map in Hn.
    destruct (nth_error rows j) as [r'|] eqn:Er; [|discriminate].
    cbn in Hn. injection Hn as Hn. specialize (Hfirst j r' Hj Er).
    cbn beta in Hfirst. rewrite Hn, String.eqb_refl in Hfirst. discriminate.
  - rewrite Et, nth_error_map, Hk. reflexivity.
  - rewrite (len_setitem _ _ _ _ Hout). apply (getitem_setitem _ _ _ _ Hout).
Qed.



(** X17.  Without a trajectory there is nothing to pivot: on a table whose
    index has no level called traj_id the call raises [KeyError], on a
    table without rows it raises [ValueError] from [pd.concat]; the
    shared column list stays as it was. *)
Theorem pivot_stats_df_without_trajectories (dataframe : DataFrame)
  (target_col_name : string) (ORDERED_COLS : list string) :
  (find_level "traj_id" (index dataframe) = None ->
   exists key,
     pivot_stats_df pivot_table dataframe target_col_name ORDERED_COLS
     = (Raise (KeyError key), ORDERED_COLS)) /\
  (find_level "traj_id" (index dataframe) = Some [] ->
   pivot_stats_df pivot_table dataframe target_col_name ORDERED_COLS
   = (Raise (ValueError "No objects to concatenate"), ORDERED_COLS)).
Proof.
  unfold pivot_stats_df, pivot_chunks, get_level_values.
  split; intros ->; [eexists|]; reflexivity.
Qed.

End PivotLoop.

Lemma pivot_stats_df_needs_a_Species_column_witness :
  pivot_stats_df first_row_pivot (stats "label") "label" Examples.ORDERED_COLS
  = (Raise (KeyError "Species"), Examples.ORDERED_COLS).
Proof.
  refine (pivot_stats_df_needs_a_Species_column first_row_pivot (stats "label") _
            ["a"; "a"; "b"; "b"] _ "label" Examples.ORDERED_COLS
            eq_refl eq_refl eq_refl eq_refl _ eq_refl eq_refl).
  discriminate.
Defined.

Lemma pivot_takes_the_target_of_the_first_record_witness :
  exists out k target,
    pivot_one first_row_pivot relabelled "Species" (VStr "a") = Return out /\
    nth_error ["a"; "a"; "b"; "b"] k = Some "a" /\
    (forall j, (j < k)%nat -> nth_error ["a"; "a"; "b"; "b"] j <> Some "a") /\
    nth_error [VStr "deer"; VStr "elk"; VStr "elk"; VStr "elk"] k = Some target /\
    getitem out "Species" = Return (repeat target (len out)).
Proof.
  eexists.
  destruct (pivot_takes_the_target_of_the_first_record first_row_pivot
              relabelled _ _ ["a"; "a"; "b"; "b"] _ "Species" "a"
              eq_refl eq_refl eq_refl eq_refl eq_refl eq_refl)
    as (k & target & H).
  exists k, target. split; [reflexivity|exact H].
Defined.


(** *** [segment_traj_by_week] *)

Lemma has_name_dropped (p : string -> bool) (c : string)
  (cols : list (string * Series)) :
  p c = true ->
  has_name c (map fst (filter (fun col => negb (p (fst col))) cols)) = false.
Proof.
  intros Hp. unfold has_name.
  induction cols as [|[n s] cols IH]; [reflexivity|].
  cbn [filter fst]. destruct (p n) eqn:E; cbn [negb]; [exact IH|].
  cbn [map fst existsb]. rewrite IH, orb_false_r.
  apply String.eqb_neq. intros ->. congruence.
Qed.

Lemma lookup_kept (p : string -> bool) (c : string)
  (cols : list (string * Series)) :
  p c = false ->
  lookup c (filter (fun col => negb (p (fst col))) cols) = lookup c cols.
Proof.
  intros Hp. induction cols as [|[n s] cols IH]; [reflexivity|].
  cbn [filter fst lookup]. destruct (p n) eqn:E; cbn [negb lookup].
  - destruct (String.eqb_spec c n) as [->|_]; [congruence|exact IH].
  - rewrite IH. reflexivity.
Qed.

Lemma columns_mkFrame {L : Type} (idx : list (option string * Series))
  (cols : list (L * Series)) :
  columns (mkFrame idx cols) = cols.
Proof. reflexivity. Qed.

Lemma set_index_list_three (df out : DataFrame) (a b c : string) :
  set_index_list df [a; b; c] = Return out ->
  exists sa sb sc,
    getitem df a = Return sa /\ getitem df b = Return sb /\
    getitem df c = Return sc /\
    index out = [(Some a, sa); (Some b, sb); (Some c, sc)] /\
    columns out
    = filter (fun col => negb (has_name (fst col) [a; b; c])) (columns df).
Proof.
  unfold set_index_list.
  destruct (filter _ [a; b; c]); [|discriminate].
  cbn [mapM]. intros H.
  destruct (getitem df a) as [sa|]; [|discriminate].
  destruct (getitem df b) as [sb|]; [|discriminate].
  destruct (getitem df c) as [sc|]; [|discriminate].
  cbn [bind] in H. injection H as <-.
  exists sa, sb, sc. repeat split.
Qed.

Section Segments.

Variable _df_split_helper : DataFrame -> result (list DataFrame).
Variable split_traj_helper : DataFrame -> result DataFrame.
Variable num_cpu : Z.

(** X18.  What [segment_traj_by_week] returns, when it returns: a table
    whose index has the three levels traj_id, seg_id and DateTime, in
    this order, filled from the columns of these names of the
    concatenated worker results; these three and the column called
    index are no longer columns, every other column is as the workers
    left it.  The pool size was at least 1, and flattening the
    concatenated results did produce a column called index. *)
Theorem segment_traj_by_week_result_layout (df out : DataFrame) :
  segment_traj_by_week _df_split_helper split_traj_helper num_cpu df
  = Return out ->
  (1 <= num_cpu)%Z /\
  exists flat chunks results whole whole_flat ids segs times,
    reset_index df = Return flat /\
    _df_split_helper flat = Return chunks /\
    mapM split_traj_helper chunks = Return results /\
    pd_concat results = Return whole /\
    reset_index whole = Return whole_flat /\
    getitem whole_flat "traj_id" = Return ids /\
    getitem whole_flat "seg_id" = Return segs /\
    getitem whole_flat "DateTime" = Return times /\
    has_name "index" (column_names whole_flat) = true /\
    index out = [(Some "traj_id", ids); (Some "seg_id", segs);
                 (Some "DateTime", times)] /\
    (forall c, In c ["index"; "traj_id"; "seg_id"; "DateTime"] ->
       has_name c (column_names out) = false) /\
    (forall c, ~ In c ["index"; "traj_id"; "seg_id"; "DateTime"] ->
       getitem out c = getitem whole_flat c).
Proof.
  unfold segment_traj_by_week. intros H.
  apply bind_Return_inv in H. destruct H as (flat & Hflat & H).
  apply bind_Return_inv in H. destruct H as (chunks & Hchunks & H).
  apply bind_Return_inv in H. destruct H as ([] & Hpool & H).
  apply bind_Return_inv in H. destruct H as (results & Hresults & H).
  apply bind_Return_inv in H. destruct H as (whole & Hwhole & H).
  apply bind_Return_inv in H. destruct H as (whole_flat & Hwf & H).
  apply bind_Return_inv in H. destruct H as (indexed & Hset & H).
  destruct (set_index_list_three _ _ _ _ _ Hset)
    as (ids & segs & times & Hi & Hs & Ht & Hidx & Hcols).
  unfold drop_column in H.
  destruct (has_name "index" (column_names indexed)) eqn:Hindex; [|discriminate].
  injection H as <-. split.
  { unfold Pool in Hpool.
    destruct (Nat.ltb_spec (Z.to_nat num_cpu) 1); [discriminate|lia]. }
  exists flat, chunks, results, whole, whole_flat, ids, segs, times.
  do 8 (split; [assumption|]). split; [|split; [exact Hidx|split]].
  - unfold column_names in *. rewrite Hcols in Hindex.
    destruct (has_name "index" (map fst (columns whole_flat))) eqn:E;
      [reflexivity|].
    rewrite <- Hindex. symmetry. clear - E.
    induction (columns whole_flat) as [|[n s] cols IH]; [reflexivity|].
    cbn [map fst has_name existsb] in E. apply orb_false_elim in E.
    destruct E as [E1 E2]. cbn [filter fst].
    destruct (negb (has_name n _)); [|exact (IH E2)].
    cbn [map fst has_name existsb]. rewrite E1. exact (IH E2).
  - intros c Hc. unfold column_names. rewrite columns_mkFrame, Hcols.
    destruct Hc as [<-|Hc].
    + apply (has_name_dropped (String.eqb "index")). reflexivity.
    + apply (has_name_filter c "index").
      apply (has_name_dropped (fun n => has_name n ["traj_id"; "seg_id"; "DateTime"])).
      destruct Hc as [<-|[<-|[<-|[]]]]; reflexivity.
  - intros c Hc. unfold getitem. rewrite columns_mkFrame, Hcols.
    rewrite (lookup_kept (String.eqb "index")).
    + rewrite (lookup_kept (fun n => has_name n ["traj_id"; "seg_id"; "DateTime"]));
        [reflexivity|].
      cbn [has_name existsb]. apply not_true_is_false. intros E.
      apply Hc. right.
      repeat (apply orb_prop in E; destruct E as [E|E];
              [apply String.eqb_eq in E; subst; cbn; tauto|]).
      discriminate.
    + apply String.eqb_neq. intros <-. apply Hc. left; reflexivity.
Qed.

End Segments.

Lemma segment_traj_by_week_result_layout_witness :
  exists out,
    segment_traj_by_week in_one_piece one_segment 6 walk = Return out /\
    map fst (index out) = [Some "traj_id"; Some "seg_id"; Some "DateTime"] /\
    column_names out = ["lat"; "lon"].
Proof.
  eexists. split; [reflexivity|].
  destruct (segment_traj_by_week_result_layout in_one_piece one_segment 6 walk _
              eq_refl) as (_ & H).
  destruct H as (flat & chunks & results & whole & wf & ids & segs & times & H).
  split; reflexivity.
Defined.

End StatisticsMore.
